(** * PDFrename: product-code generator and validator

    A shallow embedding of the pure parts of the renamer:

    - [ProductCodeGenerator] (assets/js/modules/productCode.js),
    - [Validator]            (assets/js/modules/ui.js),
    - [formatSwissNumber] / [parseSwissNumber] (WebApp/assets/js/utils/helpers.js).

    JavaScript strings are sequences of UTF-16 code units, so a string is a
    [list N] here: [length], [charAt], [substring] and the character classes
    of the regular expressions all count code units, exactly as the engine
    does for patterns without the [u] flag. *)

From Stdlib Require Import List NArith ZArith Bool Ascii String Lia.
From Stdlib Require Import DecimalPos DecimalN.
Import ListNotations.

Set Implicit Arguments.

(* ================================================================== *)
(** ** Strings *)
(* ================================================================== *)

Definition char16 := N.
Definition jstring := list char16.

Section Literals.

Local Open Scope char_scope.

Definition hexval (a : ascii) : option N :=
  let n := N_of_ascii a in
  if ((48 <=? n) && (n <=? 57))%N then Some (n - 48)%N
  else if ((97 <=? n) && (n <=? 102))%N then Some (n - 87)%N
  else if ((65 <=? n) && (n <=? 70))%N then Some (n - 55)%N
  else None.

Definition hex4 (a b c d : ascii) : option N :=
  match hexval a, hexval b, hexval c, hexval d with
  | Some x, Some y, Some z, Some w => Some (((x * 16 + y) * 16 + z) * 16 + w)%N
  | _, _, _, _ => None
  end.

(** [js] reads a source literal: every byte is its own code unit, and the
    JavaScript escape [\uXXXX] stands for the code unit [XXXX]. *)
Fixpoint js (s : string) : jstring :=
  match s with
  | EmptyString => []
  | String "\" (String "u" (String a (String b (String c (String d rest)))) as tl) =>
      match hex4 a b c d with
      | Some n => n :: js rest
      | None => 92%N :: js tl
      end
  | String c tl => N_of_ascii c :: js tl
  end.

End Literals.

Local Open Scope N_scope.

Fixpoint jstring_eqb (a b : jstring) : bool :=
  match a, b with
  | [], [] => true
  | x :: a', y :: b' => (x =? y) && jstring_eqb a' b'
  | _, _ => false
  end.

(** *** Character classes *)

Definition inRange (lo hi c : char16) : bool := (lo <=? c) && (c <=? hi).

(** [\d] *)
Definition isDigit (c : char16) : bool := inRange 48 57 c.

Definition isUpper (c : char16) : bool := inRange 65 90 c.
Definition isLower (c : char16) : bool := inRange 97 122 c.

(** The umlauts and the sharp s the source lists after [0-9]:
    \u00e4 \u00f6 \u00fc \u00c4 \u00d6 \u00dc \u00df. *)
Definition isUmlaut (c : char16) : bool :=
  existsb (N.eqb c) [228; 246; 252; 196; 214; 220; 223].

(** [\s], which is also what [String.prototype.trim] strips and what
    [parseInt] skips: WhiteSpace and LineTerminator of ECMA-262. *)
Definition isWhiteSpace (c : char16) : bool :=
  existsb (N.eqb c) [9; 10; 11; 12; 13; 32; 160; 5760; 8232; 8233; 8239; 8287; 12288; 65279]
  || inRange 8192 8202 c.

Definition APOSTROPHE : char16 := 39.

(** *** String methods *)

Fixpoint dropWhile (p : char16 -> bool) (s : jstring) : jstring :=
  match s with
  | [] => []
  | c :: s' => if p c then dropWhile p s' else s
  end.

Definition trimStart (s : jstring) : jstring := dropWhile isWhiteSpace s.
Definition trimEnd (s : jstring) : jstring := rev (dropWhile isWhiteSpace (rev s)).
Definition trim (s : jstring) : jstring := trimEnd (trimStart s).

Fixpoint startsWith (s prefix : jstring) : bool :=
  match prefix, s with
  | [], _ => true
  | p :: prefix', c :: s' => (c =? p) && startsWith s' prefix'
  | _ :: _, [] => false
  end.

Definition endsWith (s suffix : jstring) : bool := startsWith (rev s) (rev suffix).

(** [s.length] *)
Definition jlength (s : jstring) : N := N.of_nat (List.length s).

(** [s.charAt(0)]: the first code unit as a string, or the empty string. *)
Definition charAt0 (s : jstring) : jstring :=
  match s with
  | [] => []
  | c :: _ => [c]
  end.

(** [s.substring(0, n)] *)
Definition substring0 (n : nat) (s : jstring) : jstring := firstn n s.

(** [s.replace(/[class]/g, '')]: every code unit of the class is deleted. *)
Definition removeAll (p : char16 -> bool) (s : jstring) : jstring :=
  filter (fun c => negb (p c)) s.

(** [s.replace(/[class]+/g, by)]: every maximal run of the class becomes [by]. *)
Fixpoint replaceRunsFrom (p : char16 -> bool) (by_ : jstring) (inRun : bool)
    (s : jstring) : jstring :=
  match s with
  | [] => []
  | c :: s' =>
      if p c then (if inRun then [] else by_) ++ replaceRunsFrom p by_ true s'
      else c :: replaceRunsFrom p by_ false s'
  end.

Definition replaceRuns (p : char16 -> bool) (by_ : jstring) (s : jstring) : jstring :=
  replaceRunsFrom p by_ false s.

(** [parts.join(sep)] *)
Fixpoint join (sep : jstring) (parts : list jstring) : jstring :=
  match parts with
  | [] => []
  | [p] => p
  | p :: rest => p ++ sep ++ join sep rest
  end.

(** [s.split(c)] for a one-unit separator. *)
Fixpoint split (sep : char16) (s : jstring) : list jstring :=
  match s with
  | [] => [[]]
  | c :: s' =>
      if c =? sep then [] :: split sep s'
      else match split sep s' with
           | [] => [[c]]
           | p :: ps => (c :: p) :: ps
           end
  end.

Fixpoint takeWhile (p : char16 -> bool) (s : jstring) : jstring :=
  match s with
  | [] => []
  | c :: s' => if p c then c :: takeWhile p s' else []
  end.

(* ================================================================== *)
(** ** Numbers *)
(* ================================================================== *)

(** A Number is a double.  The model keeps the integers among them exactly,
    as [Z]; [NaN] is the only other value the modelled code can produce.
    Arithmetic on doubles is exact up to [MAX_SAFE_INTEGER], and that is as
    far as the model follows a value it has computed itself. *)
Inductive number : Type :=
| NaN
| Num (z : Z).

Definition MAX_SAFE_INTEGER : Z := 9007199254740991.

Definition isNaN (x : number) : bool :=
  match x with
  | NaN => true
  | Num _ => false
  end.

Fixpoint uintChars (d : Decimal.uint) : jstring :=
  match d with
  | Decimal.Nil => []
  | Decimal.D0 d' => 48 :: uintChars d'
  | Decimal.D1 d' => 49 :: uintChars d'
  | Decimal.D2 d' => 50 :: uintChars d'
  | Decimal.D3 d' => 51 :: uintChars d'
  | Decimal.D4 d' => 52 :: uintChars d'
  | Decimal.D5 d' => 53 :: uintChars d'
  | Decimal.D6 d' => 54 :: uintChars d'
  | Decimal.D7 d' => 55 :: uintChars d'
  | Decimal.D8 d' => 56 :: uintChars d'
  | Decimal.D9 d' => 57 :: uintChars d'
  end.

(** The decimal digits of a natural number, most significant first. *)
Definition digitsOf (n : N) : jstring := uintChars (N.to_uint n).

(** An integer of the range in which a Number holds every integer exactly.
    These are the Numbers of the model. *)
Record safeInteger : Type := mkSafeInteger {
  int_value : Z;
  int_safe : (Z.abs int_value <=? MAX_SAFE_INTEGER)%Z = true
}.

(** [Number.prototype.toString] on an integer of the safe range: its
    decimal digits.  Beyond that range the method prints a rounded value,
    and from 10^21 on exponent notation; the model applies it to a
    [safeInteger], behind the range check of [buildAuflageTeil], and to the
    bounds of the rule table only. *)
Definition numberToString (z : Z) : jstring :=
  if (z <? 0)%Z then 45 :: digitsOf (Z.abs_N z) else digitsOf (Z.to_N z).

(** The value of a string of decimal digits. *)
Definition digitsValue (ds : jstring) : N :=
  fold_left (fun acc c => acc * 10 + (c - 48)) ds 0.

(** An optional [-] or [+] in front of a numeric string. *)
Definition readSign (s : jstring) : bool * jstring :=
  match s with
  | c :: r => if c =? 45 then (true, r) else if c =? 43 then (false, r) else (false, s)
  | [] => (false, [])
  end.

(** [parseInt(s, 10)]: leading white space is skipped, a sign is read, and
    the longest run of decimal digits that follows is the value; with no
    digit the result is [NaN].  [-0] is kept as [0], which prints alike. *)
Definition parseInt10 (s : jstring) : number :=
  let '(negative, s2) := readSign (trimStart s) in
  match takeWhile isDigit s2 with
  | [] => NaN
  | ds => let v := Z.of_N (digitsValue ds) in
          Num (if negative then (- v)%Z else v)
  end.

(** *** Locale formatting

    [new Intl.NumberFormat(locale, { useGrouping: true }).format(n)] on a
    natural number: its decimal digits in groups of three from the right,
    with the locale's grouping separator between the groups. *)
Fixpoint groupFrom (sep : jstring) (k : nat) (ds : jstring) : jstring :=
  match ds with
  | [] => []
  | d :: ds' =>
      if Nat.eqb k 3 then rev sep ++ d :: groupFrom sep 1 ds'
      else d :: groupFrom sep (S k) ds'
  end.

Definition formatGrouped (sep : jstring) (n : N) : jstring :=
  rev (groupFrom sep 0 (rev (digitsOf n))).

Section Locale.

(** What the engine supplies: the grouping separator its locale data give
    for [de-CH].  [SWISS_FORMAT.LOCALE] is ['de-CH']; the [groupingSeparator]
    option the generator's constructor passes is not an option of
    [Intl.NumberFormat] and does not set it. *)
Variable groupSeparator : jstring.

(** helpers.js, [formatSwissNumber]; the same body is [Validator.formatSwissNumber]
    and [ProductCodeGenerator.formatSwissNumber]. *)
Definition formatSwissNumber (n : N) : jstring := formatGrouped groupSeparator n.

End Locale.

(** The class [[''\s]]: the apostrophe U+0027, written twice, and white
    space. *)
Definition strippable (c : char16) : bool := (c =? APOSTROPHE) || isWhiteSpace c.

(** helpers.js, [parseSwissNumber]. *)
Definition parseSwissNumber (formattedNumber : jstring) : number :=
  let cleaned := removeAll strippable formattedNumber in
  parseInt10 cleaned.

(* ================================================================== *)
(** ** Values, exceptions *)
(* ================================================================== *)

(** The values a form field or a lookup can hold.  [VNum n] is the Number
    of the safe integer [n]; [VProto key] is the member of [Object.prototype]
    stored under [key]: a built-in function, or for [__proto__] the
    prototype object itself. *)
Inductive jsval : Type :=
| VUndefined
| VNull
| VBool (b : bool)
| VNum (n : safeInteger)
| VStr (s : jstring)
| VProto (key : jstring).

Inductive exn : Type :=
| TypeError
| Error (message : jstring).

(** The outcome of a call: a value, an exception, or [Unmodelled] where the
    call leaves the integers the model keeps exactly. *)
Inductive result (A : Type) : Type :=
| Ok (a : A)
| Throw (e : exn)
| Unmodelled.

Arguments Ok {A} a.
Arguments Throw {A} e.
Arguments Unmodelled {A}.

Definition bind {A B : Type} (c : result A) (k : A -> result B) : result B :=
  match c with
  | Ok a => k a
  | Throw e => Throw e
  | Unmodelled => Unmodelled
  end.

Notation "x <- c ;; k" := (bind c (fun x => k))
  (at level 61, c at next level, right associativity).

(** [try { c } catch (error) { return h }] *)
Definition tryCatch {A : Type} (c : result A) (h : A) : result A :=
  match c with
  | Ok a => Ok a
  | Throw _ => Ok h
  | Unmodelled => Unmodelled
  end.

Definition jsval_eqb (a b : jsval) : bool :=
  match a, b with
  | VUndefined, VUndefined => true
  | VNull, VNull => true
  | VBool x, VBool y => Bool.eqb x y
  | VNum x, VNum y => (int_value x =? int_value y)%Z
  | VStr x, VStr y => jstring_eqb x y
  | VProto x, VProto y => jstring_eqb x y
  | _, _ => false
  end.

(** [a === b] *)
Definition strictEquals (a b : jsval) : bool := jsval_eqb a b.

(** ToBoolean *)
Definition truthy (v : jsval) : bool :=
  match v with
  | VUndefined | VNull => false
  | VBool b => b
  | VNum n => negb (int_value n =? 0)%Z
  | VStr s => negb (jstring_eqb s [])
  | VProto _ => true
  end.

(** The names [Object.prototype] defines; an object literal answers a
    lookup of any of them with the inherited member. *)
Definition objectPrototypeKeys : list jstring :=
  [ js "constructor"; js "hasOwnProperty"; js "isPrototypeOf";
    js "propertyIsEnumerable"; js "toLocaleString"; js "toString";
    js "valueOf"; js "__proto__"; js "__defineGetter__";
    js "__defineSetter__"; js "__lookupGetter__"; js "__lookupSetter__" ].

Definition isPrototypeKey (k : jstring) : bool :=
  existsb (jstring_eqb k) objectPrototypeKeys.

(** [obj[key]] on an object literal with the own properties [props]. *)
Fixpoint ownProperty {A : Type} (props : list (jstring * A)) (key : jstring) : option A :=
  match props with
  | [] => None
  | (k, v) :: rest => if jstring_eqb k key then Some v else ownProperty rest key
  end.

(* ================================================================== *)
(** ** Regular expressions *)
(* ================================================================== *)

(** The patterns of the validator use character classes, sequence,
    alternation and [+] only; for those [RegExp.prototype.test] is
    membership in the regular language, decided here by derivatives. *)
Inductive regex : Type :=
| Void
| Eps
| Cls (p : char16 -> bool)
| Cat (r1 r2 : regex)
| Alt (r1 r2 : regex)
| Star (r : regex).

Fixpoint nullable (r : regex) : bool :=
  match r with
  | Void => false
  | Eps => true
  | Cls _ => false
  | Cat r1 r2 => nullable r1 && nullable r2
  | Alt r1 r2 => nullable r1 || nullable r2
  | Star _ => true
  end.

Fixpoint deriv (c : char16) (r : regex) : regex :=
  match r with
  | Void => Void
  | Eps => Void
  | Cls p => if p c then Eps else Void
  | Cat r1 r2 =>
      if nullable r1 then Alt (Cat (deriv c r1) r2) (deriv c r2)
      else Cat (deriv c r1) r2
  | Alt r1 r2 => Alt (deriv c r1) (deriv c r2)
  | Star r' => Cat (deriv c r') (Star r')
  end.

Fixpoint matches (r : regex) (s : jstring) : bool :=
  match s with
  | [] => nullable r
  | c :: s' => matches (deriv c r) s'
  end.

(** The language of a pattern. *)
Inductive lang : regex -> jstring -> Prop :=
| lang_eps : lang Eps []
| lang_cls p c : p c = true -> lang (Cls p) [c]
| lang_cat r1 r2 s1 s2 : lang r1 s1 -> lang r2 s2 -> lang (Cat r1 r2) (s1 ++ s2)
| lang_alt_l r1 r2 s : lang r1 s -> lang (Alt r1 r2) s
| lang_alt_r r1 r2 s : lang r2 s -> lang (Alt r1 r2) s
| lang_star_nil r : lang (Star r) []
| lang_star_app r s1 s2 : lang r s1 -> lang (Star r) s2 -> lang (Star r) (s1 ++ s2).

Definition Chr (c : char16) : regex := Cls (N.eqb c).
Definition Plus (r : regex) : regex := Cat r (Star r).
Definition AnyStar : regex := Star (Cls (fun _ => true)).

(** A literal under the [i] flag: an ASCII letter matches in either case,
    and no code unit from 128 on matches an ASCII one. *)
Fixpoint LitNoCase (s : jstring) : regex :=
  match s with
  | [] => Eps
  | c :: s' =>
      let either x :=
        (x =? c) || (isUpper c && (x =? c + 32)) || (isLower c && (x =? c - 32)) in
      Cat (Cls either) (LitNoCase s')
  end.

(** [/^r$/.test(s)] and [/r/.test(s)]. *)
Definition testWhole (r : regex) (s : jstring) : bool := matches r s.
Definition testSearch (r : regex) (s : jstring) : bool :=
  matches (Cat AnyStar (Cat r AnyStar)) s.

(* ================================================================== *)
(** ** The host *)
(* ================================================================== *)

Section Host.

(** What the engine supplies and the sources only call:
    [String.prototype.toLowerCase] and [toUpperCase] (the Unicode case
    mappings), and the text a member of [Object.prototype] converts to. *)
Variable toLowerCase : jstring -> jstring.
Variable toUpperCase : jstring -> jstring.
Variable memberText : jstring -> jstring.

(** And the grouping separator of its [de-CH] locale data, which
    [formatSwissNumber] writes between the groups of three digits. *)
Variable groupSeparator : jstring.

(** ToString, as a template literal applies it. *)
Definition toStr (v : jsval) : jstring :=
  match v with
  | VUndefined => js "undefined"
  | VNull => js "null"
  | VBool true => js "true"
  | VBool false => js "false"
  | VNum n => numberToString (int_value n)
  | VStr s => s
  | VProto k => memberText k
  end.

(** [v.toString()] *)
Definition toStringMethod (v : jsval) : result jstring :=
  match v with
  | VUndefined | VNull => Throw TypeError
  | _ => Ok (toStr v)
  end.

(** [v.trim()]: only a string has the method. *)
Definition trimMethod (v : jsval) : result jstring :=
  match v with
  | VStr s => Ok (trim s)
  | _ => Throw TypeError
  end.

(* ================================================================== *)
(** ** ProductCodeGenerator (productCode.js) *)
(* ================================================================== *)

Record FormData : Type := mkFormData {
  auftragsnummer : jsval;
  kunde : jsval;
  auftragsposition : jsval;
  maschine : jsval;
  auflage : jsval;
  produkt : jsval;
  papierart : jsval;
  papiername : jsval
}.

(** [formData[field]]; a property the record lacks reads as [undefined]. *)
Definition getField (formData : FormData) (field : jstring) : jsval :=
  match ownProperty
          [ (js "auftragsnummer", auftragsnummer formData);
            (js "kunde", kunde formData);
            (js "auftragsposition", auftragsposition formData);
            (js "maschine", maschine formData);
            (js "auflage", auflage formData);
            (js "produkt", produkt formData);
            (js "papierart", papierart formData);
            (js "papiername", papiername formData) ] field with
  | Some v => v
  | None => if isPrototypeKey field then VProto field else VUndefined
  end.

Record ConfigEntry : Type := mkEntry {
  entry_name : jstring;
  entry_code : jstring;
  entry_type : option jstring
}.

(** [None] is an absent array: [config.machines?.find] is then [undefined]. *)
Record Config : Type := mkConfig {
  machines : option (list ConfigEntry);
  products : option (list ConfigEntry);
  papers : option (list ConfigEntry)
}.

Definition requiredFields : list jstring :=
  [ js "auftragsnummer"; js "kunde"; js "auftragsposition";
    js "maschine"; js "auflage"; js "produkt"; js "papierart"; js "papiername" ].

(** [value && value.toString().trim() !== ''] *)
Definition fieldPresent (value : jsval) : bool :=
  truthy value && negb (jstring_eqb (trim (toStr value)) []).

Definition validateInput (formData : FormData) : bool :=
  forallb (fun field => fieldPresent (getField formData field)) requiredFields.

(** [array?.find(e => e.code === value)], then [found ? found.code : value]. *)
Definition lookupCode (entries : option (list ConfigEntry)) (value : jsval) : jsval :=
  match entries with
  | None => value
  | Some l =>
      match find (fun e => strictEquals (VStr (entry_code e)) value) l with
      | Some e => VStr (entry_code e)
      | None => value
      end
  end.

Definition getMachineCode (machineValue : jsval) (config : Config) : jsval :=
  lookupCode (machines config) machineValue.

Definition getProductCode (productValue : jsval) (config : Config) : jsval :=
  lookupCode (products config) productValue.

Definition getPaperCode (paperValue : jsval) (config : Config) : jsval :=
  lookupCode (papers config) paperValue.

Definition typeMap : list (jstring * jstring) :=
  [ (js "gestrichen", js "g_s"); (js "ungestrichen", js "u_s") ].

(** [typeMap[papierart]]: an own entry, else what the literal inherits. *)
Definition typeMapLookup (key : jstring) : jsval :=
  match ownProperty typeMap key with
  | Some codeText => VStr codeText
  | None => if isPrototypeKey key then VProto key else VUndefined
  end.

(** [typeMap[papierart] || `${papierart.charAt(0).toLowerCase()}_s`] *)
Definition getPaperTypeCode (papierart_ : jsval) : result jsval :=
  let found := typeMapLookup (toStr papierart_) in
  if truthy found then Ok found
  else match papierart_ with
       | VStr s => Ok (VStr (toLowerCase (charAt0 s) ++ js "_s"))
       | _ => Throw TypeError
       end.

(** The class [sanitizeText] keeps:
    [[a-zA-Z0-9\u00e4\u00f6\u00fc\u00c4\u00d6\u00dc\u00df\-_]]. *)
Definition allowedChar (c : char16) : bool :=
  isLower c || isUpper c || isDigit c || isUmlaut c || (c =? 45) || (c =? 95).

Definition sanitizeText (text : jstring) : jstring :=
  substring0 20
    (replaceRuns isWhiteSpace (js "-")
       (removeAll (fun c => negb (allowedChar c)) (trim text))).

Definition buildAuftragsTeil (formData : FormData) : result jstring :=
  auftragsnummer_ <- trimMethod (auftragsnummer formData) ;;
  position_ <- toStringMethod (auftragsposition formData) ;;
  let position := trim position_ in
  let cleanAuftrag :=
    if startsWith auftragsnummer_ (js "A") then auftragsnummer_
    else js "A" ++ auftragsnummer_ in
  Ok (cleanAuftrag ++ js "-" ++ position).

Definition buildKundenTeil (formData : FormData) (config : Config) : result jstring :=
  match kunde formData with
  | VStr text =>
      let kunde_ := sanitizeText text in
      let produktCode := getProductCode (produkt formData) config in
      Ok (kunde_ ++ js "-" ++ toStr produktCode)
  | _ => Throw TypeError
  end.

Definition buildMaschineTeil (formData : FormData) (config : Config) : result jstring :=
  let maschinenCode := getMachineCode (maschine formData) config in
  papierartCode <- getPaperTypeCode (papierart formData) ;;
  let papiernameCode := getPaperCode (papiername formData) config in
  Ok (toStr maschinenCode ++ js "_" ++ toStr papierartCode ++ js "_" ++ toStr papiernameCode).

Definition buildAuflageTeil (formData : FormData) : result jstring :=
  text <- toStringMethod (auflage formData) ;;
  let auflageStr := removeAll isWhiteSpace (removeAll (N.eqb APOSTROPHE) text) in
  let auflageNum := parseInt10 auflageStr in
  if isNaN auflageNum then Throw (Error (js "Ung\u00fcltige Auflage"))
  else
    match auflageNum with
    | Num z =>
        if (Z.abs z <=? MAX_SAFE_INTEGER)%Z then Ok (numberToString z)
        else Unmodelled
    | NaN => Ok (js "NaN")
    end.

Definition buildPapierTeil (formData : FormData) (config : Config) : result jstring :=
  let papiernameCode := getPaperCode (papiername formData) config in
  Ok (js "D-" ++ toStr papiernameCode).

Record CodeParts : Type := mkParts {
  auftragsTeil : jstring;
  kundenTeil : jstring;
  maschineTeil : jstring;
  auflageTeil : jstring;
  papierTeil : jstring
}.

Definition buildCodeParts (formData : FormData) (config : Config) : result CodeParts :=
  a <- buildAuftragsTeil formData ;;
  k <- buildKundenTeil formData config ;;
  m <- buildMaschineTeil formData config ;;
  q <- buildAuflageTeil formData ;;
  p <- buildPapierTeil formData config ;;
  Ok (mkParts a k m q p).

Definition assembleCode (parts : CodeParts) : jstring :=
  join (js "#")
    [ auftragsTeil parts; kundenTeil parts; maschineTeil parts;
      auflageTeil parts; papierTeil parts ] ++ js "#".

Definition generate (formData : FormData) (config : Config) : result jstring :=
  tryCatch
    (if negb (validateInput formData) then Ok []
     else parts <- buildCodeParts formData config ;;
          Ok (assembleCode parts))
    [].

(* ================================================================== *)
(** ** Validator (ui.js) *)
(* ================================================================== *)

Record Rules : Type := mkRules {
  rule_required : bool;
  rule_pattern : option regex;
  rule_minLength : option N;
  rule_maxLength : option N;
  rule_min : option Z;
  rule_max : option Z;
  rule_enum : option (list jstring);
  rule_message : option jstring
}.

(** [{ ...undefined }]: the rules of a field the table does not name. *)
Definition noRules : Rules := mkRules false None None None None None None None.

Definition isWordChar (c : char16) : bool :=
  isLower c || isUpper c || isDigit c || isUmlaut c.

(** [[a-zA-Z0-9\u00e4\u00f6\u00fc\u00c4\u00d6\u00dc\u00df\s\-_&.]] *)
Definition kundeChar (c : char16) : bool :=
  isWordChar c || isWhiteSpace c || (c =? 45) || (c =? 95) || (c =? 38) || (c =? 46).

(** [[a-zA-Z0-9\u00e4\u00f6\u00fc\u00c4\u00d6\u00dc\u00df\s\-_.]] *)
Definition nameChar (c : char16) : bool :=
  isWordChar c || isWhiteSpace c || (c =? 45) || (c =? 95) || (c =? 46).

(** [[A-Z0-9_-]] *)
Definition upperCodeChar (c : char16) : bool :=
  isUpper c || isDigit c || (c =? 95) || (c =? 45).

(** [[A-Za-z0-9_-]] *)
Definition codeChar (c : char16) : bool :=
  isUpper c || isLower c || isDigit c || (c =? 95) || (c =? 45).

(** [[\d''\s]] *)
Definition auflageChar (c : char16) : bool :=
  isDigit c || (c =? APOSTROPHE) || isWhiteSpace c.

(** [/^A\d+$/] *)
Definition auftragsnummerPattern : regex := Cat (Chr 65) (Plus (Cls isDigit)).

(** [/^\d+$/] *)
Definition digitsPattern : regex := Plus (Cls isDigit).

Definition textRule (cls : char16 -> bool) (minLen maxLen : N) (msg : jstring) : Rules :=
  mkRules true (Some (Plus (Cls cls))) (Some minLen) (Some maxLen) None None None (Some msg).

Definition auftragsnummerMessage : jstring :=
  js "Auftragsnummer muss mit \u0022A\u0022 beginnen und Zahlen enthalten (z.B. A12345)".

Definition getValidationRules : list (jstring * Rules) :=
  [ (js "auftragsnummer",
     mkRules true (Some auftragsnummerPattern) (Some 2) (Some 20) None None None
       (Some auftragsnummerMessage));
    (js "kunde",
     textRule kundeChar 1 50
       (js "Kundenname darf nur Buchstaben, Zahlen und die Zeichen - _ & . enthalten"));
    (js "auftragsposition",
     mkRules true (Some digitsPattern) None None (Some 0%Z) (Some 999%Z) None
       (Some (js "Auftragsposition muss eine Zahl zwischen 0 und 999 sein")));
    (js "auflage",
     mkRules true (Some (Plus (Cls auflageChar))) None None (Some 1%Z) (Some 1000000%Z) None
       (Some (js "Auflage muss eine positive Zahl sein (z.B. 1'200)")));
    (js "maschine",
     textRule upperCodeChar 1 20 (js "Maschine muss ausgew\u00e4hlt werden"));
    (js "produkt",
     textRule upperCodeChar 1 20 (js "Produkt muss ausgew\u00e4hlt werden"));
    (js "papierart",
     mkRules true None None None None None
       (Some [js "gestrichen"; js "ungestrichen"])
       (Some (js "Papierart muss ausgew\u00e4hlt werden")));
    (js "papiername",
     textRule codeChar 1 30 (js "Papiername muss ausgew\u00e4hlt werden"));
    (js "machineName",
     textRule nameChar 1 30
       (js "Maschinenname darf nur Buchstaben, Zahlen und - _ . enthalten"));
    (js "machineCode",
     textRule upperCodeChar 1 10
       (js "Maschinencode darf nur Grossbuchstaben, Zahlen, _ und - enthalten"));
    (js "productName",
     textRule nameChar 1 30
       (js "Produktname darf nur Buchstaben, Zahlen und - _ . enthalten"));
    (js "productCode",
     textRule upperCodeChar 1 10
       (js "Produktcode darf nur Grossbuchstaben, Zahlen, _ und - enthalten"));
    (js "paperName",
     textRule nameChar 1 30
       (js "Papiername darf nur Buchstaben, Zahlen und - _ . enthalten"));
    (js "paperCode",
     textRule codeChar 1 15
       (js "Papiercode darf nur Buchstaben, Zahlen, _ und - enthalten")) ].

(** [{ ...this.rules[fieldName], ...customRules }] with no custom rules.
    An inherited member of the table has no own enumerable property, so it
    spreads to the empty rule set like [undefined] does. *)
Definition rulesFor (fieldName : jstring) : Rules :=
  match ownProperty getValidationRules fieldName with
  | Some r => r
  | None => noRules
  end.

Definition isEmpty (value : jsval) : bool :=
  match value with
  | VNull | VUndefined => true
  | VStr s => jstring_eqb (trim s) []
  | _ => false
  end.

Definition displayNames : list (jstring * jstring) :=
  [ (js "auftragsnummer", js "Auftragsnummer");
    (js "kunde", js "Kunde");
    (js "auftragsposition", js "Auftragsposition");
    (js "maschine", js "Maschine");
    (js "auflage", js "Auflage");
    (js "produkt", js "Produkt");
    (js "papierart", js "Papierart");
    (js "papiername", js "Papiername");
    (js "machineName", js "Maschinenname");
    (js "machineCode", js "Maschinencode");
    (js "productName", js "Produktname");
    (js "productCode", js "Produktcode");
    (js "paperName", js "Papiername");
    (js "paperCode", js "Papiercode") ].

(** [displayNames[fieldName] || fieldName], as the messages print it. *)
Definition getFieldDisplayName (fieldName : jstring) : jstring :=
  match ownProperty displayNames fieldName with
  | Some d => if jstring_eqb d [] then fieldName else d
  | None => if isPrototypeKey fieldName then memberText fieldName else fieldName
  end.

Definition normalizeValue (fieldName value : jstring) : jstring :=
  if jstring_eqb fieldName (js "kunde") then trim value
  else if jstring_eqb fieldName (js "auftragsnummer") then toUpperCase value
  else if jstring_eqb fieldName (js "machineCode")
          || jstring_eqb fieldName (js "productCode") then toUpperCase value
  else if jstring_eqb fieldName (js "auflage") then value
  else trim value.

(** A validation result: [{ valid: true, value, normalizedValue? }] or
    [{ valid: false, error, code }]. *)
Inductive vresult : Type :=
| Valid (value : jsval) (normalizedValue : option jstring)
| Invalid (error code : jstring).

Definition isValid (r : vresult) : bool :=
  match r with
  | Valid _ _ => true
  | Invalid _ _ => false
  end.

(** [parseFloat] where its reading is an integer.  A fraction, an exponent
    or [Infinity] would leave the integers; the model stops there. *)
Definition parseFloat (s : jstring) : result number :=
  let '(negative, s2) := readSign (trimStart s) in
  let ds := takeWhile isDigit s2 in
  let rest := dropWhile isDigit s2 in
  if match rest with
     | c :: _ => existsb (N.eqb c) [46; 101; 69; 73]
     | [] => false
     end
  then Unmodelled
  else
    match ds with
    | [] => Ok NaN
    | _ => let v := Z.of_N (digitsValue ds) in
           Ok (Num (if negative then (- v)%Z else v))
    end.

Inductive auflageResult : Type :=
| AuflageValid (value : jstring) (numericValue : number) (formattedValue : jstring)
| AuflageInvalid (error code : jstring).

Definition validateAuflage (value : jstring) : auflageResult :=
  let cleanValue := removeAll strippable value in
  if negb (testWhole digitsPattern cleanValue)
  then AuflageInvalid (js "Auflage muss eine Zahl sein (z.B. 1'200 oder 1200)")
                      (js "NOT_NUMERIC")
  else
    match parseInt10 cleanValue with
    | NaN => AuflageValid value NaN (js "NaN")
    | Num numValue =>
        if (numValue <? 1)%Z
        then AuflageInvalid (js "Auflage muss mindestens 1 sein") (js "TOO_SMALL")
        else if (numValue >? 1000000)%Z
        then AuflageInvalid (js "Auflage darf maximal 1'000'000 sein") (js "TOO_LARGE")
        else AuflageValid value (Num numValue)
               (formatSwissNumber groupSeparator (Z.to_N numValue))
    end.

Definition validateAuftragsnummer (value : jstring) : vresult :=
  if negb (startsWith value (js "A"))
  then Invalid (js "Auftragsnummer muss mit \u0022A\u0022 beginnen") (js "INVALID_PREFIX")
  else if negb (testWhole auftragsnummerPattern value)
  then Invalid (js "Auftragsnummer darf nur \u0022A\u0022 gefolgt von Zahlen enthalten")
               (js "INVALID_FORMAT")
  else if jlength value <? 2
  then Invalid (js "Auftragsnummer muss mindestens eine Zahl nach \u0022A\u0022 enthalten")
               (js "TOO_SHORT")
  else Valid (VStr value) None.

(** The numeric checks of [validateField]. *)
Definition checkBounds (rules : Rules) (display stringValue : jstring)
    : result (option vresult) :=
  numValue <- parseFloat stringValue ;;
  match numValue with
  | NaN => Ok (Some (Invalid (display ++ js " muss eine Zahl sein") (js "NOT_NUMERIC")))
  | Num z =>
      match rule_min rules with
      | Some lo =>
          if (z <? lo)%Z
          then Ok (Some (Invalid (display ++ js " muss mindestens " ++ numberToString lo
                                    ++ js " sein") (js "MIN_VALUE")))
          else
            match rule_max rules with
            | Some hi =>
                if (z >? hi)%Z
                then Ok (Some (Invalid (display ++ js " darf maximal " ++ numberToString hi
                                          ++ js " sein") (js "MAX_VALUE")))
                else Ok None
            | None => Ok None
            end
      | None =>
          match rule_max rules with
          | Some hi =>
              if (z >? hi)%Z
              then Ok (Some (Invalid (display ++ js " darf maximal " ++ numberToString hi
                                        ++ js " sein") (js "MAX_VALUE")))
              else Ok None
          | None => Ok None
          end
      end
  end.

Definition isSome {A : Type} (o : option A) : bool :=
  match o with
  | Some _ => true
  | None => false
  end.

Definition validateField (fieldName : jstring) (value : jsval) : result vresult :=
  let rules := rulesFor fieldName in
  let display := getFieldDisplayName fieldName in
  if rule_required rules && isEmpty value
  then Ok (Invalid (display ++ js " ist erforderlich") (js "REQUIRED"))
  else if isEmpty value && negb (rule_required rules)
  then Ok (Valid value None)
  else
    let stringValue := trim (toStr value) in
    let len := jlength stringValue in
    if match rule_pattern rules with
       | Some re => negb (testWhole re stringValue)
       | None => false
       end
    then Ok (Invalid
               match rule_message rules with
               | Some m => if jstring_eqb m [] then display ++ js " hat ung\u00fcltiges Format" else m
               | None => display ++ js " hat ung\u00fcltiges Format"
               end
               (js "PATTERN"))
    else if match rule_minLength rules with
            | Some n => negb (n =? 0) && (len <? n)
            | None => false
            end
    then Ok (Invalid (display ++ js " muss mindestens "
                        ++ match rule_minLength rules with
                           | Some n => digitsOf n
                           | None => js "undefined"
                           end
                        ++ js " Zeichen haben") (js "MIN_LENGTH"))
    else if match rule_maxLength rules with
            | Some n => negb (n =? 0) && (n <? len)
            | None => false
            end
    then Ok (Invalid (display ++ js " darf maximal "
                        ++ match rule_maxLength rules with
                           | Some n => digitsOf n
                           | None => js "undefined"
                           end
                        ++ js " Zeichen haben") (js "MAX_LENGTH"))
    else
      bounds <- (if (isSome (rule_min rules) || isSome (rule_max rules))
                    && negb (jstring_eqb fieldName (js "auflage"))
                 then checkBounds rules display stringValue
                 else Ok None) ;;
      match bounds with
      | Some failure => Ok failure
      | None =>
          match (if jstring_eqb fieldName (js "auflage")
                 then validateAuflage stringValue
                 else AuflageValid stringValue NaN []) with
          | AuflageInvalid e c => Ok (Invalid e c)
          | AuflageValid _ _ _ =>
              if match rule_enum rules with
                 | Some allowed => negb (existsb (jstring_eqb stringValue) allowed)
                 | None => false
                 end
              then Ok (Invalid (display ++ js " muss einer der folgenden Werte sein: "
                                  ++ match rule_enum rules with
                                     | Some allowed => join (js ", ") allowed
                                     | None => []
                                     end) (js "INVALID_ENUM"))
              else
                match (if jstring_eqb fieldName (js "auftragsnummer")
                       then validateAuftragsnummer stringValue
                       else Valid (VStr stringValue) None) with
                | Invalid e c => Ok (Invalid e c)
                | Valid _ _ =>
                    Ok (Valid (VStr stringValue)
                              (Some (normalizeValue fieldName stringValue)))
                end
          end
      end.

(** [obj[key] = v] on an object kept as its list of own properties. *)
Fixpoint setProperty {A : Type} (props : list (jstring * A)) (key : jstring) (v : A)
    : list (jstring * A) :=
  match props with
  | [] => [(key, v)]
  | (k, x) :: rest =>
      if jstring_eqb k key then (k, v) :: rest else (k, x) :: setProperty rest key v
  end.

Record FieldError : Type := mkFieldError {
  err_field : jstring;
  err_error : jstring;
  err_code : jstring
}.

Record Summary : Type := mkSummary {
  totalFields : nat;
  validFields : nat;
  invalidFields : nat;
  errorCount : nat;
  isComplete : bool
}.

Record FormResult : Type := mkFormResult {
  form_valid : bool;
  form_errors : list FieldError;
  form_results : list (jstring * vresult);
  form_summary : Summary
}.

(** The three variables the [forEach] callback of [validateForm] updates. *)
Record FormState : Type := mkFormState {
  st_results : list (jstring * vresult);
  st_errors : list FieldError;
  st_allValid : bool
}.

Definition validateFormStep (formData : FormData) (st : FormState) (field : jstring)
    : result FormState :=
  let value := getField formData field in
  result_ <- validateField field value ;;
  let results := setProperty (st_results st) field result_ in
  match result_ with
  | Invalid e c =>
      Ok (mkFormState results (st_errors st ++ [mkFieldError field e c]) false)
  | Valid _ _ => Ok (mkFormState results (st_errors st) (st_allValid st))
  end.

(** [fields.forEach(callback)] over a state. *)
Fixpoint forEach {S : Type} (callback : S -> jstring -> result S)
    (fields : list jstring) (st : S) : result S :=
  match fields with
  | [] => Ok st
  | f :: rest => st' <- callback st f ;; forEach callback rest st'
  end.

Definition validateCrossFields (formData : FormData) : bool * list FieldError :=
  let errors : list FieldError := [] in
  (Nat.eqb (List.length errors) 0, errors).

Definition generateValidationSummary (results : list (jstring * vresult))
    (errors : list FieldError) : Summary :=
  let total := List.length results in
  let valid := List.length (filter (fun kv => isValid (snd kv)) results) in
  mkSummary total valid (total - valid) (List.length errors)
            (Nat.eqb valid total && Nat.eqb (List.length errors) 0).

Definition validateForm (formData : FormData) : result FormResult :=
  st <- forEach (validateFormStep formData) requiredFields (mkFormState [] [] true) ;;
  let crossValidation := validateCrossFields formData in
  let st' :=
    if negb (fst crossValidation)
    then mkFormState (st_results st) (st_errors st ++ snd crossValidation) false
    else st in
  Ok (mkFormResult (st_allValid st') (st_errors st') (st_results st')
        (generateValidationSummary (st_results st') (st_errors st'))).

(** *** Files *)

Record File : Type := mkFile {
  file_name : jstring;
  file_size : Z;
  file_type : jstring
}.

Inductive fileResult : Type :=
| FileValid (fileInfo : File)
| FileInvalid (error code : jstring).

(** The class of [invalidChars]: less-than, greater-than, colon, double
    quote, slash, backslash, bar, question mark, star, and the control
    characters 0x00 to 0x1f. *)
Definition invalidFileChar (c : char16) : bool :=
  existsb (N.eqb c) [60; 62; 58; 34; 47; 92; 124; 63; 42] || (c <=? 31).

(** [/^(CON|PRN|AUX|NUL|COM[1-9]|LPT[1-9])(\.|$)/i]: after the name either
    a dot, and then anything, or the end of the input. *)
Definition reservedNames : regex :=
  let port (stem : jstring) := Cat (LitNoCase stem) (Cls (inRange 49 57)) in
  let names :=
    Alt (LitNoCase (js "CON"))
      (Alt (LitNoCase (js "PRN"))
         (Alt (LitNoCase (js "AUX"))
            (Alt (LitNoCase (js "NUL"))
               (Alt (port (js "COM")) (port (js "LPT")))))) in
  Cat names (Alt Eps (Cat (Chr 46) AnyStar)).

Definition validateFileName (fileName : jstring) : vresult :=
  if testSearch (Cls invalidFileChar) fileName
  then Invalid (js "Dateiname enth\u00e4lt ung\u00fcltige Zeichen") (js "INVALID_CHARACTERS")
  else if testWhole reservedNames fileName
  then Invalid (js "Dateiname ist ein reservierter Name") (js "RESERVED_NAME")
  else if 255 <? jlength fileName
  then Invalid (js "Dateiname ist zu lang (max. 255 Zeichen)") (js "TOO_LONG")
  else Valid (VStr fileName) None.

Definition maxSize : Z := 100 * 1024 * 1024.

(** [this.formatFileSize(maxSize)], the one call of it on this path:
    floor(log(104857600) / log(1024)) is 2, and 100.00 prints as [100]. *)
Definition formatFileSize_maxSize : jstring := js "100 MB".

(** [None] is a missing file ([!file]). *)
Definition validateFile (file : option File) : fileResult :=
  match file with
  | None => FileInvalid (js "Keine Datei ausgew\u00e4hlt") (js "NO_FILE")
  | Some f =>
      if (file_size f >? maxSize)%Z
      then FileInvalid (js "Datei zu gross. Maximum: " ++ formatFileSize_maxSize)
                       (js "FILE_TOO_LARGE")
      else if (file_size f =? 0)%Z
      then FileInvalid (js "Datei ist leer") (js "EMPTY_FILE")
      else if negb (existsb (jstring_eqb (file_type f)) [js "application/pdf"])
      then FileInvalid (js "Nur PDF-Dateien sind erlaubt") (js "INVALID_FILE_TYPE")
      else
        let fileName := toLowerCase (file_name f) in
        if negb (endsWith fileName (js ".pdf"))
        then FileInvalid (js "Datei muss die Endung .pdf haben") (js "INVALID_FILE_EXTENSION")
        else
          match validateFileName (file_name f) with
          | Invalid e c => FileInvalid e c
          | Valid _ _ => FileValid (mkFile (file_name f) (file_size f) (file_type f))
          end
  end.

End Host.

(* ================================================================== *)
(** ** ProductCodeGenerator: reading a code back (productCode.js) *)
(* ================================================================== *)

(** [list[i]]: the element, or [undefined] past the end. *)
Definition elementAt (l : list jstring) (i : nat) : jsval :=
  match nth_error l i with
  | Some s => VStr s
  | None => VUndefined
  end.

(** [list[i]] as an operand of a string concatenation. *)
Definition elementText (l : list jstring) (i : nat) : jstring :=
  match nth_error l i with
  | Some s => s
  | None => js "undefined"
  end.

Record ParsedCode : Type := mkParsedCode {
  parsed_auftrag : jsval;
  parsed_position : jsval;
  parsed_kunde : jsval;
  parsed_produkt : jsval;
  parsed_maschine : jsval;
  parsed_papierart : jstring;
  parsed_papiername : jsval;
  parsed_auflage : jstring;
  parsed_papierPrefix : jsval;
  parsed_papierSuffix : jsval
}.

Definition parseCode (productCode : jstring) : result ParsedCode :=
  let parts := split 35 productCode in
  if (List.length parts <? 5)%nat
  then Throw (Error (js "Ung\u00fcltiger Produktcode-Format"))
  else
    match parts with
    | auftragTeil_ :: kundenTeil_ :: maschineTeil_ :: auflageTeil_ :: papierTeil_ :: _ =>
        Ok (mkParsedCode
              (elementAt (split 45 auftragTeil_) 0)
              (elementAt (split 45 auftragTeil_) 1)
              (elementAt (split 45 kundenTeil_) 0)
              (elementAt (split 45 kundenTeil_) 1)
              (elementAt (split 95 maschineTeil_) 0)
              (elementText (split 95 maschineTeil_) 1 ++ js "_"
                 ++ elementText (split 95 maschineTeil_) 2)
              (elementAt (split 95 maschineTeil_) 3)
              auflageTeil_
              (elementAt (split 45 papierTeil_) 0)
              (elementAt (split 45 papierTeil_) 1))
    | _ => Throw TypeError
    end.

(** [{ valid: true, parsed }] or [{ valid: false, error }]. *)
Inductive codeCheck : Type :=
| CodeValid (parsed : ParsedCode)
| CodeInvalid (error : jstring).

Definition isCodeValid (c : codeCheck) : bool :=
  match c with
  | CodeValid _ => true
  | CodeInvalid _ => false
  end.

(** [error.message] of a [TypeError] is worded by the engine; [parseCode]
    raises none on a string. *)
Definition validateCode (productCode : jstring) : result codeCheck :=
  match parseCode productCode with
  | Ok parsed => Ok (CodeValid parsed)
  | Throw (Error message) => Ok (CodeInvalid message)
  | Throw TypeError => Unmodelled
  | Unmodelled => Unmodelled
  end.

(** [a && b] *)
Definition jsAnd (a b : jsval) : jsval := if truthy a then b else a.

(** The application's [isFormValid] (helpers.js). *)
Definition isFormValid (formData : FormData) : jsval :=
  jsAnd (jsAnd (jsAnd (jsAnd (jsAnd (jsAnd (jsAnd
    (auftragsnummer formData) (kunde formData)) (auftragsposition formData))
    (maschine formData)) (auflage formData)) (produkt formData))
    (papierart formData)) (papiername formData).

(* ================================================================== *)
(** ** The preview of the application (helpers.js) *)
(* ================================================================== *)

(** [classList.remove(name)] and [classList.add(name)] on the class names
    of an element. *)
Definition classRemove (name : jstring) (classes : list jstring) : list jstring :=
  filter (fun c => negb (jstring_eqb c name)) classes.

Definition classAdd (name : jstring) (classes : list jstring) : list jstring :=
  if existsb (jstring_eqb name) classes then classes else classes ++ [name].

(** The text of [#generatedCode] and the classes of its parent. *)
Record Preview : Type := mkPreview {
  textContent : jstring;
  parentClasses : list jstring
}.

(** [updateProductCode], on the form data [getFormData] has collected. *)
Definition updateProductCode (toLowerCase memberText : jstring -> jstring)
    (formData : FormData) (config : Config) (before : Preview) : result Preview :=
  productCode <- generate toLowerCase memberText formData config ;;
  if truthy (jsAnd (VStr productCode) (isFormValid formData))
  then Ok (mkPreview productCode
             (classAdd (js "success") (classRemove (js "error") (parentClasses before))))
  else Ok (mkPreview (js "Bitte alle Felder ausf\u00fcllen...")
             (classRemove (js "success") (parentClasses before))).

(* ================================================================== *)
(** ** FileHandler (ui.js) *)
(* ================================================================== *)

Fixpoint lastIndexFrom (c : char16) (s : jstring) (i found : Z) : Z :=
  match s with
  | [] => found
  | x :: s' => lastIndexFrom c s' (i + 1)%Z (if x =? c then i else found)
  end.

(** [s.lastIndexOf(c)]: the last position of [c], or -1. *)
Definition lastIndexOf (s : jstring) (c : char16) : Z := lastIndexFrom c s 0%Z (-1)%Z.

(** [s.substring(i)] and [s.substring(0, i)] *)
Definition substringFrom (i : Z) (s : jstring) : jstring := skipn (Z.to_nat i) s.
Definition substringTo (i : Z) (s : jstring) : jstring := firstn (Z.to_nat i) s.

Definition getFileExtension (fileName : jstring) : jstring :=
  let lastDotIndex := lastIndexOf fileName 46 in
  if negb (lastDotIndex =? -1)%Z then substringFrom lastDotIndex fileName else [].

Definition getFileNameWithoutExtension (fileName : jstring) : jstring :=
  let lastDotIndex := lastIndexOf fileName 46 in
  if negb (lastDotIndex =? -1)%Z then substringTo lastDotIndex fileName else fileName.

Definition isValidFileName (fileName : jstring) : bool :=
  negb (testSearch (Cls invalidFileChar) fileName)
  && negb (testWhole reservedNames fileName)
  && (0 <? jlength fileName)
  && (jlength fileName <=? 255).

(** [s.replace(/[class]/g, by)] and [s.replace(/[class]/, by)] with a
    one-unit replacement: every match, or the first one only. *)
Definition replaceEach (p : char16 -> bool) (by_ : char16) (s : jstring) : jstring :=
  map (fun c => if p c then by_ else c) s.

Fixpoint replaceFirst (p : char16 -> bool) (by_ : char16) (s : jstring) : jstring :=
  match s with
  | [] => []
  | c :: s' => if p c then by_ :: s' else c :: replaceFirst p by_ s'
  end.

(** [s.replace(/^[class]+|[class]+$/g, '')] *)
Definition stripEnds (p : char16 -> bool) (s : jstring) : jstring :=
  rev (dropWhile p (rev (dropWhile p s))).

Definition isUnderscore (c : char16) : bool := c =? 95.

(** The class of [FileHandler.sanitizeFileName]: the nine punctuation
    marks of [invalidFileChar], without the control characters. *)
Definition punctuationChar (c : char16) : bool :=
  existsb (N.eqb c) [60; 62; 58; 34; 47; 92; 124; 63; 42].

Definition sanitizeFileNameWith (invalid : char16 -> bool) (fileName : jstring) : jstring :=
  substring0 255
    (stripEnds (fun c => isWhiteSpace c || (c =? 46))
       (replaceRuns isUnderscore (js "_")
          (replaceEach invalid 95 fileName))).

(** [FileHandler.sanitizeFileName] (ui.js) *)
Definition sanitizeFileName (fileName : jstring) : jstring :=
  sanitizeFileNameWith punctuationChar fileName.

(** [HotfolderAPI.sanitizeFileName] (helpers.js) *)
Definition hotfolderSanitizeFileName (fileName : jstring) : jstring :=
  sanitizeFileNameWith invalidFileChar fileName.

(** [sanitizeForFilename] (helpers.js); [INVALID_FILENAME_CHARS] has no [g]
    flag, so its [replace] touches the first match only. *)
Definition sanitizeForFilename (text : jstring) (maxLength : nat) : jstring :=
  substring0 maxLength
    (stripEnds (fun c => (c =? 46) || (c =? 95))
       (replaceRuns isUnderscore (js "_")
          (replaceRuns isWhiteSpace (js "_")
             (replaceFirst invalidFileChar 95 (trim text))))).

(** A [File] with the [lastModified] stamp the handler also reads. *)
Record HandledFile : Type := mkHandledFile {
  handled : File;
  lastModified : Z
}.

Record HandlerFileInfo : Type := mkHandlerFileInfo {
  info_name : jstring;
  info_size : Z;
  info_type : jstring;
  info_lastModified : Z;
  info_extension : jstring
}.

Inductive handlerResult : Type :=
| HandlerValid (fileInfo : HandlerFileInfo)
| HandlerInvalid (error : jstring).

Definition isHandlerValid (r : handlerResult) : bool :=
  match r with
  | HandlerValid _ => true
  | HandlerInvalid _ => false
  end.

Section FileHandlerModel.

Variable toLowerCase : jstring -> jstring.

Definition handlerValidateFile (file : option HandledFile) : handlerResult :=
  match file with
  | None => HandlerInvalid (js "Keine Datei ausgew\u00e4hlt")
  | Some hf =>
      let f := handled hf in
      if (file_size f >? maxSize)%Z
      then HandlerInvalid (js "Datei zu gross. Maximum: " ++ formatFileSize_maxSize)
      else if (file_size f =? 0)%Z
      then HandlerInvalid (js "Datei ist leer")
      else if negb (existsb (jstring_eqb (file_type f)) [js "application/pdf"])
      then HandlerInvalid (js "Ung\u00fcltiger Dateityp. Erlaubt: "
                             ++ join (js ", ") [js "application/pdf"])
      else
        let extension := getFileExtension (file_name f) in
        if negb (existsb (jstring_eqb (toLowerCase extension)) [js ".pdf"])
        then HandlerInvalid (js "Ung\u00fcltige Dateiendung. Erlaubt: "
                               ++ join (js ", ") [js ".pdf"])
        else if negb (isValidFileName (file_name f))
        then HandlerInvalid (js "Dateiname enth\u00e4lt ung\u00fcltige Zeichen")
        else HandlerValid
               (mkHandlerFileInfo (file_name f) (file_size f) (file_type f)
                  (lastModified hf) extension)
  end.

Record ValidEntry : Type := mkValidEntry {
  valid_file : HandledFile;
  valid_index : nat;
  valid_info : HandlerFileInfo
}.

Record InvalidEntry : Type := mkInvalidEntry {
  invalid_file : HandledFile;
  invalid_index : nat;
  invalid_error : jstring
}.

Record Batch : Type := mkBatch {
  batch_valid : list ValidEntry;
  batch_invalid : list InvalidEntry;
  totalSize : Z
}.

(** The callback of [processMultipleFiles]. *)
Definition processOne (results : Batch) (file : HandledFile) (index : nat) : Batch :=
  match handlerValidateFile (Some file) with
  | HandlerValid info =>
      mkBatch (batch_valid results ++ [mkValidEntry file index info])
              (batch_invalid results)
              (totalSize results + file_size (handled file))%Z
  | HandlerInvalid e =>
      mkBatch (batch_valid results)
              (batch_invalid results ++ [mkInvalidEntry file index e])
              (totalSize results)
  end.

(** [Array.from(files).forEach((file, index) => ...)] from index [i] on. *)
Fixpoint processFrom (files : list HandledFile) (i : nat) (results : Batch) : Batch :=
  match files with
  | [] => results
  | f :: rest => processFrom rest (S i) (processOne results f i)
  end.

Definition processMultipleFiles (files : list HandledFile) : Batch :=
  processFrom files 0 (mkBatch [] [] 0%Z).

End FileHandlerModel.

(* ================================================================== *)
(** ** removeDuplicates (helpers.js) *)
(* ================================================================== *)

(** [array.filter] with the [Set] of what has been seen. *)
Fixpoint keepFirst {A : Type} (keyOf : A -> jsval) (seen : list jsval) (array : list A)
    : list A :=
  match array with
  | [] => []
  | item :: rest =>
      if existsb (strictEquals (keyOf item)) seen then keepFirst keyOf seen rest
      else item :: keepFirst keyOf (seen ++ [keyOf item]) rest
  end.

(** [removeDuplicates(array)] on an array of primitive values:
    [[...new Set(array)]] keeps the first of each. *)
Definition removeDuplicates (array : list jsval) : list jsval :=
  keepFirst (fun v => v) [] array.

(** An object as the list of its own properties; [item[key]]. *)
Definition jsobject : Type := list (jstring * jsval).

Definition getProperty (item : jsobject) (key : jstring) : jsval :=
  match ownProperty item key with
  | Some v => v
  | None => if isPrototypeKey key then VProto key else VUndefined
  end.

(** [removeDuplicates(array, key)] on an array of objects.  With the empty
    string as key the objects themselves go into the [Set], by identity,
    which the model does not have. *)
Definition removeDuplicatesBy (key : jstring) (array : list jsobject)
    : result (list jsobject) :=
  if jstring_eqb key [] then Unmodelled
  else Ok (keepFirst (fun item => getProperty item key) [] array).

(* ================================================================== *)
(** ** Sample data and stated properties *)
(* ================================================================== *)

(** A host to run closed examples on: the case mappings as they act on
    ASCII text, the text V8 prints for a built-in function, and a grouping
    separator. *)
Definition asciiToLowerCase (s : jstring) : jstring :=
  map (fun c => if isUpper c then c + 32 else c) s.

Definition asciiToUpperCase (s : jstring) : jstring :=
  map (fun c => if isLower c then c - 32 else c) s.

Definition builtinText (key : jstring) : jstring :=
  if jstring_eqb key (js "__proto__") then js "[object Object]"
  else if jstring_eqb key (js "constructor") then js "function Object() { [native code] }"
  else js "function " ++ key ++ js "() { [native code] }".

(** The grouping separator the source and the specification write for
    Swiss numbers, the apostrophe U+0027, and the one other locale data
    have for [de-CH], the right single quotation mark U+2019. *)
Definition apostropheSeparator : jstring := js "'".
Definition quotationMarkSeparator : jstring := js "\u2019".

(** [exampleConfig] of [generateExample]. *)
Definition exampleConfig : Config :=
  mkConfig
    (Some [mkEntry (js "CX75") (js "CX75") None])
    (Some [mkEntry (js "Brosch\u00fcre") (js "BRFPP") None])
    (Some [mkEntry (js "NoSat170") (js "NoSat170") (Some (js "ungestrichen"))]).

(** The form data of the worked example, with the quantity [a]. *)
Definition exampleDataWith (a : jstring) : FormData :=
  mkFormData (VStr (js "A12345")) (VStr (js "TestKunde")) (VStr (js "1"))
             (VStr (js "CX75")) (VStr a) (VStr (js "BRFPP"))
             (VStr (js "ungestrichen")) (VStr (js "NoSat170")).

(** [exampleData] of [generateExample]. *)
Definition exampleData : FormData := exampleDataWith (js "1200").

(** The eight values [validateInput] and [validateForm] read. *)
Definition fieldValues (formData : FormData) : list jsval :=
  [ auftragsnummer formData; kunde formData; auftragsposition formData;
    maschine formData; auflage formData; produkt formData;
    papierart formData; papiername formData ].

(** What [validateField] returns for a field of the form.  It does return
    on each of them ([validateField_total]); the last case is never taken. *)
Definition fieldResult (toUpperCase memberText : jstring -> jstring)
    (groupSeparator : jstring) (formData : FormData) (field : jstring) : vresult :=
  match validateField toUpperCase memberText groupSeparator field (getField formData field) with
  | Ok r => r
  | _ => Valid VUndefined None
  end.

(** The entry of the error list a field accounts for: one when its result
    is invalid, with the message and the code of that result, else none. *)
Definition errorOf (toUpperCase memberText : jstring -> jstring)
    (groupSeparator : jstring) (formData : FormData) (field : jstring) : list FieldError :=
  match fieldResult toUpperCase memberText groupSeparator formData field with
  | Invalid e c => [mkFieldError field e c]
  | Valid _ _ => []
  end.

(** A string field that holds no [#]. *)
Definition hashFree (v : jsval) : Prop :=
  exists s, v = VStr s /\ ~ In 35 s.

(** An empty file, and a file that is not a PDF. *)
Definition emptyFile : File := mkFile (js "empty.pdf") 0 (js "application/pdf").
Definition textFile : File := mkFile (js "notes.txt") 5 (js "text/plain").

(** Form data with a blank customer, a [null] position and no quantity. *)
Definition incompleteData : FormData :=
  mkFormData (VStr (js "A12345")) (VStr (js "  ")) VNull (VStr (js "CX75"))
             VUndefined (VStr (js "BRFPP")) (VNum (@mkSafeInteger 7 eq_refl)) (VStr (js "NoSat170")).

(** The characters the specification allows in the customer component. *)
Definition allowList : jstring :=
  js "abcdefghijklmnopqrstuvwxyzABCDEFGHIJKLMNOPQRSTUVWXYZ0123456789\u00e4\u00f6\u00fc\u00c4\u00d6\u00dc\u00df-_".

(** The worked example with a [#] in the order number and the quantity
    grouped with the apostrophe. *)
Definition shiftedData : FormData :=
  mkFormData (VStr (js "A#1")) (VStr (js "TestKunde")) (VStr (js "1"))
             (VStr (js "CX75")) (VStr (js "1'200")) (VStr (js "BRFPP"))
             (VStr (js "ungestrichen")) (VStr (js "NoSat170")).

(** A field that is absent, [null], or a string that is empty once trimmed. *)
Definition missing (v : jsval) : Prop :=
  v = VUndefined \/ v = VNull \/ exists s, v = VStr s /\ trim s = [].

(** Whether [s] holds the unit [c] twice in a row. *)
Fixpoint doubled (c : char16) (s : jstring) : bool :=
  match s with
  | [] => false
  | a :: t =>
      match t with
      | b :: _ => (a =? c) && (b =? c)
      | [] => false
      end || doubled c t
  end.

(** The string [s] is empty or begins with a unit outside the class [p]. *)
Definition startsOutside (p : char16 -> bool) (s : jstring) : bool :=
  match s with
  | c :: _ => negb (p c)
  | [] => true
  end.

(** The shape [A<digits>]: an [A] and then one decimal digit or more. *)
Definition isOrderNumber (s : jstring) : Prop :=
  exists ds, s = 65 :: ds /\ ds <> [] /\ forallb isDigit ds = true.

(* ================================================================== *)
(** ** Strings and values: basic facts *)
(* ================================================================== *)

Lemma jstring_eqb_eq (a b : jstring) : jstring_eqb a b = true <-> a = b.
Proof.
  revert b. induction a as [|x a IH]; intros [|y b]; simpl; split; try congruence; try easy.
  - rewrite andb_true_iff, N.eqb_eq, IH. now intros [-> ->].
  - intros E. injection E as -> ->. now rewrite N.eqb_refl, (proj2 (IH b)).
Qed.

Lemma jstring_eqb_refl (a : jstring) : jstring_eqb a a = true.
Proof. now apply jstring_eqb_eq. Qed.

Lemma jstring_eqb_neq (a b : jstring) : jstring_eqb a b = false <-> a <> b.
Proof.
  rewrite <- jstring_eqb_eq. destruct (jstring_eqb a b); split; congruence.
Qed.

(** Two safe integers of one value are one safe integer. *)
Lemma safeInteger_eq (a b : safeInteger) : int_value a = int_value b -> a = b.
Proof.
  destruct a as [x Hx], b as [y Hy]. simpl. intros ->. f_equal.
  apply Eqdep_dec.UIP_dec, Bool.bool_dec.
Qed.

Lemma jsval_eqb_eq (a b : jsval) : jsval_eqb a b = true <-> a = b.
Proof.
  destruct a, b; simpl; split; try congruence; try easy.
  - intros E. apply eqb_prop in E. now subst.
  - intros E. injection E as ->. apply eqb_reflx.
  - rewrite Z.eqb_eq. intros E. f_equal. now apply safeInteger_eq.
  - intros E. injection E as ->. apply Z.eqb_refl.
  - rewrite jstring_eqb_eq. now intros ->.
  - intros E. injection E as ->. apply jstring_eqb_refl.
  - rewrite jstring_eqb_eq. now intros ->.
  - intros E. injection E as ->. apply jstring_eqb_refl.
Qed.

(* ================================================================== *)
(** ** The generator *)
(* ================================================================== *)

Section GeneratorFacts.

Variable toLowerCase : jstring -> jstring.
Variable memberText : jstring -> jstring.

Lemma validateInput_fields (formData : FormData) :
  validateInput memberText formData
  = forallb (fieldPresent memberText) (fieldValues formData).
Proof. reflexivity. Qed.

Lemma fieldPresent_missing (v : jsval) :
  missing v -> fieldPresent memberText v = false.
Proof.
  intros [-> | [-> | [s [-> E]]]]; try reflexivity.
  unfold fieldPresent. simpl toStr. rewrite E. apply andb_false_r.
Qed.

Lemma validateInput_missing (formData : FormData) :
  Exists missing (fieldValues formData) -> validateInput memberText formData = false.
Proof.
  intros H. rewrite validateInput_fields.
  apply Exists_exists in H. destruct H as [v [Hin Hm]].
  apply not_true_is_false. intros Hall.
  rewrite forallb_forall in Hall. specialize (Hall v Hin).
  rewrite (fieldPresent_missing Hm) in Hall. discriminate.
Qed.

Lemma lookupCode_id (entries : option (list ConfigEntry)) (value : jsval) :
  lookupCode entries value = value.
Proof.
  unfold lookupCode. destruct entries as [l|]; trivial.
  destruct (find _ l) as [e|] eqn:F; trivial.
  apply find_some in F. destruct F as [_ F].
  unfold strictEquals in F. now apply jsval_eqb_eq in F.
Qed.

(** The lookups being the identity, the code does not depend on the
    configuration. *)
Lemma generate_any_config (formData : FormData) (config config' : Config) :
  generate toLowerCase memberText formData config
  = generate toLowerCase memberText formData config'.
Proof.
  unfold generate, buildCodeParts, buildKundenTeil, buildMaschineTeil, buildPapierTeil,
    getMachineCode, getProductCode, getPaperCode.
  now rewrite !lookupCode_id.
Qed.

(** [generate] catches what its parts throw. *)
Lemma generate_never_throws (formData : FormData) (config : Config) (e : exn) :
  generate toLowerCase memberText formData config <> Throw e.
Proof.
  unfold generate, tryCatch.
  destruct (if negb (validateInput memberText formData) then _ else _); discriminate.
Qed.

End GeneratorFacts.

(* ================================================================== *)
(** ** Patterns: the matcher decides the language *)
(* ================================================================== *)

Lemma lang_void_inv (s : jstring) : ~ lang Void s.
Proof. intros H. inversion H. Qed.

Lemma lang_eps_inv (s : jstring) : lang Eps s -> s = [].
Proof. intros H. now inversion H. Qed.

Lemma lang_cls_inv (p : char16 -> bool) (s : jstring) :
  lang (Cls p) s -> exists c, s = [c] /\ p c = true.
Proof. intros H. inversion H; subst. eauto. Qed.

Lemma lang_cat_inv (r1 r2 : regex) (s : jstring) :
  lang (Cat r1 r2) s -> exists s1 s2, s = s1 ++ s2 /\ lang r1 s1 /\ lang r2 s2.
Proof. intros H. inversion H; subst. eauto. Qed.

Lemma lang_alt_inv (r1 r2 : regex) (s : jstring) :
  lang (Alt r1 r2) s -> lang r1 s \/ lang r2 s.
Proof. intros H. inversion H; subst; auto. Qed.

Lemma lang_cat_cons (r1 r2 : regex) (c : char16) (s1 s2 : jstring) :
  lang r1 (c :: s1) -> lang r2 s2 -> lang (Cat r1 r2) (c :: s1 ++ s2).
Proof. intros H1 H2. exact (lang_cat H1 H2). Qed.

Lemma nullable_lang (r : regex) : nullable r = true <-> lang r [].
Proof.
  induction r as [| |p|r1 IH1 r2 IH2|r1 IH1 r2 IH2|r IH]; simpl; split; intros H;
    try discriminate; try reflexivity.
  - now apply lang_void_inv in H.
  - apply lang_eps.
  - apply lang_cls_inv in H. destruct H as [c [E _]]. discriminate.
  - apply andb_true_iff in H. destruct H as [H1 H2].
    apply (lang_cat (s1 := []) (s2 := [])); [now apply IH1 | now apply IH2].
  - apply lang_cat_inv in H. destruct H as [s1 [s2 [E [L1 L2]]]].
    symmetry in E. apply app_eq_nil in E. destruct E; subst.
    apply andb_true_iff. split; [now apply IH1 | now apply IH2].
  - apply orb_true_iff in H. destruct H as [H|H];
      [apply lang_alt_l; now apply IH1 | apply lang_alt_r; now apply IH2].
  - apply orb_true_iff.
    apply lang_alt_inv in H. destruct H; [left; now apply IH1 | right; now apply IH2].
  - apply lang_star_nil.
Qed.

Lemma lang_star_cons_inv (r : regex) (c : char16) (s : jstring) :
  lang (Star r) (c :: s) ->
  exists s1 s2, s = s1 ++ s2 /\ lang r (c :: s1) /\ lang (Star r) s2.
Proof.
  remember (Star r) as r' eqn:Er. remember (c :: s) as w eqn:Ew.
  intros H. revert r c s Er Ew.
  induction H as [| | | | | |r0 s1 s2 H1 _ H2 IH2]; intros rr a t Er Ew; try discriminate.
  injection Er as ->.
  destruct s1 as [|c1 s1].
  - simpl in Ew. now apply IH2.
  - simpl in Ew. injection Ew as -> <-. now exists s1, s2.
Qed.

Lemma deriv_lang (c : char16) (r : regex) (s : jstring) :
  lang (deriv c r) s <-> lang r (c :: s).
Proof.
  revert s.
  induction r as [| |p|r1 IH1 r2 IH2|r1 IH1 r2 IH2|r IH]; intros s; simpl; split; intros H.
  - now apply lang_void_inv in H.
  - now apply lang_void_inv in H.
  - now apply lang_void_inv in H.
  - apply lang_eps_inv in H. discriminate.
  - destruct (p c) eqn:Pc.
    + apply lang_eps_inv in H. subst. now constructor.
    + now apply lang_void_inv in H.
  - apply lang_cls_inv in H. destruct H as [c' [E Pc]]. injection E as -> ->.
    rewrite Pc. constructor.
  - assert (K : forall w, lang (Cat (deriv c r1) r2) w -> lang (Cat r1 r2) (c :: w)).
    { intros w L. apply lang_cat_inv in L. destruct L as [s1 [s2 [-> [L1 L2]]]].
      apply lang_cat_cons; [now apply IH1 | assumption]. }
    destruct (nullable r1) eqn:N1.
    + apply lang_alt_inv in H. destruct H as [L|L].
      * now apply K.
      * apply (lang_cat (s1 := [])); [now apply nullable_lang | now apply IH2].
    + now apply K.
  - apply lang_cat_inv in H. destruct H as [s1 [s2 [E [L1 L2]]]].
    destruct s1 as [|c1 s1]; simpl in E.
    + subst s2. apply nullable_lang in L1. rewrite L1.
      apply lang_alt_r. now apply IH2.
    + injection E as <- ->.
      assert (L : lang (Cat (deriv c r1) r2) (s1 ++ s2))
        by (constructor; [now apply IH1 | assumption]).
      destruct (nullable r1); [now apply lang_alt_l | assumption].
  - apply lang_alt_inv in H.
    destruct H; [apply lang_alt_l; now apply IH1 | apply lang_alt_r; now apply IH2].
  - apply lang_alt_inv in H.
    destruct H; [apply lang_alt_l; now apply IH1 | apply lang_alt_r; now apply IH2].
  - apply lang_cat_inv in H. destruct H as [s1 [s2 [-> [L1 L2]]]].
    apply (lang_star_app (s1 := c :: s1)); [now apply IH | assumption].
  - apply lang_star_cons_inv in H. destruct H as [s1 [s2 [-> [L1 L2]]]].
    constructor; [now apply IH | assumption].
Qed.

Lemma matches_lang (r : regex) (s : jstring) : matches r s = true <-> lang r s.
Proof.
  revert r. induction s as [|c s IH]; intros r; simpl.
  - apply nullable_lang.
  - rewrite IH. apply deriv_lang.
Qed.

Lemma lang_star_cls (p : char16 -> bool) (s : jstring) :
  lang (Star (Cls p)) s <-> forallb p s = true.
Proof.
  split.
  - remember (Star (Cls p)) as r eqn:Er. intros H. revert Er.
    induction H as [| | | | | |r0 s1 s2 H1 _ H2 IH2]; intros Er; try discriminate; trivial.
    injection Er as ->. apply lang_cls_inv in H1. destruct H1 as [c [-> Pc]]. simpl.
    apply andb_true_iff. split; [assumption | now apply IH2].
  - induction s as [|c s IH]; simpl; intros H.
    + constructor.
    + apply andb_true_iff in H. destruct H as [Pc Ps].
      apply (lang_star_app (s1 := [c])); [now constructor | now apply IH].
Qed.

Lemma lang_plus_cls (p : char16 -> bool) (s : jstring) :
  lang (Plus (Cls p)) s <-> s <> [] /\ forallb p s = true.
Proof.
  unfold Plus. split.
  - intros H. apply lang_cat_inv in H. destruct H as [s1 [s2 [-> [L1 L2]]]].
    apply lang_cls_inv in L1. destruct L1 as [c [-> Pc]]. simpl.
    split; [discriminate|].
    apply andb_true_iff. split; [assumption | now apply lang_star_cls].
  - intros [Hne Hall]. destruct s as [|c s]; [congruence|].
    simpl in Hall. apply andb_true_iff in Hall. destruct Hall as [Pc Ps].
    apply (lang_cat (s1 := [c])); [now constructor | now apply lang_star_cls].
Qed.

Lemma testWhole_plus_cls (p : char16 -> bool) (s : jstring) :
  testWhole (Plus (Cls p)) s = true <-> s <> [] /\ forallb p s = true.
Proof. unfold testWhole. rewrite matches_lang. apply lang_plus_cls. Qed.

Lemma auftragsnummerPattern_shape (s : jstring) :
  testWhole auftragsnummerPattern s = true <-> isOrderNumber s.
Proof.
  unfold testWhole, auftragsnummerPattern, isOrderNumber. rewrite matches_lang. split.
  - intros H. apply lang_cat_inv in H. destruct H as [s1 [s2 [-> [L1 L2]]]].
    apply lang_cls_inv in L1. destruct L1 as [c [-> Pc]].
    apply N.eqb_eq in Pc. subst c.
    exists s2. split; [reflexivity|]. now apply lang_plus_cls.
  - intros [ds [-> Hds]].
    apply (lang_cat (s1 := [65])).
    + constructor. reflexivity.
    + now apply lang_plus_cls.
Qed.

(* ================================================================== *)
(** ** The generator: results *)
(* ================================================================== *)

(** C1. On the worked example of the specification (quantity [1'200])
    [generate] returns exactly
    [A12345-1#TestKunde-BRFPP#CX75_u_s_NoSat170#1200#D-NoSat170#], with the
    configuration of [generateExample], which lists the three codes, and
    with any other configuration. *)
Theorem generate_worked_example :
  forall (toLowerCase memberText : jstring -> jstring) (config : Config),
    generate toLowerCase memberText (exampleDataWith (js "1'200")) exampleConfig
    = Ok (js "A12345-1#TestKunde-BRFPP#CX75_u_s_NoSat170#1200#D-NoSat170#")
    /\ generate toLowerCase memberText (exampleDataWith (js "1'200")) config
       = Ok (js "A12345-1#TestKunde-BRFPP#CX75_u_s_NoSat170#1200#D-NoSat170#").
Proof.
  intros lower text config.
  assert (H : generate lower text (exampleDataWith (js "1'200")) exampleConfig
              = Ok (js "A12345-1#TestKunde-BRFPP#CX75_u_s_NoSat170#1200#D-NoSat170#"))
    by (vm_compute; reflexivity).
  split; [exact H|].
  rewrite (generate_any_config lower text _ config exampleConfig). exact H.
Qed.

(** C2. When one of the eight required fields is absent, [null] or a
    string that is empty once trimmed, [generate] returns the empty string,
    whatever the other fields and the configuration are; it does not throw. *)
Theorem generate_fails_soft :
  forall (toLowerCase memberText : jstring -> jstring)
         (formData : FormData) (config : Config),
    Exists missing (fieldValues formData) ->
    generate toLowerCase memberText formData config = Ok [].
Proof.
  intros lower text fd cfg H. unfold generate.
  now rewrite (validateInput_missing text H).
Qed.

Lemma generate_fails_soft_witness :
  Exists missing (fieldValues incompleteData)
  /\ generate asciiToLowerCase builtinText incompleteData exampleConfig = Ok [].
Proof.
  assert (H : Exists missing (fieldValues incompleteData)).
  { apply Exists_cons_tl, Exists_cons_hd. right; right. exists (js "  "). split; reflexivity. }
  split; [exact H | exact (generate_fails_soft asciiToLowerCase builtinText exampleConfig H)].
Defined.

(** C10. The three configuration lookups return the value they are given,
    for every value and every configuration, with or without the arrays,
    and they do not throw. *)
Theorem config_lookup_identity :
  forall (value : jsval) (config : Config),
    getMachineCode value config = value
    /\ getProductCode value config = value
    /\ getPaperCode value config = value.
Proof.
  intros value config.
  unfold getMachineCode, getProductCode, getPaperCode.
  repeat split; apply lookupCode_id.
Qed.

Section PaperType.

Variable toLowerCase : jstring -> jstring.
Variable memberText : jstring -> jstring.

Lemma getPaperTypeCode_known :
  getPaperTypeCode toLowerCase memberText (VStr (js "gestrichen")) = Ok (VStr (js "g_s"))
  /\ getPaperTypeCode toLowerCase memberText (VStr (js "ungestrichen")) = Ok (VStr (js "u_s")).
Proof. split; reflexivity. Qed.

(** A custom paper type degrades to its first letter, unless its name is
    one that every object literal inherits. *)
Lemma getPaperTypeCode_custom (s : jstring) :
  s <> js "gestrichen" -> s <> js "ungestrichen" -> isPrototypeKey s = false ->
  getPaperTypeCode toLowerCase memberText (VStr s)
  = Ok (VStr (toLowerCase (charAt0 s) ++ js "_s")).
Proof.
  intros H1 H2 H3. unfold getPaperTypeCode, typeMapLookup, typeMap.
  cbn [toStr ownProperty].
  assert (E1 : jstring_eqb (js "gestrichen") s = false)
    by (apply jstring_eqb_neq; congruence).
  assert (E2 : jstring_eqb (js "ungestrichen") s = false)
    by (apply jstring_eqb_neq; congruence).
  rewrite E1, E2, H3. reflexivity.
Qed.

(** Every name of [Object.prototype] is answered with the inherited member. *)
Lemma getPaperTypeCode_inherited (key : jstring) :
  isPrototypeKey key = true ->
  getPaperTypeCode toLowerCase memberText (VStr key) = Ok (VProto key).
Proof.
  unfold isPrototypeKey. intros H. apply existsb_exists in H.
  destruct H as [k [Hin E]]. apply jstring_eqb_eq in E. subst k.
  unfold objectPrototypeKeys in Hin. simpl In in Hin.
  repeat (destruct Hin as [<- | Hin]; [reflexivity|]). destruct Hin.
Qed.

End PaperType.

(** C9. [getPaperTypeCode] answers a custom paper type whose name
    [Object.prototype] defines, here [constructor], with the inherited
    member and not with the first letter and [_s]. *)
Theorem paper_type_inherited_name :
  forall toLowerCase memberText : jstring -> jstring,
    getPaperTypeCode toLowerCase memberText (VStr (js "constructor"))
    = Ok (VProto (js "constructor"))
    /\ getPaperTypeCode toLowerCase memberText (VStr (js "constructor"))
       <> Ok (VStr (toLowerCase (js "c") ++ js "_s")).
Proof. intros. split; [reflexivity | discriminate]. Qed.

(* ================================================================== *)
(** ** The customer component *)
(* ================================================================== *)

(** A property checked on every code unit below a bound holds below it. *)
Lemma forall_below (P : char16 -> bool) (bound : nat) :
  forallb P (map N.of_nat (seq 0 bound)) = true ->
  forall c, c < N.of_nat bound -> P c = true.
Proof.
  intros H c Hc. rewrite forallb_forall in H. apply H.
  apply in_map_iff. exists (N.to_nat c). split; [apply N2Nat.id|].
  apply in_seq. lia.
Qed.

Lemma inRange_spec (lo hi c : char16) : inRange lo hi c = true <-> lo <= c <= hi.
Proof. unfold inRange. now rewrite andb_true_iff, !N.leb_le. Qed.

Lemma allowedChar_latin1 (c : char16) : allowedChar c = true -> c < 256.
Proof.
  unfold allowedChar, isLower, isUpper, isDigit, isUmlaut. simpl existsb.
  rewrite !orb_true_iff, !inRange_spec, !N.eqb_eq. lia.
Qed.

Lemma allowedChar_facts (c : char16) :
  allowedChar c = true -> isWhiteSpace c = false /\ In c allowList.
Proof.
  intros H.
  assert (K : implb (allowedChar c)
                (negb (isWhiteSpace c) && existsb (N.eqb c) allowList) = true).
  { apply (forall_below
             (fun c => implb (allowedChar c)
                         (negb (isWhiteSpace c) && existsb (N.eqb c) allowList))
             256).
    - vm_compute. reflexivity.
    - now apply allowedChar_latin1. }
  rewrite H in K. cbn [implb] in K. apply andb_true_iff in K. destruct K as [K1 K2].
  split.
  - now apply negb_true_iff.
  - apply existsb_exists in K2. destruct K2 as [x [Hx E]].
    apply N.eqb_eq in E. now subst.
Qed.

Lemma replaceRunsFrom_none (p : char16 -> bool) (by_ : jstring) (b : bool) (s : jstring) :
  forallb (fun c => negb (p c)) s = true -> replaceRunsFrom p by_ b s = s.
Proof.
  revert b. induction s as [|c s IH]; intros b H; simpl in *; trivial.
  apply andb_true_iff in H. destruct H as [Hc Hs].
  apply negb_true_iff in Hc. rewrite Hc. f_equal. now apply IH.
Qed.

Lemma removeAll_forall (p : char16 -> bool) (s : jstring) :
  Forall (fun c => p c = false) (removeAll p s).
Proof.
  apply Forall_forall. intros c Hc. unfold removeAll in Hc.
  apply filter_In in Hc. destruct Hc as [_ Hc]. now apply negb_true_iff.
Qed.

(** After the disallowed characters are gone no white space is left, so the
    second [replace] of [sanitizeText] changes nothing. *)
Lemma sanitizeText_filter (text : jstring) :
  sanitizeText text
  = firstn 20 (removeAll (fun c => negb (allowedChar c)) (trim text)).
Proof.
  unfold sanitizeText, substring0, replaceRuns. f_equal.
  apply replaceRunsFrom_none. apply forallb_forall. intros c Hc.
  pose proof (removeAll_forall (fun c => negb (allowedChar c)) (trim text)) as F.
  rewrite Forall_forall in F. specialize (F c Hc). simpl in F.
  apply negb_false_iff in F. apply allowedChar_facts in F. destruct F as [F _].
  now rewrite F.
Qed.

Lemma sanitizeText_length (text : jstring) : (List.length (sanitizeText text) <= 20)%nat.
Proof. rewrite sanitizeText_filter. apply firstn_le_length. Qed.

Lemma In_firstn (n : nat) (c : char16) (s : jstring) : In c (firstn n s) -> In c s.
Proof.
  intros H. rewrite <- (firstn_skipn n s). apply in_or_app. now left.
Qed.

Lemma sanitizeText_allowed (text : jstring) :
  Forall (fun c => In c allowList) (sanitizeText text).
Proof.
  rewrite sanitizeText_filter. apply Forall_forall. intros c Hc.
  apply In_firstn in Hc.
  pose proof (removeAll_forall (fun c => negb (allowedChar c)) (trim text)) as F.
  rewrite Forall_forall in F. specialize (F c Hc). simpl in F.
  apply negb_false_iff in F. now apply allowedChar_facts in F.
Qed.

Section CodeShape.

Variable toLowerCase : jstring -> jstring.
Variable memberText : jstring -> jstring.

Lemma buildKundenTeil_string (formData : FormData) (config : Config) (name : jstring) :
  kunde formData = VStr name ->
  buildKundenTeil memberText formData config
  = Ok (sanitizeText name ++ js "-" ++ toStr memberText (produkt formData)).
Proof.
  intros E. unfold buildKundenTeil, getProductCode. rewrite E.
  now rewrite lookupCode_id.
Qed.

Lemma buildCodeParts_kunde (formData : FormData) (config : Config) (parts : CodeParts) :
  buildCodeParts toLowerCase memberText formData config = Ok parts ->
  buildKundenTeil memberText formData config = Ok (kundenTeil parts).
Proof.
  unfold buildCodeParts, buildPapierTeil.
  destruct (buildAuftragsTeil memberText formData); simpl; try discriminate.
  destruct (buildKundenTeil memberText formData config); simpl; try discriminate.
  destruct (buildMaschineTeil toLowerCase memberText formData config); simpl; try discriminate.
  destruct (buildAuflageTeil memberText formData); simpl; try discriminate.
  intros E. injection E as <-. reflexivity.
Qed.

(** A code that is not empty is the five parts, each closed by [#]. *)
Lemma generate_assembled (formData : FormData) (config : Config) (out : jstring) :
  generate toLowerCase memberText formData config = Ok out -> out <> [] ->
  exists parts,
    buildCodeParts toLowerCase memberText formData config = Ok parts
    /\ out = auftragsTeil parts ++ js "#" ++ kundenTeil parts ++ js "#"
             ++ maschineTeil parts ++ js "#" ++ auflageTeil parts ++ js "#"
             ++ papierTeil parts ++ js "#".
Proof.
  unfold generate. intros E Hne.
  destruct (validateInput memberText formData); simpl in E.
  - destruct (buildCodeParts toLowerCase memberText formData config) as [parts| |];
      simpl in E; try discriminate.
    + injection E as <-. exists parts. split; [reflexivity|].
      unfold assembleCode. cbn [join]. now rewrite <- !app_assoc.
    + injection E as <-. congruence.
  - injection E as <-. congruence.
Qed.

End CodeShape.

(** C8. With the eight required fields present and a customer name [name],
    the customer component of the code, which is the text [buildKundenTeil]
    puts before its [-] and stands after the first [#] of the code, is
    [sanitizeText name]: at most 20 code units, all of them from the allow
    list a-z, A-Z, 0-9, the umlauts, sharp s, [-] and [_]. *)
Theorem customer_component_sanitized :
  forall (toLowerCase memberText : jstring -> jstring)
         (formData : FormData) (config : Config) (name : jstring),
    validateInput memberText formData = true ->
    kunde formData = VStr name ->
    buildKundenTeil memberText formData config
    = Ok (sanitizeText name ++ js "-" ++ toStr memberText (produkt formData))
    /\ (forall out,
          generate toLowerCase memberText formData config = Ok out -> out <> [] ->
          exists order rest,
            out = order ++ js "#" ++ sanitizeText name ++ js "-" ++ rest)
    /\ (List.length (sanitizeText name) <= 20)%nat
    /\ Forall (fun c => In c allowList) (sanitizeText name).
Proof.
  intros lower text fd cfg name _ Hk.
  pose proof (buildKundenTeil_string text fd cfg Hk) as B.
  split; [exact B|]. split; [|split].
  - intros out G Hne.
    destruct (@generate_assembled lower text fd cfg out G Hne) as [parts [P ->]].
    apply buildCodeParts_kunde in P. rewrite B in P. injection P as P.
    exists (auftragsTeil parts). eexists.
    rewrite <- P, <- !app_assoc. reflexivity.
  - apply sanitizeText_length.
  - apply sanitizeText_allowed.
Qed.

Lemma customer_component_sanitized_witness :
  validateInput builtinText exampleData = true
  /\ kunde exampleData = VStr (js "TestKunde")
  /\ (List.length (sanitizeText (js "TestKunde")) <= 20)%nat.
Proof.
  assert (V : validateInput builtinText exampleData = true) by reflexivity.
  assert (K : kunde exampleData = VStr (js "TestKunde")) by reflexivity.
  split; [exact V|]. split; [exact K|].
  exact (proj1 (proj2 (proj2
           (customer_component_sanitized asciiToLowerCase builtinText
              exampleData exampleConfig V K)))).
Defined.

(* ================================================================== *)
(** ** The validator: files *)
(* ================================================================== *)

(** C7. [validateFile] rejects a file of size 0 with code [EMPTY_FILE], and
    a file of a size from 1 to the 100 MB ceiling whose MIME type is not
    [application/pdf] with code [INVALID_FILE_TYPE]. *)
Theorem validateFile_rejects :
  forall (toLowerCase : jstring -> jstring) (file : File),
    (file_size file = 0%Z ->
     validateFile toLowerCase (Some file)
     = FileInvalid (js "Datei ist leer") (js "EMPTY_FILE"))
    /\ ((0 < file_size file <= maxSize)%Z ->
        file_type file <> js "application/pdf" ->
        validateFile toLowerCase (Some file)
        = FileInvalid (js "Nur PDF-Dateien sind erlaubt") (js "INVALID_FILE_TYPE")).
Proof.
  intros lower f. unfold validateFile. split.
  - intros ->. reflexivity.
  - intros [Hlo Hhi] Ht.
    replace (file_size f >? maxSize)%Z with false
      by (symmetry; rewrite Z.gtb_ltb; now apply Z.ltb_ge).
    replace (file_size f =? 0)%Z with false by (symmetry; apply Z.eqb_neq; lia).
    cbn [existsb]. rewrite (proj2 (jstring_eqb_neq _ _) Ht). reflexivity.
Qed.

Lemma validateFile_rejects_witness :
  (file_size emptyFile = 0%Z
   /\ validateFile asciiToLowerCase (Some emptyFile)
      = FileInvalid (js "Datei ist leer") (js "EMPTY_FILE"))
  /\ ((0 < file_size textFile <= maxSize)%Z
      /\ file_type textFile <> js "application/pdf"
      /\ validateFile asciiToLowerCase (Some textFile)
         = FileInvalid (js "Nur PDF-Dateien sind erlaubt") (js "INVALID_FILE_TYPE")).
Proof.
  assert (H0 : file_size emptyFile = 0%Z) by reflexivity.
  assert (H1 : (0 < file_size textFile <= maxSize)%Z) by (split; [reflexivity | discriminate]).
  assert (H2 : file_type textFile <> js "application/pdf") by discriminate.
  split.
  - split; [exact H0 | exact (proj1 (validateFile_rejects asciiToLowerCase emptyFile) H0)].
  - split; [exact H1|]. split; [exact H2|].
    exact (proj2 (validateFile_rejects asciiToLowerCase textFile) H1 H2).
Defined.

(* ================================================================== *)
(** ** The validator: fields *)
(* ================================================================== *)

(** C6, as stated, fails: the empty string does not match [/^A\d+$/] and is
    rejected with code [REQUIRED]; [ A1], with a leading blank, does not
    match either and is accepted, because the value is trimmed first. *)
Lemma order_number_blank_and_padded :
  testWhole auftragsnummerPattern (js "") = false
  /\ validateField asciiToUpperCase builtinText apostropheSeparator (js "auftragsnummer") (VStr (js ""))
     = Ok (Invalid (js "Auftragsnummer ist erforderlich") (js "REQUIRED"))
  /\ testWhole auftragsnummerPattern (js " A1") = false
  /\ validateField asciiToUpperCase builtinText apostropheSeparator (js "auftragsnummer") (VStr (js " A1"))
     = Ok (Valid (VStr (js "A1")) (Some (js "A1"))).
Proof. repeat split; vm_compute; reflexivity. Qed.

(** C6, amended. A string that is not empty once trimmed and whose trimmed
    form is not an [A] followed by one digit or more is rejected by
    [validateField('auftragsnummer', value)] with code [PATTERN]; a string
    that is empty once trimmed is rejected with code [REQUIRED]. *)
Theorem order_number_pattern_rejected :
  forall (toUpperCase memberText : jstring -> jstring) (groupSeparator : jstring) (value : jstring),
    (trim value <> [] ->
     ~ isOrderNumber (trim value) ->
     validateField toUpperCase memberText groupSeparator (js "auftragsnummer") (VStr value)
     = Ok (Invalid auftragsnummerMessage (js "PATTERN")))
    /\ (trim value = [] ->
        validateField toUpperCase memberText groupSeparator (js "auftragsnummer") (VStr value)
        = Ok (Invalid (js "Auftragsnummer ist erforderlich") (js "REQUIRED"))).
Proof.
  intros upper text gs value.
  unfold validateField.
  replace (rulesFor (js "auftragsnummer"))
    with (mkRules true (Some auftragsnummerPattern) (Some 2) (Some 20) None None None
            (Some auftragsnummerMessage)) by reflexivity.
  cbn [rule_required rule_pattern rule_message isEmpty toStr andb].
  split.
  - intros Hne Hshape.
    assert (T : testWhole auftragsnummerPattern (trim value) = false).
    { apply not_true_is_false. intros T. now apply auftragsnummerPattern_shape in T. }
    rewrite (proj2 (jstring_eqb_neq _ _) Hne). cbn [andb negb].
    rewrite T. reflexivity.
  - intros ->. reflexivity.
Qed.

Lemma order_number_pattern_rejected_witness :
  (trim (js " B12 ") <> []
   /\ ~ isOrderNumber (trim (js " B12 "))
   /\ validateField asciiToUpperCase builtinText apostropheSeparator (js "auftragsnummer") (VStr (js " B12 "))
      = Ok (Invalid auftragsnummerMessage (js "PATTERN")))
  /\ (trim (js "  ") = []
      /\ validateField asciiToUpperCase builtinText apostropheSeparator (js "auftragsnummer") (VStr (js "  "))
         = Ok (Invalid (js "Auftragsnummer ist erforderlich") (js "REQUIRED"))).
Proof.
  assert (H1 : trim (js " B12 ") <> []) by (vm_compute; discriminate).
  assert (H2 : ~ isOrderNumber (trim (js " B12 "))).
  { intros [ds [E _]]. vm_compute in E. discriminate. }
  assert (H3 : trim (js "  ") = []) by reflexivity.
  split.
  - split; [exact H1|]. split; [exact H2|].
    exact (proj1 (order_number_pattern_rejected asciiToUpperCase builtinText apostropheSeparator (js " B12 "))
             H1 H2).
  - split; [exact H3|].
    exact (proj2 (order_number_pattern_rejected asciiToUpperCase builtinText apostropheSeparator (js "  ")) H3).
Defined.

(** *** Numbers read from digit strings *)

Lemma isDigit_facts (c : char16) :
  isDigit c = true ->
  isWhiteSpace c = false /\ (c =? 45) = false /\ (c =? 43) = false.
Proof.
  intros H.
  assert (K : implb (isDigit c)
                (negb (isWhiteSpace c) && negb (c =? 45) && negb (c =? 43)) = true).
  { apply (forall_below
             (fun c => implb (isDigit c)
                         (negb (isWhiteSpace c) && negb (c =? 45) && negb (c =? 43)))
             58).
    - vm_compute. reflexivity.
    - apply inRange_spec in H. lia. }
  rewrite H in K. cbn [implb] in K.
  rewrite !andb_true_iff, !negb_true_iff in K. tauto.
Qed.

Lemma takeWhile_all (p : char16 -> bool) (s : jstring) :
  forallb p s = true -> takeWhile p s = s.
Proof.
  induction s as [|c s IH]; simpl; trivial. intros H.
  apply andb_true_iff in H. destruct H as [Hc Hs]. rewrite Hc. f_equal. now apply IH.
Qed.

Lemma dropWhile_all (p : char16 -> bool) (s : jstring) :
  forallb p s = true -> dropWhile p s = [].
Proof.
  induction s as [|c s IH]; simpl; trivial. intros H.
  apply andb_true_iff in H. destruct H as [Hc Hs]. rewrite Hc. now apply IH.
Qed.

Lemma readSign_digits (s : jstring) :
  s <> [] -> forallb isDigit s = true -> readSign (trimStart s) = (false, s).
Proof.
  intros Hne Hall. destruct s as [|c s]; [congruence|].
  simpl in Hall. apply andb_true_iff in Hall. destruct Hall as [Hc _].
  apply isDigit_facts in Hc. destruct Hc as [W [M P]].
  unfold trimStart. simpl. rewrite W. simpl. now rewrite M, P.
Qed.

Lemma parseFloat_digits (s : jstring) :
  s <> [] -> forallb isDigit s = true ->
  parseFloat s = Ok (Num (Z.of_N (digitsValue s))).
Proof.
  intros Hne Hall. unfold parseFloat.
  rewrite (readSign_digits Hne Hall), (takeWhile_all _ _ Hall), (dropWhile_all _ _ Hall).
  destruct s; [congruence | reflexivity].
Qed.

Lemma parseInt10_digits (s : jstring) :
  s <> [] -> forallb isDigit s = true ->
  parseInt10 s = Num (Z.of_N (digitsValue s)).
Proof.
  intros Hne Hall. unfold parseInt10.
  rewrite (readSign_digits Hne Hall), (takeWhile_all _ _ Hall).
  destruct s; [congruence | reflexivity].
Qed.

(** *** [validateField] returns on every form field *)

Section FieldFacts.

Variable toUpperCase : jstring -> jstring.
Variable memberText : jstring -> jstring.
Variable groupSeparator : jstring.

Ltac split_cases :=
  repeat (cbn [bind];
          match goal with
          | |- context [if ?b then _ else _] => destruct b
          | |- context [match ?x with _ => _ end] => destruct x
          end);
  cbn [bind]; eauto.

(** Without numeric bounds, or for the quantity, [parseFloat] is not called. *)
Lemma validateField_unbounded (fieldName : jstring) (value : jsval) :
  (isSome (rule_min (rulesFor fieldName)) || isSome (rule_max (rulesFor fieldName)))
  && negb (jstring_eqb fieldName (js "auflage")) = false ->
  exists r, validateField toUpperCase memberText groupSeparator fieldName value = Ok r.
Proof.
  intros H. unfold validateField. rewrite H. cbn [bind].
  split_cases.
Qed.

Lemma validateField_auftragsposition (value : jsval) :
  exists r, validateField toUpperCase memberText groupSeparator (js "auftragsposition") value = Ok r.
Proof.
  unfold validateField.
  replace (rulesFor (js "auftragsposition"))
    with (mkRules true (Some digitsPattern) None None (Some 0%Z) (Some 999%Z) None
            (Some (js "Auftragsposition muss eine Zahl zwischen 0 und 999 sein")))
    by reflexivity.
  cbn [rule_required rule_pattern rule_message rule_minLength rule_maxLength
       rule_min rule_max rule_enum isSome orb andb negb].
  destruct (isEmpty value); cbn [andb negb]; [eauto|].
  destruct (testWhole digitsPattern (trim (toStr memberText value))) eqn:T;
    cbn [negb]; [|eauto].
  apply testWhole_plus_cls in T. destruct T as [Hne Hall].
  replace (jstring_eqb (js "auftragsposition") (js "auflage")) with false by reflexivity.
  cbn [negb]. unfold checkBounds. rewrite (parseFloat_digits Hne Hall).
  cbn [bind rule_min rule_max].
  split_cases.
Qed.

Lemma validateField_total (fieldName : jstring) (value : jsval) :
  In fieldName requiredFields ->
  exists r, validateField toUpperCase memberText groupSeparator fieldName value = Ok r.
Proof.
  intros H. simpl in H.
  destruct H as [<-|[<-|[<-|[<-|[<-|[<-|[<-|[<-|[]]]]]]]]];
    try (apply validateField_unbounded; reflexivity).
  apply validateField_auftragsposition.
Qed.

End FieldFacts.

(** *** [validateForm] *)

Lemma setProperty_fresh (A : Type) (props : list (jstring * A)) (key : jstring) (v : A) :
  ~ In key (map fst props) -> setProperty props key v = props ++ [(key, v)].
Proof.
  induction props as [|[k x] props IH]; simpl; intros H; trivial.
  destruct (jstring_eqb k key) eqn:E.
  - apply jstring_eqb_eq in E. tauto.
  - f_equal. apply IH. tauto.
Qed.

Lemma requiredFields_NoDup : NoDup requiredFields.
Proof.
  unfold requiredFields.
  repeat (constructor; [simpl; intuition discriminate|]). constructor.
Qed.

Section FormFacts.

Variable toUpperCase : jstring -> jstring.
Variable memberText : jstring -> jstring.
Variable groupSeparator : jstring.
Variable formData : FormData.

Let R := fieldResult toUpperCase memberText groupSeparator formData.
Let E := errorOf toUpperCase memberText groupSeparator formData.

Lemma validateField_fieldResult (field : jstring) :
  In field requiredFields ->
  validateField toUpperCase memberText groupSeparator field (getField formData field) = Ok (R field).
Proof.
  intros H. unfold R, fieldResult.
  destruct (validateField_total toUpperCase memberText groupSeparator (getField formData field) H) as [r ->].
  reflexivity.
Qed.

(** The loop of [validateForm], run from any state whose results do not
    yet name the fields to come. *)
Lemma forEach_collect (fields : list jstring) :
  NoDup fields ->
  (forall f, In f fields -> In f requiredFields) ->
  forall st,
    (forall f, In f fields -> ~ In f (map fst (st_results st))) ->
    forEach (validateFormStep toUpperCase memberText groupSeparator formData) fields st
    = Ok (mkFormState
            (st_results st ++ map (fun f => (f, R f)) fields)
            (st_errors st ++ flat_map E fields)
            (st_allValid st && forallb (fun f => isValid (R f)) fields)).
Proof.
  induction fields as [|f fields IH]; intros Hnd Hreq st Hfresh.
  - simpl. rewrite !app_nil_r, andb_true_r. now destruct st.
  - inversion Hnd as [|? ? Hnotin Hnd']; subst.
    cbn [forEach]. unfold validateFormStep at 1.
    rewrite (validateField_fieldResult (Hreq f (or_introl eq_refl))). cbn [bind].
    rewrite (@setProperty_fresh _ _ _ (R f) (Hfresh f (or_introl eq_refl))).
    assert (Hfresh' : forall g, In g fields ->
              ~ In g (map fst (st_results st ++ [(f, R f)]))).
    { intros g Hg. rewrite map_app, in_app_iff. simpl.
      intros [K|[K|[]]].
      - exact (Hfresh g (or_intror Hg) K).
      - subst g. contradiction. }
    unfold E at 1, errorOf. fold R.
    destruct (R f) as [v n|e c] eqn:Rf; cbn [bind].
    + rewrite IH; auto; [|intros g Hg; apply Hreq; now right].
      cbn [st_results st_errors st_allValid map flat_map forallb isValid app].
      rewrite Rf. cbn [isValid andb]. now rewrite <- !app_assoc.
    + rewrite IH; auto; [|intros g Hg; apply Hreq; now right].
      cbn [st_results st_errors st_allValid map flat_map forallb isValid app].
      rewrite Rf. cbn [isValid andb]. rewrite andb_false_r.
      now rewrite <- !app_assoc.
Qed.

Lemma errors_nil_iff (fields : list jstring) :
  forallb (fun f => isValid (R f)) fields = true <-> flat_map E fields = [].
Proof.
  induction fields as [|f fields IH]; simpl; [tauto|].
  unfold E at 1, errorOf. fold R.
  destruct (R f); simpl; [exact IH | split; discriminate].
Qed.

Lemma errors_of_field (fields : list jstring) (f : jstring) :
  NoDup fields -> In f fields ->
  filter (fun e => jstring_eqb (err_field e) f) (flat_map E fields) = E f.
Proof.
  assert (Hother : forall g, g <> f ->
            filter (fun e => jstring_eqb (err_field e) f) (E g) = []).
  { intros g Hg. unfold E, errorOf. destruct (fieldResult _ _ _ _ g); simpl; trivial.
    now rewrite (proj2 (jstring_eqb_neq g f) Hg). }
  assert (Hsame : filter (fun e => jstring_eqb (err_field e) f) (E f) = E f).
  { unfold E, errorOf. destruct (fieldResult _ _ _ _ f); simpl; trivial.
    now rewrite jstring_eqb_refl. }
  assert (Hnone : forall l, ~ In f l ->
            filter (fun e => jstring_eqb (err_field e) f) (flat_map E l) = []).
  { induction l as [|g l IHl]; simpl; intros Hn; trivial.
    rewrite filter_app, Hother, IHl; tauto. }
  induction fields as [|g fields IH]; intros Hnd Hin; [destruct Hin|].
  inversion Hnd as [|? ? Hnotin Hnd']; subst.
  simpl. rewrite filter_app. destruct Hin as [->|Hin].
  - rewrite Hsame, Hnone by assumption. apply app_nil_r.
  - rewrite Hother, IH by (try assumption; intros ->; contradiction). reflexivity.
Qed.

End FormFacts.

(** C5. [validateForm] runs [validateField] on each of the eight fields and
    keeps every result; its error list holds, in field order, one entry for
    each field whose result is invalid, with that result's message and
    code, and nothing else; [valid] is true exactly when the list is empty. *)
Theorem validateForm_collects_all :
  forall (toUpperCase memberText : jstring -> jstring) (groupSeparator : jstring) (formData : FormData),
    let R := fieldResult toUpperCase memberText groupSeparator formData in
    let E := errorOf toUpperCase memberText groupSeparator formData in
    (forall f, In f requiredFields ->
       validateField toUpperCase memberText groupSeparator f (getField formData f) = Ok (R f))
    /\ exists r,
         validateForm toUpperCase memberText groupSeparator formData = Ok r
         /\ form_results r = map (fun f => (f, R f)) requiredFields
         /\ form_errors r = flat_map E requiredFields
         /\ (forall f, In f requiredFields ->
               filter (fun e => jstring_eqb (err_field e) f) (form_errors r) = E f)
         /\ (form_valid r = true <-> form_errors r = []).
Proof.
  intros upper text gs fd R E. split.
  - intros f Hf. now apply validateField_fieldResult.
  - unfold validateForm.
    rewrite (@forEach_collect upper text gs fd requiredFields requiredFields_NoDup
               (fun f H => H) (mkFormState [] [] true) (fun f _ K => K)).
    cbn [bind st_results st_errors st_allValid app andb validateCrossFields
         fst snd negb List.length Nat.eqb].
    eexists. split; [reflexivity|].
    cbn [form_results form_errors form_valid].
    split; [reflexivity|]. split; [reflexivity|]. split.
    + intros f Hf. now apply errors_of_field; [apply requiredFields_NoDup|].
    + apply errors_nil_iff.
Qed.

Lemma validateForm_collects_all_witness :
  In (js "auflage") requiredFields
  /\ validateField asciiToUpperCase builtinText apostropheSeparator (js "auflage")
       (getField incompleteData (js "auflage"))
     = Ok (fieldResult asciiToUpperCase builtinText apostropheSeparator incompleteData (js "auflage")).
Proof.
  assert (H : In (js "auflage") requiredFields) by (vm_compute; tauto).
  split; [exact H|].
  exact (proj1 (validateForm_collects_all asciiToUpperCase builtinText apostropheSeparator incompleteData)
           (js "auflage") H).
Defined.

(* ================================================================== *)
(** ** Quantities *)
(* ================================================================== *)

Lemma digitsValue_snoc (ds : jstring) (c : char16) :
  digitsValue (ds ++ [c]) = digitsValue ds * 10 + (c - 48).
Proof. unfold digitsValue. now rewrite fold_left_app. Qed.

Lemma uintChars_revapp (d d' : Decimal.uint) :
  uintChars (Decimal.revapp d d') = rev (uintChars d) ++ uintChars d'.
Proof.
  revert d'. induction d; intros d'; simpl; trivial;
    rewrite IHd, <- app_assoc; reflexivity.
Qed.

Lemma uintChars_rev (d : Decimal.uint) :
  uintChars (Decimal.rev d) = rev (uintChars d).
Proof. unfold Decimal.rev. rewrite uintChars_revapp. apply app_nil_r. Qed.

Lemma digitsValue_little_endian (d : Decimal.uint) :
  digitsValue (rev (uintChars d)) = Unsigned.of_lu d.
Proof.
  induction d; cbn [uintChars rev Unsigned.of_lu]; trivial;
    rewrite digitsValue_snoc, IHd; lia.
Qed.

Lemma digitsValue_uintChars (d : Decimal.uint) :
  digitsValue (uintChars d) = N.of_uint d.
Proof.
  rewrite <- (rev_involutive (uintChars d)), <- uintChars_rev.
  rewrite digitsValue_little_endian. symmetry. apply Unsigned.of_uint_alt.
Qed.

(** Printing a natural number and reading the digits back is the identity. *)
Lemma digitsValue_digitsOf (n : N) : digitsValue (digitsOf n) = n.
Proof. unfold digitsOf. rewrite digitsValue_uintChars. apply DecimalN.Unsigned.of_to. Qed.

Lemma uintChars_digits (d : Decimal.uint) : forallb isDigit (uintChars d) = true.
Proof. induction d; simpl; trivial. Qed.

Lemma digitsOf_digits (n : N) : forallb isDigit (digitsOf n) = true.
Proof. apply uintChars_digits. Qed.

Lemma digitsOf_nonempty (n : N) : digitsOf n <> [].
Proof.
  unfold digitsOf. destruct n as [|p]; [discriminate|].
  pose proof (DecimalPos.Unsigned.to_uint_nonnil p) as H.
  simpl. destruct (Pos.to_uint p); [congruence | discriminate ..].
Qed.

Lemma parseInt10_digitsOf (n : N) : parseInt10 (digitsOf n) = Num (Z.of_N n).
Proof.
  rewrite parseInt10_digits by (apply digitsOf_nonempty || apply digitsOf_digits).
  now rewrite digitsValue_digitsOf.
Qed.

Lemma numberToString_nat (n : N) : numberToString (Z.of_N n) = digitsOf n.
Proof.
  unfold numberToString.
  replace (Z.of_N n <? 0)%Z with false by (symmetry; apply Z.ltb_ge; lia).
  now rewrite N2Z.id.
Qed.

(** *** Grouping and stripping *)

Lemma removeAll_app (p : char16 -> bool) (a b : jstring) :
  removeAll p (a ++ b) = removeAll p a ++ removeAll p b.
Proof. apply filter_app. Qed.

Lemma removeAll_rev (p : char16 -> bool) (s : jstring) :
  removeAll p (rev s) = rev (removeAll p s).
Proof.
  induction s as [|c s IH]; simpl; trivial.
  rewrite removeAll_app, IH. simpl. destruct (p c); simpl; [apply app_nil_r | reflexivity].
Qed.

Lemma removeAll_all (p : char16 -> bool) (s : jstring) :
  forallb p s = true -> removeAll p s = [].
Proof.
  induction s as [|c s IH]; simpl; trivial. intros H.
  apply andb_true_iff in H. destruct H as [Hc Hs]. rewrite Hc. simpl. now apply IH.
Qed.

Lemma removeAll_twice (p q : char16 -> bool) (s : jstring) :
  removeAll q (removeAll p s) = removeAll (fun c => p c || q c) s.
Proof.
  induction s as [|c s IH]; simpl; trivial.
  destruct (p c); simpl; [assumption|]. destruct (q c); simpl; now rewrite IH.
Qed.

(** Stripping a class that holds the separator and no digit undoes the
    grouping. *)
Lemma removeAll_groupFrom (p : char16 -> bool) (sep : jstring) (k : nat) (ds : jstring) :
  forallb p sep = true -> forallb (fun c => negb (p c)) ds = true ->
  removeAll p (groupFrom sep k ds) = ds.
Proof.
  intros Hsep. revert k. induction ds as [|d ds IH]; intros k H; simpl in *; trivial.
  apply andb_true_iff in H. destruct H as [Hd Hds].
  destruct (Nat.eqb k 3).
  - rewrite removeAll_app, removeAll_rev, (removeAll_all _ _ Hsep). simpl.
    rewrite Hd. f_equal. now apply IH.
  - simpl. rewrite Hd. f_equal. now apply IH.
Qed.

Lemma forallb_rev (p : char16 -> bool) (s : jstring) :
  forallb p (rev s) = forallb p s.
Proof.
  induction s as [|c s IH]; simpl; trivial.
  rewrite forallb_app, IH. simpl. rewrite andb_true_r. apply andb_comm.
Qed.

Lemma removeAll_formatGrouped (p : char16 -> bool) (sep : jstring) (n : N) :
  forallb p sep = true ->
  (forall c, isDigit c = true -> p c = false) ->
  removeAll p (formatGrouped sep n) = digitsOf n.
Proof.
  intros Hsep Hdig. unfold formatGrouped.
  rewrite removeAll_rev, removeAll_groupFrom; trivial.
  - apply rev_involutive.
  - rewrite forallb_rev. apply forallb_forall. intros c Hc.
    pose proof (digitsOf_digits n) as D. rewrite forallb_forall in D.
    now rewrite (Hdig c (D c Hc)).
Qed.

Lemma digit_not_strippable (c : char16) : isDigit c = true -> strippable c = false.
Proof.
  intros H. unfold strippable. destruct (isDigit_facts c H) as [W _]. rewrite W.
  apply inRange_spec in H. rewrite orb_false_r. apply N.eqb_neq. unfold APOSTROPHE. lia.
Qed.


(** And there the generator emits the plain digits of the quantity. *)
Lemma buildAuflageTeil_grouped (memberText : jstring -> jstring)
    (formData : FormData) (sep : jstring) (n : N) :
  forallb strippable sep = true ->
  (Z.of_N n <= MAX_SAFE_INTEGER)%Z ->
  auflage formData = VStr (formatGrouped sep n) ->
  buildAuflageTeil memberText formData = Ok (digitsOf n).
Proof.
  intros Hsep Hn Ha. unfold buildAuflageTeil. rewrite Ha. cbn [toStringMethod toStr bind].
  rewrite removeAll_twice.
  rewrite removeAll_formatGrouped.
  - rewrite parseInt10_digitsOf.
    replace (Z.abs (Z.of_N n) <=? MAX_SAFE_INTEGER)%Z with true
      by (symmetry; apply Z.leb_le; lia).
    now rewrite numberToString_nat.
  - rewrite forallb_forall in *. intros c Hc. specialize (Hsep c Hc).
    unfold strippable in Hsep. now rewrite N.eqb_sym.
  - intros c Hc. apply digit_not_strippable in Hc. unfold strippable in Hc.
    now rewrite N.eqb_sym.
Qed.

(** Below 1000 nothing is grouped, and the round trip holds with any
    separator. *)
Lemma parse_format_below_1000 (groupSeparator : jstring) (n : N) :
  n < 1000 -> parseSwissNumber (formatSwissNumber groupSeparator n) = Num (Z.of_N n).
Proof.
  intros H.
  pose (P := fun c => jstring_eqb (formatSwissNumber groupSeparator c) (digitsOf c)).
  assert (K : P n = true).
  { apply (forall_below P 1000); [vm_compute; reflexivity | exact H]. }
  unfold P in K. apply jstring_eqb_eq in K. unfold parseSwissNumber. rewrite K.
  replace (removeAll strippable (digitsOf n)) with (digitsOf n).
  - apply parseInt10_digitsOf.
  - symmetry. unfold removeAll. apply forallb_filter_id. apply forallb_forall.
    intros c Hc. pose proof (digitsOf_digits n) as D.
    rewrite forallb_forall in D. now rewrite (@digit_not_strippable c (D c Hc)).
Qed.

(** *** Where the round trip fails

    With a separator that [parseSwissNumber] does not strip, parsing stops
    at the first separator, after at most three digits. *)

Lemma takeWhile_snoc (p : char16 -> bool) (a : jstring) (c : char16) :
  takeWhile p (a ++ [c])
  = if forallb p a then (if p c then a ++ [c] else a) else takeWhile p a.
Proof.
  induction a as [|x a IH]; simpl.
  - now destruct (p c).
  - destruct (p x); simpl; trivial. rewrite IH.
    destruct (forallb p a); trivial. now destruct (p c).
Qed.

(** The digits in front of the first separator. *)
Lemma leading_group (c : char16) (k : nat) (ds : jstring) :
  isDigit c = false -> forallb isDigit ds = true -> (k <= 3)%nat ->
  let g := groupFrom [c] k ds in
  (forallb isDigit g = true -> (List.length g + k <= 3)%nat)
  /\ (List.length (takeWhile isDigit (rev g)) <= 3)%nat.
Proof.
  intros Hc. revert k. induction ds as [|d ds IH]; intros k Hds Hk; simpl.
  - split; [lia | auto with arith].
  - simpl in Hds. apply andb_true_iff in Hds. destruct Hds as [Hd Hds].
    destruct (Nat.eqb k 3) eqn:K.
    + destruct (IH 1%nat Hds ltac:(lia)) as [IH1 IH2].
      simpl. rewrite Hc. split; [discriminate|].
      rewrite takeWhile_snoc, Hc, forallb_app. simpl forallb.
      rewrite Hd, forallb_rev, takeWhile_snoc, Hd, forallb_rev.
      destruct (forallb isDigit (groupFrom [c] 1 ds)) eqn:A; simpl.
      * rewrite length_app, length_rev. simpl. specialize (IH1 eq_refl). lia.
      * exact IH2.
    + apply Nat.eqb_neq in K.
      destruct (IH (S k) Hds ltac:(lia)) as [IH1 IH2].
      simpl. rewrite Hd. simpl. split.
      * intros A. specialize (IH1 A). lia.
      * rewrite takeWhile_snoc, Hd, forallb_rev.
        destruct (forallb isDigit (groupFrom [c] (S k) ds)) eqn:A.
        -- rewrite length_app, length_rev. simpl. specialize (IH1 eq_refl). lia.
        -- exact IH2.
Qed.

Lemma digitsValue_three (ds : jstring) :
  forallb isDigit ds = true -> (List.length ds <= 3)%nat -> digitsValue ds < 1000.
Proof.
  intros H L.
  unfold digitsValue.
  destruct ds as [|a [|b [|c [|x ds]]]]; simpl in L; try lia;
    cbn [forallb] in H; unfold isDigit in H;
    repeat rewrite andb_true_iff in H; repeat rewrite inRange_spec in H;
    cbn [fold_left]; lia.
Qed.

Lemma takeWhile_forallb (p : char16 -> bool) (s : jstring) :
  forallb p (takeWhile p s) = true.
Proof.
  induction s as [|c s IH]; simpl; trivial.
  destruct (p c) eqn:E; simpl; trivial. now rewrite E.
Qed.

Lemma groupFrom_chars (c : char16) (k : nat) (ds : jstring) (x : char16) :
  In x (groupFrom [c] k ds) -> x = c \/ In x ds.
Proof.
  revert k. induction ds as [|d ds IH]; intros k; simpl; [tauto|].
  destruct (Nat.eqb k 3); simpl; intros H.
  - destruct H as [H|[H|H]]; auto. destruct (IH _ H); auto.
  - destruct H as [H|H]; auto. destruct (IH _ H); auto.
Qed.

(** With the separator U+2019, whatever the number, what
    [parseSwissNumber] reads back from [formatSwissNumber] is below 1000. *)
Lemma parse_format_leading_group (n : N) (z : Z) :
  parseSwissNumber (formatSwissNumber quotationMarkSeparator n) = Num z -> (z < 1000)%Z.
Proof.
  unfold parseSwissNumber, formatSwissNumber, formatGrouped.
  set (g := groupFrom quotationMarkSeparator 0 (rev (digitsOf n))).
  assert (Hchars : forall x, In x (rev g) -> isDigit x = true \/ x = 8217).
  { intros x Hx. apply in_rev in Hx. apply groupFrom_chars in Hx.
    destruct Hx as [->|Hx]; [now right | left].
    apply in_rev in Hx. pose proof (digitsOf_digits n) as D.
    rewrite forallb_forall in D. now apply D. }
  assert (Hkeep : removeAll strippable (rev g) = rev g).
  { unfold removeAll. apply forallb_filter_id. apply forallb_forall.
    intros x Hx. destruct (Hchars x Hx) as [Hd | ->];
      [now rewrite digit_not_strippable | reflexivity]. }
  rewrite Hkeep. unfold parseInt10.
  assert (Hsign : readSign (trimStart (rev g)) = (false, rev g)).
  { destruct (rev g) as [|x r] eqn:E; [reflexivity|].
    destruct (Hchars x (or_introl eq_refl)) as [Hd | ->]; [|reflexivity].
    destruct (isDigit_facts x Hd) as [W [M P]].
    unfold trimStart. simpl. rewrite W. simpl. now rewrite M, P. }
  rewrite Hsign.
  destruct (@leading_group 8217 0%nat (rev (digitsOf n)) eq_refl) as [_ Hrun];
    [now rewrite forallb_rev, digitsOf_digits | lia |].
  change (groupFrom [8217] 0 (rev (digitsOf n))) with g in Hrun.
  pose proof (@digitsValue_three _ (takeWhile_forallb isDigit (rev g)) Hrun) as Hv.
  destruct (takeWhile isDigit (rev g)); [discriminate|].
  intros E. injection E as <-. lia.
Qed.

(** So on an engine whose locale data group with U+2019 the round trip
    fails for every number from 1000 on. *)
Lemma parse_format_fails_from_1000 (n : N) :
  1000 <= n ->
  parseSwissNumber (formatSwissNumber quotationMarkSeparator n) <> Num (Z.of_N n).
Proof.
  intros Hn E. apply parse_format_leading_group in E. lia.
Qed.



(** *** The quantity as a segment of the code *)

Lemma split_app_sep (sep : char16) (a rest : jstring) :
  ~ In sep a -> split sep (a ++ sep :: rest) = a :: split sep rest.
Proof.
  induction a as [|c a IH]; intros H; simpl.
  - now rewrite N.eqb_refl.
  - simpl in H. replace (c =? sep) with false by (symmetry; apply N.eqb_neq; tauto).
    rewrite IH by tauto. reflexivity.
Qed.

Lemma In_dropWhile (p : char16 -> bool) (c : char16) (s : jstring) :
  In c (dropWhile p s) -> In c s.
Proof.
  induction s as [|d s IH]; simpl; trivial.
  destruct (p d); simpl; intros H; [right; now apply IH | assumption].
Qed.

Lemma In_trim (c : char16) (s : jstring) : In c (trim s) -> In c s.
Proof.
  unfold trim, trimEnd, trimStart. intros H.
  apply in_rev, In_dropWhile, in_rev in H. now apply In_dropWhile in H.
Qed.

Lemma digitsOf_hashFree (n : N) : ~ In 35 (digitsOf n).
Proof.
  intros H. pose proof (digitsOf_digits n) as D. rewrite forallb_forall in D.
  specialize (D 35 H). discriminate.
Qed.

Lemma sanitizeText_hashFree (text : jstring) : ~ In 35 (sanitizeText text).
Proof.
  intros H. pose proof (sanitizeText_allowed text) as A.
  rewrite Forall_forall in A. specialize (A 35 H).
  assert (K : existsb (N.eqb 35) allowList = true).
  { apply existsb_exists. exists 35. split; [assumption | reflexivity]. }
  vm_compute in K. discriminate.
Qed.

Ltac no_hash :=
  repeat (rewrite in_app_iff || simpl In);
  intuition (try discriminate; eauto using In_trim).

Lemma fourth_segment (a k m q p : jstring) :
  ~ In 35 a -> ~ In 35 k -> ~ In 35 m -> ~ In 35 q ->
  nth 3 (split 35 (join [35] [a; k; m; q; p] ++ [35])) [] = q.
Proof.
  intros Ha Hk Hm Hq. cbn [join]. rewrite <- !app_assoc. cbn [app].
  rewrite !split_app_sep by assumption. reflexivity.
Qed.

(** C3. The quantity is emitted without its grouping separators: for
    string fields that are present, with no [#] in the order number, the
    position, the machine, the product, the paper name and the paper-type
    code, and a quantity of the safe range that [formatSwissNumber] has
    grouped with the apostrophe U+0027 or with white space, [generate]
    returns a code whose fourth segment is the plain digits of the
    quantity. *)
Theorem quantity_segment_plain_digits :
  forall (toLowerCase memberText : jstring -> jstring) (groupSeparator : jstring)
         (formData : FormData) (config : Config) (n : N),
    hashFree (auftragsnummer formData) ->
    hashFree (auftragsposition formData) ->
    (exists name, kunde formData = VStr name) ->
    hashFree (maschine formData) ->
    hashFree (produkt formData) ->
    hashFree (papiername formData) ->
    (exists code,
       getPaperTypeCode toLowerCase memberText (papierart formData) = Ok code
       /\ ~ In 35 (toStr memberText code)) ->
    validateInput memberText formData = true ->
    forallb strippable groupSeparator = true ->
    (Z.of_N n <= MAX_SAFE_INTEGER)%Z ->
    auflage formData = VStr (formatSwissNumber groupSeparator n) ->
    exists out,
      generate toLowerCase memberText formData config = Ok out
      /\ nth 3 (split 35 out) [] = digitsOf n.
Proof.
  intros toLowerCase memberText sep formData config n
         [an [Ean Han]] [ap [Eap Hap]] [name Ek] [ma [Ema Hma]] [pr [Epr Hpr]]
         [pn [Epn Hpn]] [code [Ecode Hcode]] Hvalid Hsep Hn Ea.
  pose proof (@sanitizeText_hashFree name) as Hname.
  pose proof (digitsOf_hashFree n) as Hq.
  unfold generate. rewrite Hvalid. cbn [negb].
  unfold buildCodeParts.
  unfold buildAuftragsTeil. rewrite Ean, Eap. cbn [trimMethod toStringMethod toStr bind].
  rewrite (@buildKundenTeil_string memberText formData config name Ek), Epr. cbn [bind toStr].
  unfold buildMaschineTeil, getMachineCode, getPaperCode, buildPapierTeil.
  rewrite !lookupCode_id, Ema, Epn, Ecode.
  rewrite (@buildAuflageTeil_grouped memberText formData sep n Hsep Hn Ea).
  cbn [bind toStr tryCatch]. eexists. split; [reflexivity|].
  unfold assembleCode.
  cbn [auftragsTeil kundenTeil maschineTeil auflageTeil papierTeil].
  change (js "#") with [35].
  apply fourth_segment; trivial.
  - destruct (startsWith (trim an) (js "A")); no_hash.
  - no_hash.
  - no_hash.
Qed.

Ltac absent :=
  let H := fresh in
  intros H; vm_compute in H; repeat (destruct H as [H|H]; [discriminate H|]); exact H.

Lemma quantity_segment_plain_digits_witness :
  formatSwissNumber apostropheSeparator 1200 = js "1'200"
  /\ exists out,
       generate asciiToLowerCase builtinText
         (exampleDataWith (formatSwissNumber apostropheSeparator 1200)) exampleConfig
       = Ok out
       /\ nth 3 (split 35 out) [] = digitsOf 1200.
Proof.
  split; [reflexivity|].
  apply (@quantity_segment_plain_digits asciiToLowerCase builtinText apostropheSeparator
           (exampleDataWith (formatSwissNumber apostropheSeparator 1200)) exampleConfig 1200).
  - exists (js "A12345"). split; [reflexivity | absent].
  - exists (js "1"). split; [reflexivity | absent].
  - exists (js "TestKunde"). reflexivity.
  - exists (js "CX75"). split; [reflexivity | absent].
  - exists (js "BRFPP"). split; [reflexivity | absent].
  - exists (js "NoSat170"). split; [reflexivity | absent].
  - exists (VStr (js "u_s")). split; [reflexivity | absent].
  - reflexivity.
  - reflexivity.
  - unfold MAX_SAFE_INTEGER. lia.
  - reflexivity.
Defined.

(** The claim does not hold for every record: [generate] joins the parts
    with [#] and removes a [#] from the customer only, so one in the order
    number moves the segments, and the fourth is the machine part. *)
Lemma quantity_segment_shifted :
  validateInput builtinText shiftedData = true
  /\ auflage shiftedData = VStr (formatSwissNumber apostropheSeparator 1200)
  /\ generate asciiToLowerCase builtinText shiftedData exampleConfig
     = Ok (js "A#1-1#TestKunde-BRFPP#CX75_u_s_NoSat170#1200#D-NoSat170#")
  /\ nth 3 (split 35 (js "A#1-1#TestKunde-BRFPP#CX75_u_s_NoSat170#1200#D-NoSat170#")) []
     = js "CX75_u_s_NoSat170"
  /\ js "CX75_u_s_NoSat170" <> digitsOf 1200.
Proof. repeat split; try (vm_compute; reflexivity). vm_compute. discriminate. Qed.

(** A quantity grouped with a separator that [buildAuflageTeil] does not
    remove, here U+2019, is read up to the separator. *)
Lemma quantity_segment_other_separator :
  forall toLowerCase memberText : jstring -> jstring,
    generate toLowerCase memberText
      (exampleDataWith (formatSwissNumber quotationMarkSeparator 1200)) exampleConfig
    = Ok (js "A12345-1#TestKunde-BRFPP#CX75_u_s_NoSat170#1#D-NoSat170#").
Proof. intros. vm_compute. reflexivity. Qed.

(* ================================================================== *)
(** ** Reading a code back *)
(* ================================================================== *)

Lemma split_length (sep : char16) (s : jstring) :
  List.length (split sep s) = S (count_occ N.eq_dec s sep).
Proof.
  induction s as [|c s IH]; simpl; trivial.
  destruct (N.eq_dec c sep) as [->|Hne].
  - rewrite N.eqb_refl. simpl. now rewrite IH.
  - replace (c =? sep) with false by (symmetry; now apply N.eqb_neq).
    destruct (split sep s); simpl in *; [discriminate | assumption].
Qed.

Lemma split_none (sep : char16) (s : jstring) : ~ In sep s -> split sep s = [s].
Proof.
  induction s as [|c s IH]; simpl; intros H; trivial.
  replace (c =? sep) with false by (symmetry; apply N.eqb_neq; tauto).
  rewrite IH by tauto. reflexivity.
Qed.

Lemma parseCode_five (code : jstring) :
  (5 <= List.length (split 35%N code))%nat -> exists parsed, parseCode code = Ok parsed.
Proof.
  intros H. unfold parseCode.
  replace (List.length (split 35%N code) <? 5)%nat with false
    by (symmetry; apply Nat.ltb_ge; exact H).
  destruct (split 35 code) as [|a [|b [|c [|d [|e rest]]]]]; simpl in H; try lia.
  eexists. reflexivity.
Qed.

(** [validateCode] decides by the number of [#]. *)
Lemma validateCode_hashes :
  forall code : jstring,
    exists check,
      validateCode code = Ok check
      /\ (isCodeValid check = true <-> (4 <= count_occ N.eq_dec code 35%N)%nat)
      /\ (isCodeValid check = false ->
          check = CodeInvalid (js "Ung\u00fcltiger Produktcode-Format")).
Proof.
  intros code. unfold validateCode.
  destruct (Nat.le_gt_cases 5%nat (List.length (split 35 code))) as [H|H].
  - destruct (parseCode_five code H) as [parsed ->].
    eexists. split; [reflexivity|]. rewrite split_length in H. simpl.
    split; [split; [lia | reflexivity] | discriminate].
  - unfold parseCode.
    replace (List.length (split 35%N code) <? 5)%nat with true
      by (symmetry; apply Nat.ltb_lt; exact H).
    eexists. split; [reflexivity|]. rewrite split_length in H. simpl.
    split; [split; [discriminate | lia] | reflexivity].
Qed.

(** X1. [validateCode] accepts a string exactly when it holds four [#] or
    more; any other string is answered with the format error, never with
    an exception. *)
Theorem validateCode_counts_hashes :
  forall code : jstring,
    exists check,
      validateCode code = Ok check
      /\ (isCodeValid check = true <-> (4 <= count_occ N.eq_dec code 35%N)%nat)
      /\ (isCodeValid check = false ->
          check = CodeInvalid (js "Ung\u00fcltiger Produktcode-Format")).
Proof. exact validateCode_hashes. Qed.

Section CodeFacts.

Variable toLowerCase : jstring -> jstring.
Variable memberText : jstring -> jstring.

Lemma buildCodeParts_auftrag (formData : FormData) (config : Config) (parts : CodeParts) :
  buildCodeParts toLowerCase memberText formData config = Ok parts ->
  buildAuftragsTeil memberText formData = Ok (auftragsTeil parts).
Proof.
  unfold buildCodeParts, buildPapierTeil.
  destruct (buildAuftragsTeil memberText formData); simpl; try discriminate.
  destruct (buildKundenTeil memberText formData config); simpl; try discriminate.
  destruct (buildMaschineTeil toLowerCase memberText formData config); simpl; try discriminate.
  destruct (buildAuflageTeil memberText formData); simpl; try discriminate.
  intros E. injection E as <-. reflexivity.
Qed.

Lemma startsWith_app (s prefix rest : jstring) :
  startsWith s prefix = true -> startsWith (s ++ rest) prefix = true.
Proof.
  revert s. induction prefix as [|p prefix IH]; intros s H.
  - now destruct (s ++ rest).
  - destruct s as [|c s]; simpl in *; [discriminate|].
    apply andb_true_iff in H. destruct H as [-> H]. simpl. now apply IH.
Qed.

Lemma buildAuftragsTeil_prefix (formData : FormData) (t : jstring) :
  buildAuftragsTeil memberText formData = Ok t -> startsWith t (js "A") = true.
Proof.
  unfold buildAuftragsTeil.
  destruct (trimMethod (auftragsnummer formData)) as [a| |]; cbn [bind]; try discriminate.
  destruct (toStringMethod memberText (auftragsposition formData)) as [p| |];
    cbn [bind]; try discriminate.
  intros E. injection E as <-. change (js "A") with [65].
  match goal with |- context [if ?b then _ else _] => destruct b eqn:S end.
  - exact (startsWith_app a _ _ S).
  - apply (startsWith_app (65 :: a)). simpl. now destruct a.
Qed.

Lemma endsWith_hash (a : jstring) : endsWith (a ++ js "#") (js "#") = true.
Proof.
  unfold endsWith. rewrite rev_app_distr. simpl. now destruct (rev a).
Qed.

Lemma count_hash_assembled (a k m q p : jstring) :
  (5 <= count_occ N.eq_dec
          (a ++ js "#" ++ k ++ js "#" ++ m ++ js "#" ++ q ++ js "#" ++ p ++ js "#")
          35%N)%nat.
Proof.
  change (js "#") with [35]. rewrite !count_occ_app. simpl. lia.
Qed.

End CodeFacts.

(** X2. Whatever [generate] returns, [validateCode] accepts it exactly when
    it is not the empty string: every code that is generated reads back,
    and the empty string of the soft failure does not. *)
Theorem generated_code_is_accepted :
  forall (toLowerCase memberText : jstring -> jstring)
         (formData : FormData) (config : Config) (out : jstring),
    generate toLowerCase memberText formData config = Ok out ->
    exists check,
      validateCode out = Ok check
      /\ (isCodeValid check = true <-> out <> []).
Proof.
  intros lower text fd cfg out G.
  destruct (validateCode_hashes out) as [check [V [Hiff _]]].
  exists check. split; [exact V|]. rewrite Hiff. split.
  - intros H ->. simpl in H. lia.
  - intros Hne.
    destruct (@generate_assembled lower text fd cfg out G Hne) as [parts [_ ->]].
    pose proof (count_hash_assembled (auftragsTeil parts) (kundenTeil parts)
                  (maschineTeil parts) (auflageTeil parts) (papierTeil parts)). lia.
Qed.

Lemma generated_code_is_accepted_witness :
  generate asciiToLowerCase builtinText exampleData exampleConfig
  = Ok (js "A12345-1#TestKunde-BRFPP#CX75_u_s_NoSat170#1200#D-NoSat170#")
  /\ exists check,
       validateCode (js "A12345-1#TestKunde-BRFPP#CX75_u_s_NoSat170#1200#D-NoSat170#")
       = Ok check.
Proof.
  assert (G : generate asciiToLowerCase builtinText exampleData exampleConfig
              = Ok (js "A12345-1#TestKunde-BRFPP#CX75_u_s_NoSat170#1200#D-NoSat170#"))
    by (vm_compute; reflexivity).
  split; [exact G|].
  destruct (generated_code_is_accepted asciiToLowerCase builtinText
              exampleData exampleConfig G) as [check [V _]].
  exists check. exact V.
Defined.

(** X3. A generated code that is not empty starts with the letter [A],
    whether or not the order number was entered with it, and ends with
    [#]. *)
Theorem generated_code_prefix :
  forall (toLowerCase memberText : jstring -> jstring)
         (formData : FormData) (config : Config) (out : jstring),
    generate toLowerCase memberText formData config = Ok out ->
    out <> [] ->
    startsWith out (js "A") = true /\ endsWith out (js "#") = true.
Proof.
  intros lower text fd cfg out G Hne.
  destruct (@generate_assembled lower text fd cfg out G Hne) as [parts [P ->]].
  apply buildCodeParts_auftrag, buildAuftragsTeil_prefix in P. split.
  - now apply startsWith_app.
  - rewrite !app_assoc. apply endsWith_hash.
Qed.

Lemma generated_code_prefix_witness :
  generate asciiToLowerCase builtinText
    (mkFormData (VStr (js "777")) (VStr (js "K")) (VStr (js "2")) (VStr (js "M"))
                (VStr (js "50")) (VStr (js "P")) (VStr (js "gestrichen")) (VStr (js "X")))
    exampleConfig
  = Ok (js "A777-2#K-P#M_g_s_X#50#D-X#")
  /\ js "A777-2#K-P#M_g_s_X#50#D-X#" <> []
  /\ startsWith (js "A777-2#K-P#M_g_s_X#50#D-X#") (js "A") = true.
Proof.
  assert (G : generate asciiToLowerCase builtinText
                (mkFormData (VStr (js "777")) (VStr (js "K")) (VStr (js "2"))
                   (VStr (js "M")) (VStr (js "50")) (VStr (js "P"))
                   (VStr (js "gestrichen")) (VStr (js "X")))
                exampleConfig
              = Ok (js "A777-2#K-P#M_g_s_X#50#D-X#")) by (vm_compute; reflexivity).
  assert (N : js "A777-2#K-P#M_g_s_X#50#D-X#" <> []) by discriminate.
  split; [exact G|]. split; [exact N|].
  exact (proj1 (generated_code_prefix asciiToLowerCase builtinText _ exampleConfig G N)).
Defined.

Lemma split_assembled (a k m q p : jstring) :
  ~ In 35 a -> ~ In 35 k -> ~ In 35 m -> ~ In 35 q -> ~ In 35 p ->
  split 35 (join [35] [a; k; m; q; p] ++ [35]) = [a; k; m; q; p; []].
Proof.
  intros Ha Hk Hm Hq Hp. cbn [join]. rewrite <- !app_assoc. cbn [app].
  rewrite !split_app_sep by assumption. reflexivity.
Qed.

Lemma split_pair (sep : char16) (a b : jstring) :
  ~ In sep a -> ~ In sep b -> split sep (a ++ sep :: b) = [a; b].
Proof.
  intros Ha Hb. rewrite split_app_sep by assumption. now rewrite split_none.
Qed.

Lemma split_tagged (ma pn : jstring) (x y : char16) :
  ~ In 95 ma -> x <> 95 -> y <> 95 -> ~ In 95 pn ->
  split 95 (ma ++ [95] ++ [x; 95; y] ++ [95] ++ pn) = [ma; [x]; [y]; pn].
Proof.
  intros Hma Hx Hy Hpn. cbn [app].
  rewrite split_app_sep by assumption.
  change (x :: 95 :: y :: 95 :: pn) with ([x] ++ 95 :: [y] ++ 95 :: pn).
  rewrite split_app_sep by (simpl; intuition congruence).
  rewrite split_app_sep by (simpl; intuition congruence).
  now rewrite split_none.
Qed.

Lemma parseCode_assembled (a k m q p : jstring) :
  ~ In 35 a -> ~ In 35 k -> ~ In 35 m -> ~ In 35 q -> ~ In 35 p ->
  parseCode (join [35] [a; k; m; q; p] ++ [35])
  = Ok (mkParsedCode
          (elementAt (split 45 a) 0) (elementAt (split 45 a) 1)
          (elementAt (split 45 k) 0) (elementAt (split 45 k) 1)
          (elementAt (split 95 m) 0)
          (elementText (split 95 m) 1 ++ js "_" ++ elementText (split 95 m) 2)
          (elementAt (split 95 m) 3)
          q
          (elementAt (split 45 p) 0) (elementAt (split 45 p) 1)).
Proof.
  intros Ha Hk Hm Hq Hp. unfold parseCode.
  rewrite split_assembled by assumption. reflexivity.
Qed.

(** X4. [parseCode] undoes [generate]: for string fields that hold no [#]
    and none of the separator their part is split on ([-] in the order
    number, position, sanitized customer, product and paper name, [_] in
    the machine and paper name), one of the two known paper types, and a
    quantity up to [MAX_SAFE_INTEGER] grouped with U+0027 or white space,
    the code is generated and reads back as the normalized order number,
    the position, the sanitized customer, the product, the machine, the
    paper-type tag, the paper name and the plain quantity. *)
Theorem parseCode_generate :
  forall (toLowerCase memberText : jstring -> jstring)
         (formData : FormData) (config : Config)
         (an ap name pr ma tag pn sep : jstring) (n : N),
    auftragsnummer formData = VStr an -> ~ In 35 an -> ~ In 45 an ->
    auftragsposition formData = VStr ap -> ~ In 35 ap -> ~ In 45 ap ->
    kunde formData = VStr name -> ~ In 45 (sanitizeText name) ->
    produkt formData = VStr pr -> ~ In 35 pr -> ~ In 45 pr ->
    maschine formData = VStr ma -> ~ In 35 ma -> ~ In 95 ma ->
    papiername formData = VStr pn -> ~ In 35 pn -> ~ In 95 pn -> ~ In 45 pn ->
    ((papierart formData = VStr (js "gestrichen") /\ tag = js "g_s")
     \/ (papierart formData = VStr (js "ungestrichen") /\ tag = js "u_s")) ->
    auflage formData = VStr (formatGrouped sep n) ->
    forallb strippable sep = true ->
    (Z.of_N n <= MAX_SAFE_INTEGER)%Z ->
    validateInput memberText formData = true ->
    exists out,
      generate toLowerCase memberText formData config = Ok out
      /\ parseCode out
         = Ok (mkParsedCode
                 (VStr (if startsWith (trim an) (js "A") then trim an
                        else js "A" ++ trim an))
                 (VStr (trim ap))
                 (VStr (sanitizeText name))
                 (VStr pr)
                 (VStr ma)
                 tag
                 (VStr pn)
                 (digitsOf n)
                 (VStr (js "D"))
                 (VStr pn)).
Proof.
  intros lower text fd cfg an ap name pr ma tag pn sep n
         Ean Han Han' Eap Hap Hap' Ek Hk Epr Hpr Hpr' Ema Hma Hma'
         Epn Hpn Hpn' Hpn'' Hart Ea Hsep Hn Hvalid.
  pose proof (@sanitizeText_hashFree name) as Hname.
  pose proof (digitsOf_hashFree n) as Hq.
  remember (if startsWith (trim an) (js "A") then trim an else js "A" ++ trim an)
    as order eqn:Eo.
  assert (Ho35 : ~ In 35 order) by (subst order; destruct (startsWith _ _); no_hash).
  assert (Ho45 : ~ In 45 order) by (subst order; destruct (startsWith _ _); no_hash).
  assert (Hp45 : ~ In 45 (trim ap)) by (intros K; apply In_trim in K; tauto).
  assert (Hp35 : ~ In 35 (trim ap)) by (intros K; apply In_trim in K; tauto).
  assert (S1 : split 45 (order ++ js "-" ++ trim ap) = [order; trim ap])
    by (apply (split_pair 45); assumption).
  assert (S2 : split 45 (sanitizeText name ++ js "-" ++ pr) = [sanitizeText name; pr])
    by (apply (split_pair 45); assumption).
  assert (S4 : split 45 (js "D-" ++ pn) = [js "D"; pn])
    by (apply (split_pair 45 (js "D") pn); [no_hash | assumption]).
  assert (Hcode : getPaperTypeCode lower text (papierart fd) = Ok (VStr tag)
                  /\ ~ In 35 tag
                  /\ split 95 (ma ++ js "_" ++ tag ++ js "_" ++ pn)
                     = [ma; elementText (split 95 tag) 0; elementText (split 95 tag) 1; pn]
                  /\ tag = elementText (split 95 tag) 0 ++ js "_"
                           ++ elementText (split 95 tag) 1).
  { destruct Hart as [[E1 E2] | [E1 E2]]; rewrite E1; subst tag;
      (split; [reflexivity|]); (split; [no_hash|]); (split; [|reflexivity]).
    - apply (@split_tagged ma pn 103 115); trivial; discriminate.
    - apply (@split_tagged ma pn 117 115); trivial; discriminate. }
  destruct Hcode as [Ecode [Ht35 [S3 Etag]]].
  unfold generate. rewrite Hvalid. cbn [negb].
  unfold buildCodeParts.
  unfold buildAuftragsTeil. rewrite Ean, Eap. cbn [trimMethod toStringMethod toStr bind].
  rewrite <- Eo.
  rewrite (@buildKundenTeil_string text fd cfg name Ek), Epr. cbn [bind toStr].
  unfold buildPapierTeil, buildMaschineTeil, getMachineCode, getPaperCode.
  rewrite !lookupCode_id, Ema, Epn, Ecode.
  rewrite (@buildAuflageTeil_grouped text fd sep n Hsep Hn Ea).
  cbn [bind toStr tryCatch]. eexists. split; [reflexivity|].
  unfold assembleCode.
  cbn [auftragsTeil kundenTeil maschineTeil auflageTeil papierTeil].
  change (js "#") with [35].
  rewrite parseCode_assembled; [| no_hash ..].
  rewrite S1, S2, S3, S4. cbn [elementAt elementText nth_error].
  now rewrite <- Etag.
Qed.

Lemma parseCode_generate_witness :
  exists out,
    generate asciiToLowerCase builtinText (exampleDataWith (js "1'200")) exampleConfig
    = Ok out
    /\ parseCode out
       = Ok (mkParsedCode (VStr (js "A12345")) (VStr (js "1")) (VStr (js "TestKunde"))
               (VStr (js "BRFPP")) (VStr (js "CX75")) (js "u_s") (VStr (js "NoSat170"))
               (js "1200") (VStr (js "D")) (VStr (js "NoSat170"))).
Proof.
  assert (F : forall (c : char16) (s : jstring),
            existsb (N.eqb c) s = false -> ~ In c s).
  { intros c s E K. assert (T : existsb (N.eqb c) s = true).
    { apply existsb_exists. exists c. split; [assumption | apply N.eqb_refl]. }
    congruence. }
  exact (@parseCode_generate asciiToLowerCase builtinText
           (exampleDataWith (js "1'200")) exampleConfig
           (js "A12345") (js "1") (js "TestKunde") (js "BRFPP") (js "CX75") (js "u_s")
           (js "NoSat170") (js "'") 1200
           eq_refl (F 35 (js "A12345") eq_refl) (F 45 (js "A12345") eq_refl)
           eq_refl (F 35 (js "1") eq_refl) (F 45 (js "1") eq_refl)
           eq_refl (F 45 (sanitizeText (js "TestKunde")) eq_refl)
           eq_refl (F 35 (js "BRFPP") eq_refl) (F 45 (js "BRFPP") eq_refl)
           eq_refl (F 35 (js "CX75") eq_refl) (F 95 (js "CX75") eq_refl)
           eq_refl (F 35 (js "NoSat170") eq_refl) (F 95 (js "NoSat170") eq_refl)
           (F 45 (js "NoSat170") eq_refl)
           (or_intror (conj eq_refl eq_refl))
           eq_refl eq_refl
           ltac:(vm_compute; discriminate) eq_refl).
Defined.

(* ================================================================== *)
(** ** The validator: what each field accepts *)
(* ================================================================== *)

Lemma isOrderNumber_length (s : jstring) : isOrderNumber s -> 2 <= jlength s.
Proof.
  intros [ds [-> [Hne _]]]. unfold jlength. destruct ds; [congruence|]. simpl. lia.
Qed.

Lemma isOrderNumber_prefix (s : jstring) : isOrderNumber s -> startsWith s (js "A") = true.
Proof. intros [ds [-> _]]. simpl. now destruct ds. Qed.

(** X5. [validateField('auftragsnummer', value)] accepts a string exactly
    when its trimmed form is an [A] followed by digits and has at most 20
    code units; it then returns the trimmed form.  A rejection carries
    [REQUIRED], [PATTERN] or [MAX_LENGTH]: the codes of the later checks
    ([MIN_LENGTH], [INVALID_PREFIX], [INVALID_FORMAT], [TOO_SHORT]) are
    never issued. *)
Theorem order_number_accepted_iff :
  forall (toUpperCase memberText : jstring -> jstring) (groupSeparator : jstring) (value : jstring),
    exists r,
      validateField toUpperCase memberText groupSeparator (js "auftragsnummer") (VStr value) = Ok r
      /\ (isValid r = true <-> isOrderNumber (trim value) /\ jlength (trim value) <= 20)
      /\ (isValid r = true ->
          r = Valid (VStr (trim value)) (Some (toUpperCase (trim value))))
      /\ (forall e c, r = Invalid e c ->
            c = js "REQUIRED" \/ c = js "PATTERN" \/ c = js "MAX_LENGTH").
Proof.
  intros upper text gs value. unfold validateField.
  replace (rulesFor (js "auftragsnummer"))
    with (mkRules true (Some auftragsnummerPattern) (Some 2) (Some 20) None None None
            (Some auftragsnummerMessage)) by reflexivity.
  cbn [rule_required rule_pattern rule_message rule_minLength rule_maxLength
       rule_min rule_max rule_enum isEmpty toStr andb isSome orb].
  destruct (jstring_eqb (trim value) []) eqn:Eempty; cbn [andb negb].
  - apply jstring_eqb_eq in Eempty. eexists. split; [reflexivity|]. simpl.
    split; [|split].
    + split; [discriminate|]. intros [[ds [E _]] _]. rewrite Eempty in E. discriminate.
    + discriminate.
    + intros e c E. injection E as _ <-. auto.
  - destruct (testWhole auftragsnummerPattern (trim value)) eqn:T; cbn [negb].
    + pose proof (proj1 (auftragsnummerPattern_shape _) T) as Hshape.
      pose proof (isOrderNumber_length Hshape) as Hlen.
      replace (negb (2 =? 0) && (jlength (trim value) <? 2)) with false
        by (symmetry; apply andb_false_iff; right; apply N.ltb_ge; exact Hlen).
      cbn [negb andb].
      destruct (20 <? jlength (trim value)) eqn:L; cbn [negb andb bind].
      * apply N.ltb_lt in L. eexists. split; [reflexivity|]. simpl.
        split; [|split].
        -- split; [discriminate|]. intros [_ K]. lia.
        -- discriminate.
        -- intros e c E. injection E as _ <-. auto.
      * apply N.ltb_ge in L.
        replace (jstring_eqb (js "auftragsnummer") (js "auflage")) with false by reflexivity.
        replace (jstring_eqb (js "auftragsnummer") (js "auftragsnummer")) with true
          by reflexivity.
        unfold validateAuftragsnummer.
        rewrite (isOrderNumber_prefix Hshape), T. cbn [negb].
        replace (jlength (trim value) <? 2) with false
          by (symmetry; apply N.ltb_ge; exact Hlen).
        eexists. split; [reflexivity|]. simpl. split; [|split].
        -- split; [intros _; split; assumption | reflexivity].
        -- intros _. reflexivity.
        -- discriminate.
    + eexists. split; [reflexivity|]. simpl. split; [|split].
      * split; [discriminate|]. intros [Hshape _].
        apply auftragsnummerPattern_shape in Hshape. congruence.
      * discriminate.
      * intros e c E. injection E as _ <-. auto.
Qed.

(** X6. [validateField('auftragsposition', value)] accepts a string exactly
    when its trimmed form is a run of decimal digits whose value is at most
    999.  A rejection carries [REQUIRED], [PATTERN] or [MAX_VALUE]; the
    codes [NOT_NUMERIC] and [MIN_VALUE] are never issued. *)
Theorem position_accepted_iff :
  forall (toUpperCase memberText : jstring -> jstring) (groupSeparator : jstring) (value : jstring),
    exists r,
      validateField toUpperCase memberText groupSeparator (js "auftragsposition") (VStr value) = Ok r
      /\ (isValid r = true <->
          trim value <> [] /\ forallb isDigit (trim value) = true
          /\ digitsValue (trim value) <= 999)
      /\ (isValid r = true -> r = Valid (VStr (trim value)) (Some (trim (trim value))))
      /\ (forall e c, r = Invalid e c ->
            c = js "REQUIRED" \/ c = js "PATTERN" \/ c = js "MAX_VALUE").
Proof.
  intros upper text gs value. unfold validateField.
  replace (rulesFor (js "auftragsposition"))
    with (mkRules true (Some digitsPattern) None None (Some 0%Z) (Some 999%Z) None
            (Some (js "Auftragsposition muss eine Zahl zwischen 0 und 999 sein")))
    by reflexivity.
  cbn [rule_required rule_pattern rule_message rule_minLength rule_maxLength
       rule_min rule_max rule_enum isEmpty toStr andb isSome orb].
  destruct (jstring_eqb (trim value) []) eqn:Eempty; cbn [andb negb].
  - apply jstring_eqb_eq in Eempty. eexists. split; [reflexivity|]. simpl.
    split; [|split].
    + split; [discriminate | tauto].
    + discriminate.
    + intros e c E. injection E as _ <-. auto.
  - apply jstring_eqb_neq in Eempty.
    destruct (testWhole digitsPattern (trim value)) eqn:T; cbn [negb].
    + pose proof (proj1 (testWhole_plus_cls _ _) T) as [Hne Hall].
      replace (jstring_eqb (js "auftragsposition") (js "auflage")) with false by reflexivity.
      cbn [negb]. unfold checkBounds. rewrite (parseFloat_digits Hne Hall).
      cbn [bind rule_min rule_max].
      replace (Z.of_N (digitsValue (trim value)) <? 0)%Z with false
        by (symmetry; apply Z.ltb_ge; lia).
      destruct (Z.of_N (digitsValue (trim value)) >? 999)%Z eqn:G; cbn [bind].
      * rewrite Z.gtb_ltb in G. apply Z.ltb_lt in G.
        eexists. split; [reflexivity|]. simpl. split; [|split].
        -- split; [discriminate|]. intros [_ [_ K]]. lia.
        -- discriminate.
        -- intros e c E. injection E as _ <-. auto.
      * rewrite Z.gtb_ltb in G. apply Z.ltb_ge in G.
        replace (jstring_eqb (js "auftragsposition") (js "auftragsnummer")) with false
          by reflexivity.
        eexists. split; [reflexivity|]. simpl. split; [|split].
        -- split; [intros _; repeat split; trivial; lia | reflexivity].
        -- intros _. reflexivity.
        -- discriminate.
    + eexists. split; [reflexivity|]. simpl. split; [|split].
      * split; [discriminate|]. intros [Hne [Hall _]].
        assert (K : testWhole digitsPattern (trim value) = true)
          by (apply testWhole_plus_cls; tauto).
        congruence.
      * discriminate.
      * intros e c E. injection E as _ <-. auto.
Qed.

Lemma auflageChar_stripped (s : jstring) :
  forallb auflageChar s = true -> forallb isDigit (removeAll strippable s) = true.
Proof.
  induction s as [|c s IH]; simpl; trivial. intros H.
  apply andb_true_iff in H. destruct H as [Hc Hs].
  destruct (strippable c) eqn:S; simpl; [now apply IH|].
  rewrite (IH Hs), andb_true_r.
  unfold auflageChar in Hc. unfold strippable in S.
  apply orb_false_iff in S. destruct S as [S1 S2]. rewrite S1, S2 in Hc.
  now rewrite !orb_false_r in Hc.
Qed.

(** [validateAuflage] on a string of digits, apostrophes and white space. *)
Lemma validateAuflage_cases (groupSeparator s : jstring) :
  forallb auflageChar s = true ->
  let v := digitsValue (removeAll strippable s) in
  (removeAll strippable s = [] /\ v = 0
   /\ validateAuflage groupSeparator s
      = AuflageInvalid (js "Auflage muss eine Zahl sein (z.B. 1'200 oder 1200)")
          (js "NOT_NUMERIC"))
  \/ (removeAll strippable s <> [] /\ v = 0
      /\ validateAuflage groupSeparator s
         = AuflageInvalid (js "Auflage muss mindestens 1 sein") (js "TOO_SMALL"))
  \/ (1000000 < v
      /\ validateAuflage groupSeparator s
         = AuflageInvalid (js "Auflage darf maximal 1'000'000 sein") (js "TOO_LARGE"))
  \/ (1 <= v <= 1000000
      /\ validateAuflage groupSeparator s = AuflageValid s (Num (Z.of_N v)) (formatSwissNumber groupSeparator v)).
Proof.
  intros H v. pose proof (auflageChar_stripped s H) as Hd.
  unfold validateAuflage. fold v.
  destruct (removeAll strippable s) as [|c r] eqn:E.
  - left. repeat split; reflexivity.
  - right.
    assert (Hne : c :: r <> []) by discriminate.
    replace (testWhole digitsPattern (c :: r)) with true
      by (symmetry; apply testWhole_plus_cls; split; assumption).
    cbn [negb]. rewrite (parseInt10_digits Hne Hd). fold v.
    destruct (Z.of_N v <? 1)%Z eqn:L1.
    + apply Z.ltb_lt in L1. left. repeat split; trivial; lia.
    + apply Z.ltb_ge in L1. right.
      destruct (Z.of_N v >? 1000000)%Z eqn:L2; rewrite Z.gtb_ltb in L2.
      * apply Z.ltb_lt in L2. left. split; [lia | reflexivity].
      * apply Z.ltb_ge in L2. right. rewrite N2Z.id. split; [lia | reflexivity].
Qed.

(** The quantity field, case by case. *)
Lemma validateField_auflage :
  forall (toUpperCase memberText : jstring -> jstring) (groupSeparator : jstring) (value : jstring),
    let v := digitsValue (removeAll strippable (trim value)) in
    exists r,
      validateField toUpperCase memberText groupSeparator (js "auflage") (VStr value) = Ok r
      /\ (isValid r = true <->
          forallb auflageChar (trim value) = true /\ 1 <= v <= 1000000)
      /\ (isValid r = true -> r = Valid (VStr (trim value)) (Some (trim value)))
      /\ (forall e c, r = Invalid e c ->
            (c = js "REQUIRED" /\ trim value = [])
            \/ (c = js "PATTERN" /\ forallb auflageChar (trim value) = false)
            \/ (c = js "NOT_NUMERIC" /\ removeAll strippable (trim value) = [])
            \/ (c = js "TOO_SMALL" /\ v = 0)
            \/ (c = js "TOO_LARGE" /\ 1000000 < v)).
Proof.
  intros upper text gs value v. unfold validateField.
  replace (rulesFor (js "auflage"))
    with (mkRules true (Some (Plus (Cls auflageChar))) None None
            (Some 1%Z) (Some 1000000%Z) None
            (Some (js "Auflage muss eine positive Zahl sein (z.B. 1'200)")))
    by reflexivity.
  cbn [rule_required rule_pattern rule_message rule_minLength rule_maxLength
       rule_min rule_max rule_enum isEmpty toStr andb isSome orb].
  replace (jstring_eqb (js "auflage") (js "auflage")) with true by reflexivity.
  replace (jstring_eqb (js "auflage") (js "auftragsnummer")) with false by reflexivity.
  cbn [negb andb bind].
  destruct (jstring_eqb (trim value) []) eqn:Eempty; cbn [andb negb].
  - apply jstring_eqb_eq in Eempty. eexists. split; [reflexivity|]. simpl.
    split; [|split].
    + split; [discriminate|]. intros [_ K]. subst v. rewrite Eempty in K.
      destruct K as [K _]. exfalso. now apply K.
    + discriminate.
    + intros e c E. injection E as _ <-. auto.
  - apply jstring_eqb_neq in Eempty.
    destruct (testWhole (Plus (Cls auflageChar)) (trim value)) eqn:T; cbn [negb].
    + pose proof (proj1 (testWhole_plus_cls _ _) T) as [_ Hall].
      destruct (validateAuflage_cases gs (trim value) Hall)
        as [[E0 [V0 ->]] | [[E0 [V0 ->]] | [[V0 ->] | [V0 ->]]]]; fold v in V0.
      * eexists. split; [reflexivity|]. simpl. split; [|split].
        -- split; [discriminate|]. intros [_ K]. lia.
        -- discriminate.
        -- intros e c E. injection E as _ <-. auto.
      * eexists. split; [reflexivity|]. simpl. split; [|split].
        -- split; [discriminate|]. intros [_ K]. lia.
        -- discriminate.
        -- intros e c E. injection E as _ <-. auto 6.
      * eexists. split; [reflexivity|]. simpl. split; [|split].
        -- split; [discriminate|]. intros [_ K]. lia.
        -- discriminate.
        -- intros e c E. injection E as _ <-. auto 6.
      * eexists. split; [reflexivity|]. simpl. split; [|split].
        -- split; [intros _; split; assumption | reflexivity].
        -- intros _. reflexivity.
        -- discriminate.
    + eexists. split; [reflexivity|]. simpl. split; [|split].
      * split; [discriminate|]. intros [Hall _].
        assert (K : testWhole (Plus (Cls auflageChar)) (trim value) = true)
          by (apply testWhole_plus_cls; tauto).
        congruence.
      * discriminate.
      * intros e c E. injection E as _ <-. right. left. split; [reflexivity|].
        apply not_true_is_false. intros Hall.
        assert (K : testWhole (Plus (Cls auflageChar)) (trim value) = true)
          by (apply testWhole_plus_cls; tauto).
        congruence.
Qed.

(** X7. [validateField('auflage', value)] accepts a string exactly when its
    trimmed form holds only digits, apostrophes U+0027 and white space and
    the digits, read without the separators, are a number from 1 to
    1'000'000.  Otherwise the code is [REQUIRED], [PATTERN], [NOT_NUMERIC]
    (no digit at all), [TOO_SMALL] or [TOO_LARGE]. *)
Theorem quantity_accepted_iff :
  forall (toUpperCase memberText : jstring -> jstring) (groupSeparator : jstring) (value : jstring),
    let v := digitsValue (removeAll strippable (trim value)) in
    exists r,
      validateField toUpperCase memberText groupSeparator (js "auflage") (VStr value) = Ok r
      /\ (isValid r = true <->
          forallb auflageChar (trim value) = true /\ 1 <= v <= 1000000)
      /\ (isValid r = true -> r = Valid (VStr (trim value)) (Some (trim value)))
      /\ (forall e c, r = Invalid e c ->
            (c = js "REQUIRED" /\ trim value = [])
            \/ (c = js "PATTERN" /\ forallb auflageChar (trim value) = false)
            \/ (c = js "NOT_NUMERIC" /\ removeAll strippable (trim value) = [])
            \/ (c = js "TOO_SMALL" /\ v = 0)
            \/ (c = js "TOO_LARGE" /\ 1000000 < v)).
Proof. exact validateField_auflage. Qed.

Lemma removeAll_dropWhile (p q : char16 -> bool) (s : jstring) :
  (forall c, q c = true -> p c = true) ->
  removeAll p (dropWhile q s) = removeAll p s.
Proof.
  intros H. induction s as [|c s IH]; simpl; trivial.
  destruct (q c) eqn:Q; [now rewrite (H c Q) | reflexivity].
Qed.

(** White space is in the stripped class, so trimming first changes nothing. *)
Lemma removeAll_strippable_trim (s : jstring) :
  removeAll strippable (trim s) = removeAll strippable s.
Proof.
  assert (H : forall c, isWhiteSpace c = true -> strippable c = true)
    by (intros c W; unfold strippable; rewrite W; apply orb_true_r).
  unfold trim, trimEnd, trimStart.
  rewrite removeAll_rev, removeAll_dropWhile by exact H.
  rewrite removeAll_rev, rev_involutive. now apply removeAll_dropWhile.
Qed.

Lemma forallb_trim (p : char16 -> bool) (s : jstring) :
  forallb p s = true -> forallb p (trim s) = true.
Proof.
  intros H. rewrite forallb_forall in *. intros c Hc. apply H. now apply In_trim.
Qed.

Lemma strippable_auflageChar (c : char16) : strippable c = true -> auflageChar c = true.
Proof.
  unfold strippable, auflageChar. intros H. apply orb_true_iff in H.
  destruct H as [-> | ->]; now rewrite ?orb_true_r.
Qed.

Lemma formatGrouped_auflageChar (sep : jstring) (n : N) :
  forallb strippable sep = true -> forallb auflageChar (formatGrouped sep n) = true.
Proof.
  intros Hsep. unfold formatGrouped. rewrite forallb_rev.
  pose proof (digitsOf_digits n) as D. rewrite <- forallb_rev in D.
  revert D. generalize (rev (digitsOf n)) 0%nat.
  induction l as [|d ds IH]; intros k D; simpl; trivial.
  simpl in D. apply andb_true_iff in D. destruct D as [Hd Hds].
  assert (Ad : auflageChar d = true) by (unfold auflageChar; now rewrite Hd).
  destruct (Nat.eqb k 3); simpl.
  - rewrite forallb_app, forallb_rev. simpl. rewrite Ad, (IH _ Hds), andb_true_r.
    rewrite forallb_forall in *. intros c Hc. apply strippable_auflageChar. now apply Hsep.
  - now rewrite Ad, (IH _ Hds).
Qed.

(** X8. A quantity from 1 to 1'000'000 written in groups of three with an
    apostrophe U+0027 or white space between the groups is accepted by
    [validateField('auflage', ...)]. *)
Theorem grouped_quantity_accepted :
  forall (toUpperCase memberText : jstring -> jstring) (groupSeparator : jstring) (sep : jstring) (n : N),
    forallb strippable sep = true ->
    1 <= n <= 1000000 ->
    validateField toUpperCase memberText groupSeparator (js "auflage") (VStr (formatGrouped sep n))
    = Ok (Valid (VStr (trim (formatGrouped sep n))) (Some (trim (formatGrouped sep n)))).
Proof.
  intros upper text gs sep n Hsep Hn.
  destruct (validateField_auflage upper text gs (formatGrouped sep n))
    as [r [E [[_ V] [S _]]]].
  rewrite E. f_equal. apply S, V.
  rewrite removeAll_strippable_trim,
    (@removeAll_formatGrouped strippable sep n Hsep digit_not_strippable),
    digitsValue_digitsOf.
  split; [|assumption]. apply forallb_trim. now apply formatGrouped_auflageChar.
Qed.

Lemma grouped_quantity_accepted_witness :
  validateField asciiToUpperCase builtinText apostropheSeparator (js "auflage") (VStr (js "1'200"))
  = Ok (Valid (VStr (js "1'200")) (Some (js "1'200"))).
Proof.
  apply (@grouped_quantity_accepted asciiToUpperCase builtinText apostropheSeparator (js "'") 1200).
  - reflexivity.
  - lia.
Defined.

Lemma dropWhile_none (p : char16 -> bool) (s : jstring) :
  forallb (fun c => negb (p c)) s = true -> dropWhile p s = s.
Proof.
  destruct s as [|c s]; simpl; trivial. intros H.
  apply andb_true_iff in H. destruct H as [H _].
  apply negb_true_iff in H. now rewrite H.
Qed.

(** A string without white space is its own trimmed form. *)
Lemma trim_none (s : jstring) :
  forallb (fun c => negb (isWhiteSpace c)) s = true -> trim s = s.
Proof.
  intros H. unfold trim, trimEnd, trimStart.
  rewrite (dropWhile_none _ _ H), dropWhile_none, rev_involutive; trivial.
  now rewrite forallb_rev.
Qed.

Section OtherSeparator.

(** A grouping separator of one code unit that the quantity pattern
    [[\d''\s]] does not admit. *)
Variable c : char16.
Hypothesis c_outside : auflageChar c = false.

Lemma separator_facts : isDigit c = false /\ isWhiteSpace c = false.
Proof.
  unfold auflageChar in c_outside.
  apply orb_false_iff in c_outside. destruct c_outside as [H W].
  apply orb_false_iff in H. tauto.
Qed.

Lemma formatSwissNumber_chars (n : N) (x : char16) :
  In x (formatSwissNumber [c] n) -> isDigit x = true \/ x = c.
Proof.
  unfold formatSwissNumber, formatGrouped. intros Hx.
  apply in_rev in Hx. apply groupFrom_chars in Hx.
  destruct Hx as [->|Hx]; [now right | left].
  apply in_rev in Hx. pose proof (digitsOf_digits n) as D.
  rewrite forallb_forall in D. now apply D.
Qed.

Lemma formatSwissNumber_trim (n : N) :
  trim (formatSwissNumber [c] n) = formatSwissNumber [c] n.
Proof.
  apply trim_none, forallb_forall. intros x Hx.
  destruct (formatSwissNumber_chars n x Hx) as [Hd | ->].
  - destruct (isDigit_facts x Hd) as [W _]. now rewrite W.
  - destruct separator_facts as [_ W]. now rewrite W.
Qed.

(** From 1000 on the formatted number holds a separator. *)
Lemma formatSwissNumber_not_digits (n : N) :
  1000 <= n -> forallb isDigit (formatSwissNumber [c] n) = false.
Proof.
  intros Hn. apply not_true_is_false. intros H.
  destruct separator_facts as [Dc _].
  unfold formatSwissNumber, formatGrouped in H. rewrite forallb_rev in H.
  destruct (@leading_group c 0%nat (rev (digitsOf n)) Dc) as [L _];
    [now rewrite forallb_rev, digitsOf_digits | lia |].
  specialize (L H).
  assert (Hne : forall d, isDigit d = true -> negb (d =? c) = true).
  { intros d Hd. apply negb_true_iff, N.eqb_neq. intros ->. congruence. }
  assert (E : removeAll (fun x => x =? c) (groupFrom [c] 0 (rev (digitsOf n)))
              = rev (digitsOf n)).
  { apply removeAll_groupFrom; [simpl; now rewrite N.eqb_refl|].
    rewrite forallb_rev. apply forallb_forall. intros d Hd.
    pose proof (digitsOf_digits n) as D. rewrite forallb_forall in D.
    exact (Hne d (D d Hd)). }
  assert (K : removeAll (fun x => x =? c) (groupFrom [c] 0 (rev (digitsOf n)))
              = groupFrom [c] 0 (rev (digitsOf n))).
  { unfold removeAll. apply forallb_filter_id. apply forallb_forall. intros d Hd.
    rewrite forallb_forall in H. exact (Hne d (H d Hd)). }
  rewrite K in E. rewrite E, length_rev in L.
  pose proof (@digitsValue_three (digitsOf n) (digitsOf_digits n) ltac:(lia)) as V.
  rewrite digitsValue_digitsOf in V. lia.
Qed.

Lemma formatSwissNumber_not_auflageChar (n : N) :
  1000 <= n -> forallb auflageChar (formatSwissNumber [c] n) = false.
Proof.
  intros Hn. apply not_true_is_false. intros H.
  pose proof (formatSwissNumber_not_digits Hn) as D.
  assert (K : forallb isDigit (formatSwissNumber [c] n) = true); [|congruence].
  apply forallb_forall. intros x Hx.
  destruct (formatSwissNumber_chars n x Hx) as [Hd | ->]; trivial.
  rewrite forallb_forall in H. specialize (H _ Hx). congruence.
Qed.

End OtherSeparator.

(** X9. [validateAuflage] hands back [formatSwissNumber(n)] as the formatted
    value of a quantity.  Where the text is grouped with one code unit that
    is no digit, no apostrophe U+0027 and no white space, it is, from 1000
    on, itself rejected by [validateField('auflage', ...)] with the code
    [PATTERN], whatever separator the validating engine has. *)
Theorem formatted_quantity_rejected :
  forall (toUpperCase memberText : jstring -> jstring) (groupSeparator : jstring)
         (c : char16) (n : N),
    auflageChar c = false ->
    1000 <= n ->
    validateField toUpperCase memberText groupSeparator (js "auflage")
      (VStr (formatSwissNumber [c] n))
    = Ok (Invalid (js "Auflage muss eine positive Zahl sein (z.B. 1'200)")
            (js "PATTERN")).
Proof.
  intros upper text gs c n Hc Hn.
  pose proof (@formatSwissNumber_not_auflageChar c Hc n Hn) as A.
  unfold validateField.
  replace (rulesFor (js "auflage"))
    with (mkRules true (Some (Plus (Cls auflageChar))) None None
            (Some 1%Z) (Some 1000000%Z) None
            (Some (js "Auflage muss eine positive Zahl sein (z.B. 1'200)")))
    by reflexivity.
  cbn [rule_required rule_pattern rule_message rule_minLength rule_maxLength
       rule_min rule_max rule_enum isEmpty toStr andb isSome orb].
  rewrite (@formatSwissNumber_trim c Hc n).
  destruct (jstring_eqb (formatSwissNumber [c] n) []) eqn:Eempty.
  - apply jstring_eqb_eq in Eempty. rewrite Eempty in A. discriminate.
  - cbn [andb negb bind].
    destruct (testWhole (Plus (Cls auflageChar)) (formatSwissNumber [c] n)) eqn:T.
    + apply testWhole_plus_cls in T. destruct T as [_ T]. congruence.
    + reflexivity.
Qed.

Lemma formatted_quantity_rejected_witness :
  formatSwissNumber quotationMarkSeparator 1200 = js "1\u2019200"
  /\ validateField asciiToUpperCase builtinText apostropheSeparator (js "auflage")
       (VStr (js "1\u2019200"))
     = Ok (Invalid (js "Auflage muss eine positive Zahl sein (z.B. 1'200)")
             (js "PATTERN")).
Proof.
  split; [reflexivity|].
  apply (@formatted_quantity_rejected asciiToUpperCase builtinText apostropheSeparator
           8217 1200).
  - reflexivity.
  - lia.
Defined.

(** A field whose rule is a character class with a length from 1 to [hi]. *)
Lemma validateField_text (toUpperCase memberText : jstring -> jstring) (groupSeparator : jstring)
    (f : jstring) (cls : char16 -> bool) (hi : N) (msg value : jstring) :
  rulesFor f = textRule cls 1 hi msg ->
  hi <> 0 ->
  jstring_eqb f (js "auflage") = false ->
  jstring_eqb f (js "auftragsnummer") = false ->
  exists r,
    validateField toUpperCase memberText groupSeparator f (VStr value) = Ok r
    /\ (isValid r = true <->
        trim value <> [] /\ forallb cls (trim value) = true /\ jlength (trim value) <= hi)
    /\ (isValid r = true ->
        r = Valid (VStr (trim value)) (Some (normalizeValue toUpperCase f (trim value))))
    /\ (forall e c, r = Invalid e c ->
          c = js "REQUIRED" \/ c = js "PATTERN" \/ c = js "MAX_LENGTH").
Proof.
  intros Hr Hhi Ha Hn. unfold validateField. rewrite Hr, Ha, Hn. unfold textRule.
  cbn [rule_required rule_pattern rule_message rule_minLength rule_maxLength
       rule_min rule_max rule_enum isEmpty toStr andb isSome orb negb bind].
  destruct (jstring_eqb (trim value) []) eqn:Eempty; cbn [andb negb].
  - apply jstring_eqb_eq in Eempty. eexists. split; [reflexivity|]. simpl.
    split; [|split].
    + split; [discriminate|]. now intros [K _].
    + discriminate.
    + intros e c E. injection E as _ <-. auto.
  - apply jstring_eqb_neq in Eempty.
    destruct (testWhole (Plus (Cls cls)) (trim value)) eqn:T; cbn [negb].
    + apply testWhole_plus_cls in T. destruct T as [_ Hall].
      replace (jlength (trim value) <? 1) with false.
      2:{ symmetry. apply N.ltb_ge. unfold jlength.
          destruct (trim value); [congruence | simpl; lia]. }
      replace (1 =? 0) with false by reflexivity.
      replace (hi =? 0) with false by (symmetry; now apply N.eqb_neq).
      cbn [andb negb].
      destruct (hi <? jlength (trim value)) eqn:L.
      * apply N.ltb_lt in L. eexists. split; [reflexivity|]. simpl.
        split; [|split].
        -- split; [discriminate|]. intros [_ [_ K]]. lia.
        -- discriminate.
        -- intros e c E. injection E as _ <-. auto.
      * apply N.ltb_ge in L. eexists. split; [reflexivity|]. simpl.
        split; [|split].
        -- split; [intros _; repeat split; assumption | reflexivity].
        -- reflexivity.
        -- discriminate.
    + eexists. split; [reflexivity|]. simpl. split; [|split].
      * split; [discriminate|]. intros [_ [Hall _]].
        assert (K : testWhole (Plus (Cls cls)) (trim value) = true)
          by (apply testWhole_plus_cls; tauto).
        congruence.
      * discriminate.
      * intros e c E. injection E as _ <-. auto.
Qed.

(** X10. For every field to which the rule table gives a character class
    with a minimal and a maximal length (customer, machine, product, paper
    name and the six fields of the configuration dialogs),
    [validateField] accepts a string exactly when its trimmed form is not
    empty, lies in the class and is not longer than the maximum.  The
    minimal length is 1 everywhere, so [MIN_LENGTH] is never issued. *)
Theorem text_field_accepted_iff :
  forall (toUpperCase memberText : jstring -> jstring) (groupSeparator : jstring)
         (f : jstring) (cls : char16 -> bool) (lo hi : N) (msg value : jstring),
    In (f, textRule cls lo hi msg) getValidationRules ->
    exists r,
      validateField toUpperCase memberText groupSeparator f (VStr value) = Ok r
      /\ (isValid r = true <->
          trim value <> [] /\ forallb cls (trim value) = true
          /\ jlength (trim value) <= hi)
      /\ (isValid r = true ->
          r = Valid (VStr (trim value)) (Some (normalizeValue toUpperCase f (trim value))))
      /\ (forall e c, r = Invalid e c ->
            c = js "REQUIRED" \/ c = js "PATTERN" \/ c = js "MAX_LENGTH").
Proof.
  intros upper text gs f cls lo hi msg value H.
  unfold getValidationRules in H. cbn [In] in H. unfold textRule, Plus in H.
  repeat (destruct H as [H|H];
          [first [discriminate H
                 | injection H; intros; subst;
                   eapply validateField_text; [reflexivity | discriminate | reflexivity | reflexivity]]
          |]).
  contradiction.
Qed.

Lemma text_field_accepted_iff_witness :
  exists r,
    validateField asciiToUpperCase builtinText apostropheSeparator (js "kunde") (VStr (js " M\u00fcller & Co. ")) = Ok r
    /\ (isValid r = true <->
        trim (js " M\u00fcller & Co. ") <> []
        /\ forallb kundeChar (trim (js " M\u00fcller & Co. ")) = true
        /\ jlength (trim (js " M\u00fcller & Co. ")) <= 50)
    /\ (isValid r = true ->
        r = Valid (VStr (trim (js " M\u00fcller & Co. ")))
              (Some (normalizeValue asciiToUpperCase (js "kunde")
                       (trim (js " M\u00fcller & Co. ")))))
    /\ (forall e c, r = Invalid e c ->
          c = js "REQUIRED" \/ c = js "PATTERN" \/ c = js "MAX_LENGTH").
Proof.
  apply (@text_field_accepted_iff asciiToUpperCase builtinText apostropheSeparator (js "kunde") kundeChar 1 50
           (js "Kundenname darf nur Buchstaben, Zahlen und die Zeichen - _ & . enthalten")).
  simpl. right. left. reflexivity.
Defined.

(** ** The form as a whole *)

Section SummaryFacts.

Variable toUpperCase : jstring -> jstring.
Variable memberText : jstring -> jstring.
Variable groupSeparator : jstring.
Variable formData : FormData.

Let R := fieldResult toUpperCase memberText groupSeparator formData.
Let E := errorOf toUpperCase memberText groupSeparator formData.

(** Each field is counted once: as valid, or by its one error. *)
Lemma valid_and_errors (fields : list jstring) :
  (List.length (filter (fun kv => isValid (snd kv)) (map (fun f => (f, R f)) fields))
   + List.length (flat_map E fields) = List.length fields)%nat.
Proof.
  induction fields as [|f fields IH]; simpl; trivial.
  unfold E at 1, errorOf. fold R.
  destruct (R f); simpl; lia.
Qed.

Lemma validateForm_result :
  validateForm toUpperCase memberText groupSeparator formData
  = Ok (mkFormResult
          (forallb (fun f => isValid (R f)) requiredFields)
          (flat_map E requiredFields)
          (map (fun f => (f, R f)) requiredFields)
          (generateValidationSummary (map (fun f => (f, R f)) requiredFields)
             (flat_map E requiredFields))).
Proof.
  unfold validateForm.
  rewrite (@forEach_collect toUpperCase memberText groupSeparator formData requiredFields
             requiredFields_NoDup (fun f H => H) (mkFormState [] [] true)
             (fun f _ K => K)).
  reflexivity.
Qed.

End SummaryFacts.

(** X11. The summary [validateForm] returns counts the eight fields: the
    valid and the invalid ones add up to eight, the invalid ones are as many
    as the entries of the error list, and [isComplete] is the [valid] flag
    of the result. *)
Theorem validateForm_summary :
  forall (toUpperCase memberText : jstring -> jstring) (groupSeparator : jstring) (formData : FormData),
    exists r,
      validateForm toUpperCase memberText groupSeparator formData = Ok r
      /\ totalFields (form_summary r) = 8%nat
      /\ (validFields (form_summary r) + invalidFields (form_summary r) = 8)%nat
      /\ invalidFields (form_summary r) = List.length (form_errors r)
      /\ errorCount (form_summary r) = List.length (form_errors r)
      /\ validFields (form_summary r)
         = List.length (filter (fun f => isValid (fieldResult toUpperCase memberText groupSeparator formData f))
                          requiredFields)
      /\ isComplete (form_summary r) = form_valid r.
Proof.
  intros upper text gs fd. rewrite validateForm_result. eexists. split; [reflexivity|].
  cbn [form_summary form_errors form_valid].
  unfold generateValidationSummary.
  cbn [totalFields validFields invalidFields errorCount isComplete].
  pose proof (valid_and_errors upper text gs fd requiredFields) as C.
  rewrite length_map in *.
  change (List.length requiredFields) with 8%nat in *.
  set (valid := List.length (filter _ (map _ requiredFields))) in *.
  set (errors := List.length (flat_map _ requiredFields)) in *.
  repeat split; try lia.
  - subst valid. clear. induction requiredFields as [|f l IH]; simpl; trivial.
    destruct (isValid (fieldResult upper text gs fd f)); simpl; now rewrite IH.
  - destruct (forallb _ requiredFields) eqn:F.
    + apply errors_nil_iff in F. subst errors. rewrite F in *. simpl in *.
      replace valid with 8%nat by lia. reflexivity.
    + destruct errors eqn:Z.
      * subst errors. apply length_zero_iff_nil in Z. apply errors_nil_iff in Z.
        congruence.
      * simpl. apply andb_false_r.
Qed.

(** *** From a valid form to a code *)

Lemma required_not_empty (toUpperCase memberText : jstring -> jstring) (groupSeparator : jstring)
    (f : jstring) (v : jsval) (r : vresult) :
  rule_required (rulesFor f) = true ->
  validateField toUpperCase memberText groupSeparator f v = Ok r ->
  isValid r = true ->
  isEmpty v = false.
Proof.
  intros Hr. unfold validateField. rewrite Hr. cbn [andb].
  destruct (isEmpty v); [|reflexivity].
  intros E. injection E as <-. discriminate.
Qed.

Lemma fieldPresent_string (memberText : jstring -> jstring) (s : jstring) :
  isEmpty (VStr s) = false -> fieldPresent memberText (VStr s) = true.
Proof.
  unfold isEmpty, fieldPresent. cbn [truthy toStr]. intros H.
  destruct s as [|c s]; [discriminate H | now rewrite H].
Qed.

Lemma removeAll_strippable (s : jstring) :
  removeAll isWhiteSpace (removeAll (N.eqb APOSTROPHE) s) = removeAll strippable s.
Proof.
  rewrite removeAll_twice. unfold removeAll. apply filter_ext. intros c.
  unfold strippable. now rewrite (N.eqb_sym APOSTROPHE c).
Qed.

(** A quantity that [validateField] accepts is one [buildAuflageTeil]
    reads: the generator then emits its plain digits. *)
Lemma buildAuflageTeil_valid (toUpperCase memberText : jstring -> jstring) (groupSeparator : jstring)
    (formData : FormData) (s : jstring) (r : vresult) :
  auflage formData = VStr s ->
  validateField toUpperCase memberText groupSeparator (js "auflage") (VStr s) = Ok r ->
  isValid r = true ->
  buildAuflageTeil memberText formData
  = Ok (digitsOf (digitsValue (removeAll strippable s))).
Proof.
  intros Ha V Hv.
  destruct (validateField_auflage toUpperCase memberText groupSeparator s) as [r' [E [[I _] _]]].
  rewrite V in E. injection E as <-. destruct (I Hv) as [Hall Hrange].
  rewrite removeAll_strippable_trim in Hrange.
  pose proof (auflageChar_stripped _ Hall) as D. rewrite removeAll_strippable_trim in D.
  unfold buildAuflageTeil. rewrite Ha. cbn [toStringMethod toStr bind].
  rewrite removeAll_strippable.
  assert (Hne : removeAll strippable s <> []).
  { intros K. rewrite K in Hrange. destruct Hrange as [Hlo _]. now apply Hlo. }
  rewrite (parseInt10_digits Hne D). cbn [isNaN].
  replace (Z.abs (Z.of_N (digitsValue (removeAll strippable s))) <=? MAX_SAFE_INTEGER)%Z
    with true by (symmetry; apply Z.leb_le; unfold MAX_SAFE_INTEGER; lia).
  now rewrite numberToString_nat.
Qed.

(** X12. When all eight fields of the form are strings and [validateForm]
    finds the form valid, [generate] returns a code and not the empty string
    of its failure path: the fields are present for [validateInput], and the
    accepted quantity is one the generator can read. *)
Theorem valid_form_generates :
  forall (toLowerCase toUpperCase memberText : jstring -> jstring) (groupSeparator : jstring)
         (formData : FormData) (config : Config) (r : FormResult),
    Forall (fun v => exists s, v = VStr s) (fieldValues formData) ->
    validateForm toUpperCase memberText groupSeparator formData = Ok r ->
    form_valid r = true ->
    exists out parts,
      generate toLowerCase memberText formData config = Ok out
      /\ out = assembleCode parts
      /\ out <> []
      /\ exists s, auflage formData = VStr s
           /\ auflageTeil parts = digitsOf (digitsValue (removeAll strippable s)).
Proof.
  intros lower upper text gs fd cfg r Hstr Hform Hvalid.
  rewrite validateForm_result in Hform. cbv zeta in Hform. injection Hform as <-.
  cbn [form_valid] in Hvalid.
  change (forallb (fun f => isValid (fieldResult upper text gs fd f)) requiredFields = true)
    in Hvalid.
  rewrite forallb_forall in Hvalid.
  assert (P : forall f, In f requiredFields ->
            isEmpty (getField fd f) = false).
  { intros f Hf.
    apply (@required_not_empty upper text gs f (getField fd f) (fieldResult upper text gs fd f)).
    - simpl in Hf.
      destruct Hf as [<-|[<-|[<-|[<-|[<-|[<-|[<-|[<-|[]]]]]]]]]; reflexivity.
    - now apply validateField_fieldResult.
    - now apply Hvalid. }
  assert (Q : isValid (fieldResult upper text gs fd (js "auflage")) = true)
    by (apply Hvalid; simpl; tauto).
  pose proof (@validateField_fieldResult upper text gs fd (js "auflage")
                ltac:(simpl; tauto)) as VQ.
  destruct fd as [a k p m q pr pa pn].
  unfold fieldValues in Hstr.
  cbn [auftragsnummer kunde auftragsposition maschine auflage produkt papierart
       papiername] in Hstr.
  rewrite Forall_forall in Hstr.
  destruct (Hstr a ltac:(simpl; tauto)) as [x ->].
  destruct (Hstr k ltac:(simpl; tauto)) as [x0 ->].
  destruct (Hstr p ltac:(simpl; tauto)) as [x1 ->].
  destruct (Hstr m ltac:(simpl; tauto)) as [x2 ->].
  destruct (Hstr q ltac:(simpl; tauto)) as [x3 ->].
  destruct (Hstr pr ltac:(simpl; tauto)) as [x4 ->].
  destruct (Hstr pa ltac:(simpl; tauto)) as [x5 ->].
  destruct (Hstr pn ltac:(simpl; tauto)) as [x6 ->].
  clear Hstr.
  change (getField _ (js "auflage")) with (VStr x3) in VQ.
  pose proof (@buildAuflageTeil_valid upper text gs
                (mkFormData (VStr x) (VStr x0) (VStr x1) (VStr x2) (VStr x3)
                   (VStr x4) (VStr x5) (VStr x6)) x3 _ eq_refl VQ Q) as BQ.
  assert (VI : validateInput text
                 (mkFormData (VStr x) (VStr x0) (VStr x1) (VStr x2) (VStr x3)
                    (VStr x4) (VStr x5) (VStr x6)) = true).
  { rewrite validateInput_fields. unfold fieldValues.
    cbn [auftragsnummer kunde auftragsposition maschine auflage produkt papierart
         papiername forallb].
    rewrite !fieldPresent_string; trivial.
    - exact (P (js "papiername") ltac:(simpl; tauto)).
    - exact (P (js "papierart") ltac:(simpl; tauto)).
    - exact (P (js "produkt") ltac:(simpl; tauto)).
    - exact (P (js "auflage") ltac:(simpl; tauto)).
    - exact (P (js "maschine") ltac:(simpl; tauto)).
    - exact (P (js "auftragsposition") ltac:(simpl; tauto)).
    - exact (P (js "kunde") ltac:(simpl; tauto)).
    - exact (P (js "auftragsnummer") ltac:(simpl; tauto)). }
  unfold generate. rewrite VI. cbn [negb].
  unfold buildCodeParts. rewrite BQ.
  unfold buildAuftragsTeil, buildKundenTeil, buildMaschineTeil, buildPapierTeil.
  cbn [auftragsnummer kunde auftragsposition maschine auflage produkt papierart
       papiername trimMethod toStringMethod bind].
  unfold getPaperTypeCode.
  destruct (truthy (typeMapLookup (toStr text (VStr x5)))); cbn [bind tryCatch];
    (eexists; eexists; split; [reflexivity|]; split; [reflexivity|]; split;
     [unfold assembleCode; intros K; apply app_eq_nil in K; destruct K as [_ K];
      discriminate
     | exists x3; split; reflexivity]).
Qed.

Lemma valid_form_generates_witness :
  exists out parts,
    generate asciiToLowerCase builtinText exampleData exampleConfig = Ok out
    /\ out = assembleCode parts
    /\ out <> []
    /\ exists s, auflage exampleData = VStr s
         /\ auflageTeil parts = digitsOf (digitsValue (removeAll strippable s)).
Proof.
  eapply (@valid_form_generates asciiToLowerCase asciiToUpperCase builtinText
            apostropheSeparator exampleData exampleConfig).
  - unfold fieldValues, exampleData, exampleDataWith. simpl.
    repeat (constructor; [eexists; reflexivity|]). constructor.
  - vm_compute. reflexivity.
  - reflexivity.
Defined.

(** ** The validator: the remaining rules *)

(** X13. [validateField('papierart', value)] accepts a string exactly when
    its trimmed form is [gestrichen] or [ungestrichen]; any other string is
    rejected with [REQUIRED] when it is blank and with [INVALID_ENUM]
    otherwise. *)
Theorem paper_type_accepted_iff :
  forall (toUpperCase memberText : jstring -> jstring) (groupSeparator : jstring) (value : jstring),
    exists r,
      validateField toUpperCase memberText groupSeparator (js "papierart") (VStr value) = Ok r
      /\ (isValid r = true <->
          trim value = js "gestrichen" \/ trim value = js "ungestrichen")
      /\ (isValid r = true -> r = Valid (VStr (trim value)) (Some (trim (trim value))))
      /\ (forall e c, r = Invalid e c ->
            (c = js "REQUIRED" /\ trim value = [])
            \/ (c = js "INVALID_ENUM" /\ trim value <> [])).
Proof.
  intros upper text gs value. unfold validateField.
  replace (rulesFor (js "papierart"))
    with (mkRules true None None None None None
            (Some [js "gestrichen"; js "ungestrichen"])
            (Some (js "Papierart muss ausgew\u00e4hlt werden")))
    by reflexivity.
  cbn [rule_required rule_pattern rule_message rule_minLength rule_maxLength
       rule_min rule_max rule_enum isEmpty toStr andb isSome orb].
  replace (jstring_eqb (js "papierart") (js "auflage")) with false by reflexivity.
  replace (jstring_eqb (js "papierart") (js "auftragsnummer")) with false by reflexivity.
  cbn [negb andb bind existsb].
  destruct (jstring_eqb (trim value) []) eqn:Eempty; cbn [andb negb].
  - apply jstring_eqb_eq in Eempty. eexists. split; [reflexivity|]. simpl.
    split; [|split].
    + split; [discriminate|]. rewrite Eempty. intros [K|K]; discriminate K.
    + discriminate.
    + intros e c E. injection E as _ <-. auto.
  - apply jstring_eqb_neq in Eempty.
    destruct (jstring_eqb (trim value) (js "gestrichen")) eqn:G; cbn [orb negb].
    + apply jstring_eqb_eq in G. eexists. split; [reflexivity|]. simpl.
      split; [|split]; [split; auto | reflexivity | discriminate].
    + destruct (jstring_eqb (trim value) (js "ungestrichen")) eqn:U; cbn [orb negb].
      * apply jstring_eqb_eq in U. eexists. split; [reflexivity|]. simpl.
        split; [|split]; [split; auto | reflexivity | discriminate].
      * apply jstring_eqb_neq in G, U. eexists. split; [reflexivity|]. simpl.
        split; [|split].
        -- split; [discriminate | tauto].
        -- discriminate.
        -- intros e c E. injection E as _ <-. auto.
Qed.

Lemma ownProperty_none_neq {A : Type} (props : list (jstring * A)) (key k : jstring) :
  ownProperty props key = None -> In k (map fst props) -> jstring_eqb key k = false.
Proof.
  induction props as [|[k' v] props IH]; simpl; [tauto|].
  destruct (jstring_eqb k' key) eqn:E; [discriminate|].
  intros H [<-|Hin]; [|now apply IH].
  apply jstring_eqb_neq. apply jstring_eqb_neq in E. congruence.
Qed.

(** X14. A field name the rule table does not hold, a misspelt one or a
    member of [Object.prototype], has no rule at all: [validateField]
    accepts every string for it, a blank one as it is and any other
    trimmed. *)
Theorem unknown_field_accepted :
  forall (toUpperCase memberText : jstring -> jstring) (groupSeparator : jstring) (f value : jstring),
    ownProperty getValidationRules f = None ->
    validateField toUpperCase memberText groupSeparator f (VStr value)
    = Ok (if jstring_eqb (trim value) []
          then Valid (VStr value) None
          else Valid (VStr (trim value)) (Some (trim (trim value)))).
Proof.
  intros upper text gs f value H. unfold validateField, rulesFor. rewrite H.
  rewrite (@ownProperty_none_neq _ getValidationRules f (js "auflage") H)
    by (simpl; tauto).
  rewrite (@ownProperty_none_neq _ getValidationRules f (js "auftragsnummer") H)
    by (simpl; tauto).
  cbn [noRules rule_required rule_pattern rule_message rule_minLength rule_maxLength
       rule_min rule_max rule_enum isEmpty toStr andb isSome orb negb bind].
  destruct (jstring_eqb (trim value) []); cbn [andb negb]; [reflexivity|].
  unfold normalizeValue.
  rewrite (@ownProperty_none_neq _ getValidationRules f (js "kunde") H)
    by (simpl; tauto).
  rewrite (@ownProperty_none_neq _ getValidationRules f (js "auftragsnummer") H)
    by (simpl; tauto).
  rewrite (@ownProperty_none_neq _ getValidationRules f (js "machineCode") H)
    by (simpl; tauto).
  rewrite (@ownProperty_none_neq _ getValidationRules f (js "productCode") H)
    by (simpl; tauto).
  rewrite (@ownProperty_none_neq _ getValidationRules f (js "auflage") H)
    by (simpl; tauto).
  reflexivity.
Qed.

Lemma unknown_field_accepted_witness :
  validateField asciiToUpperCase builtinText apostropheSeparator (js "constructor") (VStr (js " <any> "))
  = Ok (Valid (VStr (js "<any>")) (Some (js "<any>"))).
Proof.
  apply (@unknown_field_accepted asciiToUpperCase builtinText apostropheSeparator (js "constructor")
           (js " <any> ")).
  reflexivity.
Defined.

(** X15. Every field of the rule table is required: for each of the
    fourteen, a value that is [undefined], [null] or a blank string is
    rejected with the code [REQUIRED] before any other check is made. *)
Theorem table_fields_required :
  forall (toUpperCase memberText : jstring -> jstring) (groupSeparator : jstring)
         (f : jstring) (rules : Rules) (v : jsval),
    In (f, rules) getValidationRules ->
    missing v ->
    validateField toUpperCase memberText groupSeparator f v
    = Ok (Invalid (getFieldDisplayName memberText f ++ js " ist erforderlich")
            (js "REQUIRED")).
Proof.
  intros upper text gs f rules v Hin Hv.
  assert (Hr : rule_required (rulesFor f) = true).
  { unfold getValidationRules in Hin. cbn [In] in Hin.
    repeat (destruct Hin as [Hin|Hin]; [injection Hin as <- _; reflexivity|]).
    contradiction. }
  assert (He : isEmpty v = true).
  { destruct Hv as [-> | [-> | [s [-> E]]]]; try reflexivity.
    simpl. now rewrite E. }
  unfold validateField. now rewrite Hr, He.
Qed.

Lemma table_fields_required_witness :
  validateField asciiToUpperCase builtinText apostropheSeparator (js "paperCode") (VStr (js "  "))
  = Ok (Invalid (js "Papiercode ist erforderlich") (js "REQUIRED")).
Proof.
  apply (@table_fields_required asciiToUpperCase builtinText apostropheSeparator (js "paperCode")
           (textRule codeChar 1 15
              (js "Papiercode darf nur Buchstaben, Zahlen, _ und - enthalten"))
           (VStr (js "  "))).
  - simpl. do 13 right. left. reflexivity.
  - right. right. exists (js "  "). split; reflexivity.
Defined.

(* ================================================================== *)
(** ** File names *)
(* ================================================================== *)

(** An unanchored class [/[class]/] tests whether the class occurs. *)
Lemma testSearch_cls (p : char16 -> bool) (s : jstring) :
  testSearch (Cls p) s = existsb p s.
Proof.
  assert (Any : forall t, lang AnyStar t)
    by (intros t; apply lang_star_cls; now apply forallb_forall).
  apply eq_true_iff_eq. unfold testSearch. rewrite matches_lang, existsb_exists. split.
  - intros H. apply lang_cat_inv in H. destruct H as [a [b [-> [_ H]]]].
    apply lang_cat_inv in H. destruct H as [c [d [-> [H _]]]].
    apply lang_cls_inv in H. destruct H as [x [-> Hx]].
    exists x. split; [|exact Hx]. apply in_or_app. right. now left.
  - intros [x [Hin Hx]]. apply in_split in Hin. destruct Hin as [a [b ->]].
    apply lang_cat; [apply Any|].
    change (x :: b) with ([x] ++ b). apply lang_cat; [now constructor | apply Any].
Qed.

(** X16. The handler's [isValidFileName] and the validator's
    [validateFileName] make the same three checks; they differ on the empty
    name only, which the handler refuses and the validator accepts. *)
Theorem isValidFileName_validateFileName :
  forall fileName : jstring,
    isValidFileName fileName
    = isValid (validateFileName fileName) && negb (jstring_eqb fileName []).
Proof.
  intros f. unfold isValidFileName, validateFileName.
  destruct (testSearch (Cls invalidFileChar) f); [reflexivity|].
  destruct (testWhole reservedNames f); [reflexivity|].
  cbn [negb andb].
  destruct f as [|c f]; [reflexivity|].
  replace (0 <? jlength (c :: f)) with true
    by (symmetry; apply N.ltb_lt; unfold jlength; simpl; lia).
  cbn [andb jstring_eqb negb].
  destruct (255 <? jlength (c :: f)) eqn:L.
  - apply N.ltb_lt in L. simpl. apply N.leb_gt. exact L.
  - apply N.ltb_ge in L. simpl. apply N.leb_le. exact L.
Qed.

(** [lastIndexOf]: the position after which the unit does not occur again. *)
Lemma lastIndexFrom_spec (c : char16) (s : jstring) (i found : Z) :
  (existsb (fun x => x =? c) s = false /\ lastIndexFrom c s i found = found)
  \/ (exists a b, s = a ++ c :: b /\ existsb (fun x => x =? c) b = false
        /\ lastIndexFrom c s i found = (i + Z.of_nat (List.length a))%Z).
Proof.
  revert i found. induction s as [|x s IH]; intros i found; simpl.
  - left. split; reflexivity.
  - destruct (IH (i + 1)%Z (if x =? c then i else found))
      as [[Hno ->] | [a [b [-> [Hno ->]]]]].
    + destruct (x =? c) eqn:E.
      * apply N.eqb_eq in E. subst x. right. exists [], s.
        repeat split; trivial. simpl. lia.
      * left. rewrite Hno. split; reflexivity.
    + right. exists (x :: a), b. repeat split; trivial. simpl List.length. lia.
Qed.

(** X17. [getFileNameWithoutExtension] and [getFileExtension] cut a file
    name at its last dot: the two pieces put together are the name again;
    without a dot the extension is empty, and otherwise it is the dot and
    what follows it, which holds no further dot. *)
Theorem file_name_split :
  forall fileName : jstring,
    getFileNameWithoutExtension fileName ++ getFileExtension fileName = fileName
    /\ ((~ In 46 fileName /\ getFileExtension fileName = [])
        \/ (exists e, getFileExtension fileName = 46 :: e /\ ~ In 46 e)).
Proof.
  intros f. unfold getFileNameWithoutExtension, getFileExtension, lastIndexOf.
  assert (NoIn : forall t, existsb (fun x => x =? 46) t = false -> ~ In 46 t).
  { intros t H K. apply not_true_iff_false in H. apply H.
    apply existsb_exists. exists 46. split; [exact K | reflexivity]. }
  destruct (lastIndexFrom_spec 46 f 0 (-1)) as [[Hno ->] | [a [b [-> [Hno ->]]]]].
  - simpl. rewrite app_nil_r. split; [reflexivity|]. left. split; [|reflexivity].
    now apply NoIn.
  - replace (0 + Z.of_nat (List.length a) =? -1)%Z with false
      by (symmetry; apply Z.eqb_neq; lia).
    cbn [negb]. unfold substringTo, substringFrom.
    rewrite Z.add_0_l, Nat2Z.id. split; [apply firstn_skipn|].
    right. exists b. split; [|now apply NoIn].
    rewrite skipn_app, Nat.sub_diag, skipn_all. reflexivity.
Qed.

(** *** Batches *)

Lemma filter_both_length {A : Type} (p : A -> bool) (l : list A) :
  List.length (filter p l ++ filter (fun x => negb (p x)) l) = List.length l.
Proof.
  rewrite length_app. induction l as [|x l IH]; simpl; trivial.
  destruct (p x); simpl; lia.
Qed.

Section BatchFacts.

Variable toLowerCase : jstring -> jstring.

Let accepted (p : nat * HandledFile) : bool :=
  isHandlerValid (handlerValidateFile toLowerCase (Some (snd p))).

Lemma processFrom_spec (files : list HandledFile) (i : nat) (acc : Batch) :
  let r := processFrom toLowerCase files i acc in
  let indexed := combine (seq i (List.length files)) files in
  map (fun e => (valid_index e, valid_file e)) (batch_valid r)
  = map (fun e => (valid_index e, valid_file e)) (batch_valid acc)
    ++ filter accepted indexed
  /\ map (fun e => (invalid_index e, invalid_file e)) (batch_invalid r)
     = map (fun e => (invalid_index e, invalid_file e)) (batch_invalid acc)
       ++ filter (fun p => negb (accepted p)) indexed
  /\ totalSize r
     = (totalSize acc
        + fold_right Z.add 0 (map (fun p => file_size (handled (snd p)))
                                (filter accepted indexed)))%Z
  /\ (forall e, In e (batch_valid r) ->
        In e (batch_valid acc)
        \/ handlerValidateFile toLowerCase (Some (valid_file e))
           = HandlerValid (valid_info e))
  /\ (forall e, In e (batch_invalid r) ->
        In e (batch_invalid acc)
        \/ handlerValidateFile toLowerCase (Some (invalid_file e))
           = HandlerInvalid (invalid_error e)).
Proof.
  revert i acc. induction files as [|f files IH]; intros i acc.
  - simpl. rewrite !app_nil_r, Z.add_0_r. repeat split; auto.
  - cbn zeta in *. cbn [processFrom List.length seq combine filter].
    specialize (IH (S i) (processOne toLowerCase acc f i)).
    destruct IH as [IH1 [IH2 [IH3 [IH4 IH5]]]].
    assert (A : accepted (i, f)
                = isHandlerValid (handlerValidateFile toLowerCase (Some f)))
      by reflexivity.
    rewrite !A, IH1, IH2, IH3. clear A IH1 IH2 IH3.
    unfold processOne in *.
    destruct (handlerValidateFile toLowerCase (Some f)) as [info|e] eqn:V;
      cbn [batch_valid batch_invalid totalSize isHandlerValid negb map fold_right snd] in *.
    + rewrite map_app, <- app_assoc. cbn [map app valid_index valid_file].
      repeat split; trivial; [lia|].
      intros e He. destruct (IH4 e He) as [K|K]; [|now right].
      apply in_app_or in K. destruct K as [K|[<-|[]]]; [now left | right; exact V].
    + rewrite map_app, <- app_assoc. cbn [map app invalid_index invalid_file].
      repeat split; trivial.
      intros x Hx. destruct (IH5 x Hx) as [K|K]; [|now right].
      apply in_app_or in K. destruct K as [K|[<-|[]]]; [now left | right; exact V].
Qed.

End BatchFacts.

(** X18. [processMultipleFiles] sorts every file of the list, with its
    position, into exactly one of the two lists, in the order of the list:
    the files [validateFile] accepts into [valid], each with the file
    information of its validation, the others into [invalid], each with
    its error; [totalSize] is the sum of the sizes of the accepted files. *)
Theorem processMultipleFiles_partition :
  forall (toLowerCase : jstring -> jstring) (files : list HandledFile),
    let r := processMultipleFiles toLowerCase files in
    let indexed := combine (seq 0 (List.length files)) files in
    let accepted := fun p : nat * HandledFile =>
      isHandlerValid (handlerValidateFile toLowerCase (Some (snd p))) in
    map (fun e => (valid_index e, valid_file e)) (batch_valid r)
    = filter accepted indexed
    /\ map (fun e => (invalid_index e, invalid_file e)) (batch_invalid r)
       = filter (fun p => negb (accepted p)) indexed
    /\ (List.length (batch_valid r) + List.length (batch_invalid r)
        = List.length files)%nat
    /\ totalSize r
       = fold_right Z.add 0%Z (map (fun e => file_size (handled (valid_file e)))
                                 (batch_valid r))
    /\ (forall e, In e (batch_valid r) ->
          handlerValidateFile toLowerCase (Some (valid_file e))
          = HandlerValid (valid_info e))
    /\ (forall e, In e (batch_invalid r) ->
          handlerValidateFile toLowerCase (Some (invalid_file e))
          = HandlerInvalid (invalid_error e)).
Proof.
  intros lower files r indexed accepted.
  destruct (processFrom_spec lower files 0 (mkBatch [] [] 0%Z))
    as [H1 [H2 [H3 [H4 H5]]]].
  cbn [batch_valid batch_invalid totalSize map app] in *.
  fold (processMultipleFiles lower files) in *. fold r in H1, H2, H3, H4, H5.
  fold indexed in H1, H2, H3. fold accepted in H1, H2, H3.
  split; [exact H1|]. split; [exact H2|]. split; [|split; [|split]].
  - rewrite <- (length_map (fun e => (valid_index e, valid_file e))),
      <- (length_map (fun e => (invalid_index e, invalid_file e))), H1, H2.
    rewrite <- length_app.
    assert (L : List.length indexed = List.length files).
    { unfold indexed. rewrite length_combine, length_seq. apply Nat.min_id. }
    rewrite <- L. apply filter_both_length.
  - rewrite H3, Z.add_0_l, <- H1, map_map. reflexivity.
  - intros e He. destruct (H4 e He) as [[]|K]. exact K.
  - intros e He. destruct (H5 e He) as [[]|K]. exact K.
Qed.

(** *** Sanitizing a file name *)

Lemma forallb_replaceEach (q p : char16 -> bool) (by_ : char16) (s : jstring) :
  q by_ = true -> (forall c, p c = false -> q c = true) ->
  forallb q (replaceEach p by_ s) = true.
Proof.
  intros Hby Hq. induction s as [|c s IH]; simpl; trivial.
  rewrite IH, andb_true_r. destruct (p c) eqn:E; [exact Hby | now apply Hq].
Qed.

Lemma forallb_replaceRunsFrom (q p : char16 -> bool) (by_ : jstring) (b : bool)
    (s : jstring) :
  forallb q by_ = true -> forallb q s = true ->
  forallb q (replaceRunsFrom p by_ b s) = true.
Proof.
  intros Hby. revert b. induction s as [|c s IH]; intros b H; simpl; trivial.
  simpl in H. apply andb_true_iff in H. destruct H as [Hc Hs].
  destruct (p c).
  - rewrite forallb_app, (IH _ Hs), andb_true_r. now destruct b.
  - simpl. now rewrite Hc, (IH _ Hs).
Qed.

(** [replace(/[class]+/g, by)] leaves no unit of the class when [by] has none. *)
Lemma replaceRunsFrom_removes (p : char16 -> bool) (by_ : jstring) (b : bool)
    (s : jstring) :
  forallb (fun c => negb (p c)) by_ = true ->
  forallb (fun c => negb (p c)) (replaceRunsFrom p by_ b s) = true.
Proof.
  intros Hby. revert b. induction s as [|c s IH]; intros b; cbn [replaceRunsFrom]; trivial.
  destruct (p c) eqn:E.
  - rewrite forallb_app, IH, andb_true_r. now destruct b.
  - cbn [forallb]. now rewrite E, IH.
Qed.

(** After [replace(/_+/g, '_')] no two underscores are adjacent. *)
Lemma replaceRunsFrom_doubled (b : bool) (s : jstring) :
  doubled 95 (replaceRunsFrom isUnderscore (js "_") b s) = false
  /\ (b = true ->
      startsOutside isUnderscore (replaceRunsFrom isUnderscore (js "_") b s) = true).
Proof.
  revert b. induction s as [|c s IH]; intros b; cbn [replaceRunsFrom]; [now split|].
  destruct (isUnderscore c) eqn:U.
  - destruct (IH true) as [D S]. specialize (S eq_refl).
    destruct b; cbv iota; [now split|]. split; [|discriminate].
    change (js "_" ++ replaceRunsFrom isUnderscore (js "_") true s)
      with (95 :: replaceRunsFrom isUnderscore (js "_") true s).
    cbn [doubled]. rewrite D, orb_false_r.
    destruct (replaceRunsFrom isUnderscore (js "_") true s) as [|x r]; trivial.
    simpl in S. unfold isUnderscore in S. apply negb_true_iff in S. now rewrite S.
  - destruct (IH false) as [D _]. cbn [doubled startsOutside]. rewrite D, U.
    unfold isUnderscore in U. rewrite U. cbn [andb orb negb].
    split; [|reflexivity]. now destruct (replaceRunsFrom isUnderscore (js "_") false s).
Qed.

Lemma doubled_app (c : char16) (a m : jstring) :
  doubled c (a ++ m) = false -> doubled c a = false /\ doubled c m = false.
Proof.
  induction a as [|x a IH]; simpl; [now split|]. intros H.
  apply orb_false_iff in H. destruct H as [H1 H2].
  destruct (IH H2) as [Ha Hm]. rewrite Ha, orb_false_r. split; [|exact Hm].
  destruct a as [|y a]; [reflexivity | exact H1].
Qed.

Lemma dropWhile_suffix (p : char16 -> bool) (s : jstring) :
  exists a, s = a ++ dropWhile p s.
Proof.
  induction s as [|c s [a IH]]; simpl; [now exists []|].
  destruct (p c); [|now exists []].
  exists (c :: a). simpl. now f_equal.
Qed.

(** What [replace(/^[class]+|[class]+$/g, '')] leaves is a piece of the input. *)
Lemma stripEnds_infix (p : char16 -> bool) (s : jstring) :
  exists a b, s = a ++ stripEnds p s ++ b.
Proof.
  unfold stripEnds. destruct (dropWhile_suffix p s) as [a Ha].
  destruct (dropWhile_suffix p (rev (dropWhile p s))) as [b Hb].
  exists a, (rev b). rewrite <- rev_app_distr, <- Hb, rev_involutive. exact Ha.
Qed.

Lemma dropWhile_app_stop (p : char16 -> bool) (l : jstring) (x : char16) (r : jstring) :
  p x = false -> dropWhile p (l ++ x :: r) = dropWhile p l ++ x :: r.
Proof.
  intros H. induction l as [|c l IH]; simpl; [now rewrite H|].
  destruct (p c); [exact IH | reflexivity].
Qed.

Lemma stripEnds_start (p : char16 -> bool) (s : jstring) :
  startsOutside p (stripEnds p s) = true.
Proof.
  unfold stripEnds.
  assert (H : startsOutside p (dropWhile p s) = true).
  { induction s as [|c s IH]; simpl; trivial.
    destruct (p c) eqn:E; [exact IH | simpl; now rewrite E]. }
  destruct (dropWhile p s) as [|x d]; [reflexivity|].
  simpl in H. apply negb_true_iff in H.
  simpl rev. rewrite (@dropWhile_app_stop p (rev d) x [] H), rev_app_distr. simpl.
  now rewrite H.
Qed.

Lemma startsOutside_firstn (p : char16 -> bool) (n : nat) (s : jstring) :
  startsOutside p s = true -> startsOutside p (firstn n s) = true.
Proof. destruct n, s; simpl; trivial. Qed.

Lemma forallb_infix (q : char16 -> bool) (s a m b : jstring) :
  s = a ++ m ++ b -> forallb q s = true -> forallb q m = true.
Proof.
  intros -> H. rewrite !forallb_app in H.
  apply andb_true_iff in H. destruct H as [_ H].
  apply andb_true_iff in H. tauto.
Qed.

Lemma doubled_infix (c : char16) (s a m b : jstring) :
  s = a ++ m ++ b -> doubled c s = false -> doubled c m = false.
Proof.
  intros -> H. apply doubled_app in H. destruct H as [_ H].
  apply doubled_app in H. tauto.
Qed.

Lemma firstn_infix (n : nat) (s : jstring) : s = [] ++ firstn n s ++ skipn n s.
Proof. simpl. symmetry. apply firstn_skipn. Qed.

(** The two [sanitizeFileName] differ in the class they replace only. *)
Lemma sanitizeFileNameWith_shape (invalid : char16 -> bool) (fileName : jstring) :
  invalid 95 = false ->
  let out := sanitizeFileNameWith invalid fileName in
  jlength out <= 255
  /\ existsb invalid out = false
  /\ doubled 95 out = false
  /\ startsOutside (fun c => isWhiteSpace c || (c =? 46)) out = true.
Proof.
  intros H95 out. subst out. unfold sanitizeFileNameWith, substring0.
  set (e := replaceEach invalid 95 fileName).
  set (r := replaceRuns isUnderscore (js "_") e).
  set (t := stripEnds (fun c => isWhiteSpace c || (c =? 46)) r).
  destruct (stripEnds_infix (fun c => isWhiteSpace c || (c =? 46)) r) as [a [b Ht]].
  fold t in Ht.
  assert (Q : forallb (fun c => negb (invalid c)) r = true).
  { apply forallb_replaceRunsFrom; [simpl; now rewrite H95|].
    apply forallb_replaceEach; [now rewrite H95 | now intros c ->]. }
  assert (D : doubled 95 r = false) by apply (replaceRunsFrom_doubled false e).
  split; [|split; [|split]].
  - unfold jlength. pose proof (firstn_le_length 255 t).
    rewrite length_firstn. lia.
  - apply not_true_iff_false. intros K. apply existsb_exists in K.
    destruct K as [x [Hin Hx]].
    pose proof (@forallb_infix _ _ _ _ _ (firstn_infix 255 t) (@forallb_infix _ _ _ _ _ Ht Q)) as F.
    rewrite forallb_forall in F. specialize (F x Hin). now rewrite Hx in F.
  - exact (@doubled_infix _ _ _ _ _ (firstn_infix 255 t) (@doubled_infix _ _ _ _ _ Ht D)).
  - apply startsOutside_firstn, stripEnds_start.
Qed.

(** X19. What either [sanitizeFileName] returns, the handler's or the
    hotfolder's, has at most 255 code units, holds none of the characters
    the function replaces, holds no two underscores in a row, and does not
    begin with white space or a dot. *)
Theorem sanitizeFileName_shape :
  forall fileName : jstring,
    (jlength (sanitizeFileName fileName) <= 255
     /\ existsb punctuationChar (sanitizeFileName fileName) = false
     /\ doubled 95 (sanitizeFileName fileName) = false
     /\ startsOutside (fun c => isWhiteSpace c || (c =? 46))
          (sanitizeFileName fileName) = true)
    /\ (jlength (hotfolderSanitizeFileName fileName) <= 255
        /\ existsb invalidFileChar (hotfolderSanitizeFileName fileName) = false
        /\ doubled 95 (hotfolderSanitizeFileName fileName) = false
        /\ startsOutside (fun c => isWhiteSpace c || (c =? 46))
             (hotfolderSanitizeFileName fileName) = true).
Proof.
  intros f. split.
  - exact (@sanitizeFileNameWith_shape punctuationChar f eq_refl).
  - exact (@sanitizeFileNameWith_shape invalidFileChar f eq_refl).
Qed.

(** X20. A name from the hotfolder's [sanitizeFileName] passes the
    character check and the length check of [validateFileName]: the only
    rejection left is a reserved device name. *)
Theorem hotfolder_name_validates :
  forall fileName : jstring,
    validateFileName (hotfolderSanitizeFileName fileName)
    = if testWhole reservedNames (hotfolderSanitizeFileName fileName)
      then Invalid (js "Dateiname ist ein reservierter Name") (js "RESERVED_NAME")
      else Valid (VStr (hotfolderSanitizeFileName fileName)) None.
Proof.
  intros f.
  destruct (@sanitizeFileNameWith_shape invalidFileChar f eq_refl) as [L [C _]].
  fold (hotfolderSanitizeFileName f) in L, C.
  unfold validateFileName. rewrite testSearch_cls, C.
  destruct (testWhole reservedNames (hotfolderSanitizeFileName f)); [reflexivity|].
  replace (255 <? jlength (hotfolderSanitizeFileName f)) with false
    by (symmetry; now apply N.ltb_ge).
  reflexivity.
Qed.

(** X21. What [sanitizeForFilename] returns has at most [maxLength] code
    units, holds no white space and no two underscores in a row, and does
    not begin with a dot or an underscore. *)
Theorem sanitizeForFilename_shape :
  forall (text : jstring) (maxLength : nat),
    (List.length (sanitizeForFilename text maxLength) <= maxLength)%nat
    /\ existsb isWhiteSpace (sanitizeForFilename text maxLength) = false
    /\ doubled 95 (sanitizeForFilename text maxLength) = false
    /\ startsOutside (fun c => (c =? 46) || (c =? 95))
         (sanitizeForFilename text maxLength) = true.
Proof.
  intros text n. unfold sanitizeForFilename, substring0.
  set (f := replaceFirst invalidFileChar 95 (trim text)).
  set (w := replaceRuns isWhiteSpace (js "_") f).
  set (r := replaceRuns isUnderscore (js "_") w).
  set (t := stripEnds (fun c => (c =? 46) || (c =? 95)) r).
  destruct (stripEnds_infix (fun c => (c =? 46) || (c =? 95)) r) as [a [b Ht]].
  fold t in Ht.
  assert (W : forallb (fun c => negb (isWhiteSpace c)) w = true).
  { apply replaceRunsFrom_removes. reflexivity. }
  assert (Q : forallb (fun c => negb (isWhiteSpace c)) r = true)
    by (apply forallb_replaceRunsFrom; [reflexivity | exact W]).
  assert (D : doubled 95 r = false) by apply (replaceRunsFrom_doubled false w).
  split; [|split; [|split]].
  - apply firstn_le_length.
  - apply not_true_iff_false. intros K. apply existsb_exists in K.
    destruct K as [x [Hin Hx]].
    pose proof (@forallb_infix _ _ _ _ _ (firstn_infix n t) (@forallb_infix _ _ _ _ _ Ht Q)) as F.
    rewrite forallb_forall in F. specialize (F x Hin). now rewrite Hx in F.
  - exact (@doubled_infix _ _ _ _ _ (firstn_infix n t) (@doubled_infix _ _ _ _ _ Ht D)).
  - apply startsOutside_firstn, stripEnds_start.
Qed.

(** *** [sanitizeForFilename] replaces one invalid character *)

Lemma isWordChar_facts (c : char16) :
  isWordChar c = true ->
  isWhiteSpace c = false /\ isUnderscore c = false /\ (c =? 46) = false
  /\ invalidFileChar c = false.
Proof.
  intros H.
  assert (B : c < 256).
  { revert H. unfold isWordChar, isLower, isUpper, isDigit, isUmlaut. simpl existsb.
    rewrite !orb_true_iff, !inRange_spec, !N.eqb_eq. lia. }
  assert (K : implb (isWordChar c)
                (negb (isWhiteSpace c) && negb (isUnderscore c) && negb (c =? 46)
                 && negb (invalidFileChar c)) = true).
  { apply (forall_below
             (fun c => implb (isWordChar c)
                         (negb (isWhiteSpace c) && negb (isUnderscore c) && negb (c =? 46)
                          && negb (invalidFileChar c)))
             256); [vm_compute; reflexivity | exact B]. }
  rewrite H in K. cbn [implb] in K.
  rewrite !andb_true_iff, !negb_true_iff in K. tauto.
Qed.

Lemma punctuationChar_facts (c : char16) :
  punctuationChar c = true ->
  isWhiteSpace c = false /\ isUnderscore c = false /\ (c =? 46) = false
  /\ invalidFileChar c = true.
Proof.
  intros H.
  assert (B : c < 128).
  { revert H. unfold punctuationChar. simpl existsb.
    rewrite !orb_true_iff, !N.eqb_eq. lia. }
  assert (K : implb (punctuationChar c)
                (negb (isWhiteSpace c) && negb (isUnderscore c) && negb (c =? 46)
                 && invalidFileChar c) = true).
  { apply (forall_below
             (fun c => implb (punctuationChar c)
                         (negb (isWhiteSpace c) && negb (isUnderscore c) && negb (c =? 46)
                          && invalidFileChar c))
             128); [vm_compute; reflexivity | exact B]. }
  rewrite H in K. cbn [implb] in K.
  rewrite !andb_true_iff, !negb_true_iff in K. tauto.
Qed.

Lemma replaceFirst_app (p : char16 -> bool) (by_ : char16) (a : jstring) (x : char16)
    (rest : jstring) :
  forallb (fun c => negb (p c)) a = true -> p x = true ->
  replaceFirst p by_ (a ++ x :: rest) = a ++ by_ :: rest.
Proof.
  intros Ha Hx. induction a as [|c a IH]; simpl; [now rewrite Hx|].
  simpl in Ha. apply andb_true_iff in Ha. destruct Ha as [Hc Ha].
  apply negb_true_iff in Hc. rewrite Hc. f_equal. now apply IH.
Qed.

(** A run of length one is replaced by itself. *)
Lemma replaceRuns_single (a rest : jstring) :
  forallb (fun c => negb (isUnderscore c)) a = true ->
  forallb (fun c => negb (isUnderscore c)) rest = true ->
  replaceRuns isUnderscore (js "_") (a ++ 95 :: rest) = a ++ 95 :: rest.
Proof.
  intros Ha Hr. unfold replaceRuns.
  induction a as [|c a IH].
  - cbn [app replaceRunsFrom]. replace (isUnderscore 95) with true by reflexivity.
    now rewrite (@replaceRunsFrom_none isUnderscore (js "_") true rest Hr).
  - simpl in Ha. apply andb_true_iff in Ha. destruct Ha as [Hc Ha].
    apply negb_true_iff in Hc. cbn [app replaceRunsFrom]. rewrite Hc.
    f_equal. now apply IH.
Qed.

Lemma dropWhile_start (p : char16 -> bool) (s : jstring) :
  startsOutside p s = true -> dropWhile p s = s.
Proof.
  destruct s as [|c s]; simpl; trivial. intros H.
  apply negb_true_iff in H. now rewrite H.
Qed.

Lemma stripEnds_none (p : char16 -> bool) (s : jstring) :
  startsOutside p s = true -> startsOutside p (rev s) = true -> stripEnds p s = s.
Proof.
  intros H1 H2. unfold stripEnds.
  now rewrite (dropWhile_start _ _ H1), (dropWhile_start _ _ H2), rev_involutive.
Qed.

(** X22. [INVALID_FILENAME_CHARS] has no [g] flag, so [sanitizeForFilename]
    replaces the first invalid character only.  In a text of letters and
    digits with two of the marks [< > : double quote / \ | ? *] inside, the
    first becomes an underscore and the second stays in the file name. *)
Theorem sanitizeForFilename_first_only :
  forall (a b c : jstring) (x y : char16) (maxLength : nat),
    a <> [] -> c <> [] ->
    forallb isWordChar a = true ->
    forallb isWordChar b = true ->
    forallb isWordChar c = true ->
    punctuationChar x = true ->
    punctuationChar y = true ->
    sanitizeForFilename (a ++ x :: b ++ y :: c) maxLength
    = substring0 maxLength (a ++ 95 :: b ++ y :: c).
Proof.
  intros a b c x y n Hane Hcne Ha Hb Hc Hx Hy.
  destruct (punctuationChar_facts x Hx) as [Wx [Ux [Dx Ix]]].
  destruct (punctuationChar_facts y Hy) as [Wy [Uy [Dy Iy]]].
  assert (F : forall (q : char16 -> bool) (l : jstring),
            (forall d, isWordChar d = true -> q d = false) ->
            forallb isWordChar l = true -> forallb (fun d => negb (q d)) l = true).
  { intros q l Hq Hl. rewrite forallb_forall in *. intros d Hd.
    now rewrite (Hq d (Hl d Hd)). }
  assert (FW := fun l => F isWhiteSpace l (fun d H => proj1 (isWordChar_facts d H))).
  assert (FU := fun l => F isUnderscore l
                          (fun d H => proj1 (proj2 (isWordChar_facts d H)))).
  assert (FI := fun l => F invalidFileChar l
                          (fun d H => proj2 (proj2 (proj2 (isWordChar_facts d H))))).
  unfold sanitizeForFilename.
  rewrite trim_none.
  2:{ rewrite forallb_app. cbn [forallb]. rewrite forallb_app. cbn [forallb].
      now rewrite (FW a Ha), (FW b Hb), (FW c Hc), Wx, Wy. }
  rewrite (@replaceFirst_app invalidFileChar 95 a x (b ++ y :: c) (FI a Ha) Ix).
  unfold replaceRuns at 2. rewrite replaceRunsFrom_none.
  2:{ rewrite forallb_app. cbn [forallb]. rewrite forallb_app. cbn [forallb].
      now rewrite (FW a Ha), (FW b Hb), (FW c Hc), Wy. }
  rewrite replaceRuns_single.
  2:{ exact (FU a Ha). }
  2:{ rewrite forallb_app. cbn [forallb]. now rewrite (FU b Hb), (FU c Hc), Uy. }
  rewrite stripEnds_none; [reflexivity | |].
  - destruct a as [|d a]; [congruence|]. cbn [app startsOutside].
    simpl in Ha. apply andb_true_iff in Ha. destruct Ha as [Hd _].
    destruct (isWordChar_facts d Hd) as [_ [U [D _]]].
    unfold isUnderscore in U. now rewrite U, D.
  - destruct (rev c) as [|d rc] eqn:E.
    { apply (f_equal (@rev char16)) in E. rewrite rev_involutive in E.
      simpl in E. congruence. }
    assert (Hd : isWordChar d = true).
    { rewrite forallb_forall in Hc. apply Hc. apply in_rev. rewrite E. now left. }
    change (a ++ 95 :: b ++ y :: c) with (a ++ (95 :: b) ++ (y :: c)).
    rewrite !rev_app_distr. change (rev (y :: c)) with (rev c ++ [y]).
    rewrite E. cbn [app startsOutside].
    destruct (isWordChar_facts d Hd) as [_ [U [D _]]].
    unfold isUnderscore in U. now rewrite U, D.
Qed.

Lemma sanitizeForFilename_first_only_witness :
  sanitizeForFilename (js "a:b/c") 255 = substring0 255 (js "a_b/c").
Proof.
  apply (@sanitizeForFilename_first_only (js "a") (js "b") (js "c") 58 47 255);
    try reflexivity; discriminate.
Defined.

(* ================================================================== *)
(** ** Duplicates *)
(* ================================================================== *)

Section KeepFirst.

Variable A : Type.
Variable keyOf : A -> jsval.

Lemma seen_spec (k : jsval) (seen : list jsval) :
  existsb (strictEquals k) seen = true <-> In k seen.
Proof.
  rewrite existsb_exists. unfold strictEquals. split.
  - intros [x [Hin E]]. apply jsval_eqb_eq in E. now subst.
  - intros H. exists k. split; [exact H | now apply jsval_eqb_eq].
Qed.

(** The filter of [removeDuplicates]: the keys of what it keeps are
    pairwise different and new, and for every new key it keeps the first
    item of the array that has it. *)
Lemma keepFirst_spec (array : list A) (seen : list jsval) :
  NoDup (map keyOf (keepFirst keyOf seen array))
  /\ (forall x, In x (keepFirst keyOf seen array) ->
        In x array /\ ~ In (keyOf x) seen)
  /\ (forall v, ~ In v seen ->
        find (fun item => strictEquals (keyOf item) v) (keepFirst keyOf seen array)
        = find (fun item => strictEquals (keyOf item) v) array).
Proof.
  revert seen. induction array as [|item rest IH]; intros seen; cbn [keepFirst].
  - repeat split; try constructor; contradiction.
  - destruct (existsb (strictEquals (keyOf item)) seen) eqn:E.
    + apply seen_spec in E. destruct (IH seen) as [N [I F]].
      split; [exact N|]. split.
      * intros x Hx. destruct (I x Hx). split; [now right | assumption].
      * intros v Hv. rewrite (F v Hv). cbn [find].
        destruct (strictEquals (keyOf item) v) eqn:K; [|reflexivity].
        apply jsval_eqb_eq in K. congruence.
    + assert (Hnew : ~ In (keyOf item) seen).
      { intros K. apply seen_spec in K. congruence. }
      destruct (IH (seen ++ [keyOf item])) as [N [I F]].
      split; [|split].
      * cbn [map]. constructor; [|exact N].
        intros K. apply in_map_iff in K. destruct K as [x [Ex Hx]].
        destruct (I x Hx) as [_ Hn]. apply Hn. rewrite Ex.
        apply in_or_app. right. now left.
      * intros x [<-|Hx]; [split; [now left | exact Hnew]|].
        destruct (I x Hx) as [Hin Hn]. split; [now right|].
        intros K. apply Hn. apply in_or_app. now left.
      * intros v Hv. cbn [find].
        destruct (strictEquals (keyOf item) v) eqn:K; [reflexivity|].
        apply F. intros J. apply in_app_or in J. destruct J as [J|[J|[]]]; [tauto|].
        subst v. unfold strictEquals in K.
        now rewrite (proj2 (jsval_eqb_eq _ _) eq_refl) in K.
Qed.

(** Where the keys are already pairwise different and new, all is kept. *)
Lemma keepFirst_NoDup (array : list A) (seen : list jsval) :
  NoDup (map keyOf array) ->
  (forall x, In x array -> ~ In (keyOf x) seen) ->
  keepFirst keyOf seen array = array.
Proof.
  revert seen. induction array as [|item rest IH]; intros seen N H; cbn [keepFirst]; trivial.
  destruct (existsb (strictEquals (keyOf item)) seen) eqn:E.
  - apply seen_spec in E. exfalso. exact (H item (or_introl eq_refl) E).
  - f_equal. cbn [map] in N. inversion N as [|k l Hk Hl]; subst.
    apply IH; [exact Hl|].
    intros x Hx K. apply in_app_or in K. destruct K as [K|[K|[]]].
    + exact (H x (or_intror Hx) K).
    + apply Hk. rewrite K. now apply in_map.
Qed.

End KeepFirst.

(** X23. [removeDuplicates(array)] on primitive values returns each value
    of the array once: the result has no duplicates and the same members,
    an array without duplicates is returned as it is, and a second pass
    changes nothing. *)
Theorem removeDuplicates_set :
  forall array : list jsval,
    NoDup (removeDuplicates array)
    /\ (forall v, In v (removeDuplicates array) <-> In v array)
    /\ (NoDup array -> removeDuplicates array = array)
    /\ removeDuplicates (removeDuplicates array) = removeDuplicates array.
Proof.
  intros array. unfold removeDuplicates.
  destruct (keepFirst_spec (fun v : jsval => v) array []) as [N [I F]].
  rewrite map_id in N.
  assert (K : forall l, NoDup l -> keepFirst (fun v : jsval => v) [] l = l).
  { intros l Hl. apply keepFirst_NoDup; [now rewrite map_id | auto]. }
  split; [exact N|]. split; [|split; [apply K | now apply K]].
  intros v. split; [intros H; now apply I|].
  intros H. specialize (F v (fun X => X)).
  destruct (find (fun item => strictEquals item v) array) as [w|] eqn:E.
  - apply find_some in F. destruct F as [Hin Hw].
    apply jsval_eqb_eq in Hw. now subst.
  - exfalso. apply (find_none _ _ E) in H. unfold strictEquals in H.
    now rewrite (proj2 (jsval_eqb_eq _ _) eq_refl) in H.
Qed.

(** X24. [removeDuplicates(array, key)] keeps, for every value of the
    property [key], the first object of the array that has it and no
    other: the values of [key] in the result are pairwise different, every
    object of the result is one of the array, and searching a value finds
    the same object in the result as in the array. *)
Theorem removeDuplicatesBy_first :
  forall (key : jstring) (array : list jsobject),
    key <> [] ->
    exists out,
      removeDuplicatesBy key array = Ok out
      /\ NoDup (map (fun item => getProperty item key) out)
      /\ (forall item, In item out -> In item array)
      /\ (forall v,
            find (fun item => strictEquals (getProperty item key) v) out
            = find (fun item => strictEquals (getProperty item key) v) array).
Proof.
  intros key array Hk. unfold removeDuplicatesBy.
  rewrite (proj2 (jstring_eqb_neq key []) Hk).
  destruct (keepFirst_spec (fun item : jsobject => getProperty item key) array [])
    as [N [I F]].
  eexists. split; [reflexivity|]. split; [exact N|]. split.
  - intros item H. now apply I.
  - intros v. apply F. intros [].
Qed.

Lemma removeDuplicatesBy_first_witness :
  exists out,
    removeDuplicatesBy (js "code")
      [ [(js "code", VStr (js "CX75")); (js "name", VStr (js "first"))];
        [(js "code", VStr (js "XL106")); (js "name", VStr (js "second"))];
        [(js "code", VStr (js "CX75")); (js "name", VStr (js "third"))] ] = Ok out
    /\ NoDup (map (fun item => getProperty item (js "code")) out)
    /\ (forall item, In item out ->
          In item
            [ [(js "code", VStr (js "CX75")); (js "name", VStr (js "first"))];
              [(js "code", VStr (js "XL106")); (js "name", VStr (js "second"))];
              [(js "code", VStr (js "CX75")); (js "name", VStr (js "third"))] ])
    /\ (forall v,
          find (fun item => strictEquals (getProperty item (js "code")) v) out
          = find (fun item => strictEquals (getProperty item (js "code")) v)
              [ [(js "code", VStr (js "CX75")); (js "name", VStr (js "first"))];
                [(js "code", VStr (js "XL106")); (js "name", VStr (js "second"))];
                [(js "code", VStr (js "CX75")); (js "name", VStr (js "third"))] ]).
Proof.
  apply (@removeDuplicatesBy_first (js "code")). discriminate.
Defined.

(* ================================================================== *)
(** ** The preview *)
(* ================================================================== *)

Lemma truthy_jsAnd (a b : jsval) : truthy (jsAnd a b) = truthy a && truthy b.
Proof. unfold jsAnd. destruct (truthy a) eqn:E; [reflexivity | exact E]. Qed.

Lemma fieldPresent_truthy (memberText : jstring -> jstring) (v : jsval) :
  fieldPresent memberText v = true -> truthy v = true.
Proof. unfold fieldPresent. intros H. apply andb_true_iff in H. tauto. Qed.

(** What [validateInput] lets through, [isFormValid] lets through. *)
Lemma validateInput_isFormValid (memberText : jstring -> jstring) (formData : FormData) :
  validateInput memberText formData = true -> truthy (isFormValid formData) = true.
Proof.
  rewrite validateInput_fields. unfold fieldValues, isFormValid. cbn [forallb].
  rewrite !andb_true_iff. intros [H1 [H2 [H3 [H4 [H5 [H6 [H7 [H8 _]]]]]]]].
  rewrite !truthy_jsAnd.
  now rewrite (fieldPresent_truthy _ _ H1), (fieldPresent_truthy _ _ H2),
    (fieldPresent_truthy _ _ H3), (fieldPresent_truthy _ _ H4),
    (fieldPresent_truthy _ _ H5), (fieldPresent_truthy _ _ H6),
    (fieldPresent_truthy _ _ H7), (fieldPresent_truthy _ _ H8).
Qed.

Lemma In_classRemove (name x : jstring) (classes : list jstring) :
  In x (classRemove name classes) <-> In x classes /\ x <> name.
Proof.
  unfold classRemove. rewrite filter_In, negb_true_iff, jstring_eqb_neq. tauto.
Qed.

Lemma In_classAdd (name x : jstring) (classes : list jstring) :
  In x (classAdd name classes) <-> In x classes \/ x = name.
Proof.
  unfold classAdd. destruct (existsb (jstring_eqb name) classes) eqn:E.
  - split; [tauto|]. intros [H| ->]; trivial.
    apply existsb_exists in E. destruct E as [y [Hy Ey]].
    apply jstring_eqb_eq in Ey. now subst.
  - rewrite in_app_iff. simpl. split; intros [H|H]; auto.
    + destruct H as [H|[]]. now right.
Qed.

(** X25. [updateProductCode] shows the generated code whenever [generate]
    returns one: its second test, [isFormValid], never fails on a code that
    is not empty.  The parent element then has the class [success] and not
    [error]; with the empty code the placeholder is shown, [success] is
    taken away and [error] stays as it was. *)
Theorem updateProductCode_shows :
  forall (toLowerCase memberText : jstring -> jstring)
         (formData : FormData) (config : Config) (before : Preview) (code : jstring),
    generate toLowerCase memberText formData config = Ok code ->
    exists after,
      updateProductCode toLowerCase memberText formData config before = Ok after
      /\ (code <> [] ->
          textContent after = code
          /\ In (js "success") (parentClasses after)
          /\ ~ In (js "error") (parentClasses after))
      /\ (code = [] ->
          textContent after = js "Bitte alle Felder ausf\u00fcllen..."
          /\ ~ In (js "success") (parentClasses after)
          /\ (In (js "error") (parentClasses after)
              <-> In (js "error") (parentClasses before))).
Proof.
  intros lower text fd cfg before code G.
  unfold updateProductCode. rewrite G. cbn [bind].
  rewrite truthy_jsAnd. cbn [truthy].
  destruct code as [|c code].
  - cbn [jstring_eqb negb andb]. eexists. split; [reflexivity|].
    split; [congruence|]. intros _. cbn [textContent parentClasses].
    split; [reflexivity|]. rewrite !In_classRemove. split; [tauto|].
    split; [tauto|]. intros H. split; [exact H | discriminate].
  - assert (V : validateInput text fd = true).
    { unfold generate in G. destruct (validateInput text fd); [reflexivity|].
      simpl in G. discriminate. }
    rewrite (validateInput_isFormValid _ _ V).
    cbn [jstring_eqb negb andb]. eexists. split; [reflexivity|].
    split; [|discriminate]. intros _. cbn [textContent parentClasses].
    split; [reflexivity|]. rewrite !In_classAdd, !In_classRemove. split; [now right|].
    intros [[_ H]|H]; [now apply H | discriminate].
Qed.

Lemma updateProductCode_shows_witness :
  exists after,
    updateProductCode asciiToLowerCase builtinText exampleData exampleConfig
      (mkPreview [] [js "preview"; js "error"]) = Ok after
    /\ (js "A12345-1#TestKunde-BRFPP#CX75_u_s_NoSat170#1200#D-NoSat170#" <> [] ->
        textContent after = js "A12345-1#TestKunde-BRFPP#CX75_u_s_NoSat170#1200#D-NoSat170#"
        /\ In (js "success") (parentClasses after)
        /\ ~ In (js "error") (parentClasses after))
    /\ (js "A12345-1#TestKunde-BRFPP#CX75_u_s_NoSat170#1200#D-NoSat170#" = [] ->
        textContent after = js "Bitte alle Felder ausf\u00fcllen..."
        /\ ~ In (js "success") (parentClasses after)
        /\ (In (js "error") (parentClasses after)
            <-> In (js "error") (parentClasses (mkPreview [] [js "preview"; js "error"])))).
Proof.
  apply (@updateProductCode_shows asciiToLowerCase builtinText exampleData exampleConfig).
  vm_compute. reflexivity.
Defined.

(* ================================================================== *)
(** ** The two field validators called on their own *)
(* ================================================================== *)

(** X26. [validateAuftragsnummer] accepts exactly the strings made of an
    [A] and one digit or more, and returns them unchanged.  A string that
    does not begin with [A] gets [INVALID_PREFIX], any other rejected one
    [INVALID_FORMAT]; the third check cannot fail after the second, so
    [TOO_SHORT] is never returned. *)
Theorem validateAuftragsnummer_cases :
  forall value : jstring,
    (isOrderNumber value <-> validateAuftragsnummer value = Valid (VStr value) None)
    /\ (isValid (validateAuftragsnummer value) = true
        \/ (startsWith value (js "A") = false
            /\ validateAuftragsnummer value
               = Invalid (js "Auftragsnummer muss mit \u0022A\u0022 beginnen")
                   (js "INVALID_PREFIX"))
        \/ (startsWith value (js "A") = true
            /\ validateAuftragsnummer value
               = Invalid (js "Auftragsnummer darf nur \u0022A\u0022 gefolgt von Zahlen enthalten")
                   (js "INVALID_FORMAT")))
    /\ (forall e, validateAuftragsnummer value <> Invalid e (js "TOO_SHORT")).
Proof.
  intros value. unfold validateAuftragsnummer.
  destruct (startsWith value (js "A")) eqn:S; cbn [negb].
  - destruct (testWhole auftragsnummerPattern value) eqn:T; cbn [negb].
    + apply auftragsnummerPattern_shape in T.
      replace (jlength value <? 2) with false
        by (symmetry; apply N.ltb_ge; now apply isOrderNumber_length).
      split; [tauto|]. split; [now left | discriminate].
    + split; [|split].
      * split; [|discriminate]. intros H. apply auftragsnummerPattern_shape in H.
        congruence.
      * right. right. split; reflexivity.
      * intros e K. injection K as _ K. vm_compute in K. discriminate.
  - split; [|split].
    + split; [|discriminate]. intros H. apply isOrderNumber_prefix in H. congruence.
    + right. left. split; reflexivity.
    + intros e K. injection K as _ K. vm_compute in K. discriminate.
Qed.

(** X27. [validateAuflage] strips apostrophes U+0027 and white space and
    accepts exactly when digits remain whose value is from 1 to 1'000'000;
    it then returns the input, that value, and the value formatted by
    [formatSwissNumber], with the grouping separator of the engine.  The
    rejections are [NOT_NUMERIC], [TOO_SMALL] (the
    value is 0) and [TOO_LARGE]. *)
Theorem validateAuflage_cases_all :
  forall groupSeparator value : jstring,
    let clean := removeAll strippable value in
    let v := digitsValue clean in
    ((clean <> [] /\ forallb isDigit clean = true /\ 1 <= v <= 1000000)
     /\ validateAuflage groupSeparator value = AuflageValid value (Num (Z.of_N v)) (formatSwissNumber groupSeparator v))
    \/ ((clean = [] \/ forallb isDigit clean = false)
        /\ validateAuflage groupSeparator value
           = AuflageInvalid (js "Auflage muss eine Zahl sein (z.B. 1'200 oder 1200)")
               (js "NOT_NUMERIC"))
    \/ ((clean <> [] /\ forallb isDigit clean = true /\ v = 0)
        /\ validateAuflage groupSeparator value
           = AuflageInvalid (js "Auflage muss mindestens 1 sein") (js "TOO_SMALL"))
    \/ ((forallb isDigit clean = true /\ 1000000 < v)
        /\ validateAuflage groupSeparator value
           = AuflageInvalid (js "Auflage darf maximal 1'000'000 sein") (js "TOO_LARGE")).
Proof.
  intros gs value clean v. unfold validateAuflage. fold clean.
  destruct (testWhole digitsPattern clean) eqn:T; cbn [negb].
  - apply testWhole_plus_cls in T. destruct T as [Hne Hd].
    rewrite (parseInt10_digits Hne Hd). fold v.
    destruct (Z.of_N v <? 1)%Z eqn:L1.
    + apply Z.ltb_lt in L1. right. right. left.
      split; [|reflexivity]. repeat split; trivial. lia.
    + apply Z.ltb_ge in L1.
      destruct (Z.of_N v >? 1000000)%Z eqn:L2; rewrite Z.gtb_ltb in L2.
      * apply Z.ltb_lt in L2. right. right. right.
        split; [|reflexivity]. split; [assumption | lia].
      * apply Z.ltb_ge in L2. left. rewrite N2Z.id.
        split; [|reflexivity]. repeat split; trivial; lia.
  - right. left. split; [|reflexivity].
    destruct clean as [|c r] eqn:E; [now left | right].
    apply not_true_iff_false. intros Hd.
    assert (K : testWhole digitsPattern (c :: r) = true)
      by (apply testWhole_plus_cls; split; [discriminate | exact Hd]).
    congruence.
Qed.
